(** * LiveTranslate: the transcription relay, the session API and the
      confidence display, embedded in Rocq

    The development follows the layout of the repository:

    - [JS]: the fragment of JavaScript values the code computes with
      (IEEE 754 binary64 numbers, strings in UTF-8, truthiness, [||],
      [trim], base64);
    - [RecordScreen], [SessionDetailScreen]: [getConfidenceOpacity]
      (client/screens);
    - [Storage]: the tables of shared/schema.ts and the queries of
      server/storage.ts;
    - [Routes]: [translateWithLemur], the REST handlers for login and
      finalize, and the WebSocket relay of [registerRoutes]
      (server/routes.ts);
    - [Spec]: the terms in which the properties are stated;
    - [Sample]: one concrete world, for the examples.

    Conventions. A handler is written with explicit state passing: it
    takes the state it closes over and returns the new state with the
    list of calls it made on the sockets, in program order; logging is
    left out. An exception that the source catches shows as the result of
    the [catch] block. A parsed JSON payload is a record of optional
    fields, [None] for an absent field, each of the type the source
    declares for it; what lies outside the process (environment
    variables, JWT, bcrypt, the LeMUR endpoint, [JSON.parse], PostgreSQL)
    is a parameter, gathered in [Routes.World]. *)

From Stdlib Require Import ZArith List String Ascii Bool Lia.
From Stdlib Require Import Strings.Byte.
From Stdlib Require Import Floats.SpecFloat.
From Stdlib Require Import DecimalString DecimalZ.
From stdpp Require Import gmap strings list.

Import ListNotations.
Local Open Scope string_scope.
Local Open Scope list_scope.

(** ** JavaScript values *)

Module JS.

(** A JavaScript [number] is an IEEE 754 binary64 float; the operations
    are those of the standard's specification, at precision 53 and
    maximal exponent 1024. *)
Definition number : Type := spec_float.

Definition of_Z (z : Z) : number := binary_normalize 53 1024 z 0 false.
Definition of_nat (n : nat) : number := of_Z (Z.of_nat n).

Definition add (x y : number) : number := SFadd 53 1024 x y.
Definition mul (x y : number) : number := SFmul 53 1024 x y.
Definition div (x y : number) : number := SFdiv 53 1024 x y.

(** [x >= y], [x > y], [x < y] and [x === y] on numbers. *)
Definition geb (x y : number) : bool := SFleb y x.
Definition gtb (x y : number) : bool := SFltb y x.
Definition ltb (x y : number) : bool := SFltb x y.
Definition eqb (x y : number) : bool := SFeqb x y.

(** The literals of the source, as the doubles they denote. *)
Definition zero : number := S754_zero false.
Definition one : number := S754_finite false 4503599627370496 (-52).
Definition lit_0_5 : number := S754_finite false 4503599627370496 (-53).
Definition lit_0_7 : number := S754_finite false 6305039478318694 (-53).
Definition lit_0_8 : number := S754_finite false 7205759403792794 (-53).
Definition lit_0_9 : number := S754_finite false 8106479329266893 (-53).
Definition lit_5000 : number := S754_finite false 5497558138880000 (-40).

(** Truthiness: a number is falsy when it is [+0], [-0] or [NaN]; a
    string when it is empty; [undefined] (an absent field) always. *)
Definition truthy_num (x : number) : bool :=
  match x with
  | S754_zero _ | S754_nan => false
  | _ => true
  end.

Definition truthy_str (s : string) : bool :=
  match s with
  | EmptyString => false
  | String _ _ => true
  end.

Definition truthy_opt {A} (truthy : A -> bool) (x : option A) : bool :=
  match x with
  | Some v => truthy v
  | None => false
  end.

(** [x || d] where [x] is a possibly absent field and [d] a default of
    the same type. *)
Definition or_else {A} (truthy : A -> bool) (x : option A) (d : A) : A :=
  match x with
  | Some v => if truthy v then v else d
  | None => d
  end.

(** [x || y] where both sides are possibly absent fields. *)
Definition or_opt {A} (truthy : A -> bool) (x y : option A) : option A :=
  if truthy_opt truthy x then x else y.

Definition or_num := @or_else number truthy_num.
Definition or_str := @or_else string truthy_str.

(** *** Strings *)

(** A string is held as the bytes of its UTF-8 encoding, one [ascii] for
    each byte; a surrogate that stands without its pair, which a
    JavaScript string may hold, as the three bytes of its code point.
    Equality and concatenation of strings are those of the bytes, and the
    empty string is the only falsy one. What JavaScript counts in UTF-16
    code units ([length], [slice]) is counted on the code units the bytes
    stand for. *)

(** The kind of a byte: a character of its own, a byte that continues a
    character, or the first of two, three or four bytes. *)
Inductive Utf8 := Single | Continuation | Lead2 | Lead3 | Lead4.

Definition utf8 (c : ascii) : Utf8 :=
  let n := N_of_ascii c in
  if (n <? 128)%N then Single
  else if (n <? 192)%N then Continuation
  else if (n <? 224)%N then Lead2
  else if (n <? 240)%N then Lead3
  else Lead4.

(** The six bits that byte [k] of [s] adds to the code point of the
    first byte before [s]; nothing where the character breaks off. *)
Fixpoint payload (k : nat) (s : string) {struct s} : N :=
  match s with
  | String c s' =>
      match utf8 c with
      | Continuation =>
          match k with
          | O => (N_of_ascii c mod 64)%N
          | S k' => payload k' s'
          end
      | _ => 0%N
      end
  | EmptyString => 0%N
  end.

(** The code point of a character of four bytes, from its first byte
    and the bytes that follow, and its two surrogates. *)
Definition code_point4 (c : ascii) (s : string) : N :=
  (N_of_ascii c mod 8 * 262144 + payload 0 s * 4096 + payload 1 s * 64 + payload 2 s)%N.

Definition high_surrogate (u : N) : N := (55296 + (u - 65536) / 1024)%N.
Definition low_surrogate (u : N) : N := (56320 + (u - 65536) mod 1024)%N.

(** The UTF-16 code units of a string. *)
Fixpoint units (s : string) : list N :=
  match s with
  | String c s' =>
      match utf8 c with
      | Single => N_of_ascii c :: units s'
      | Continuation => units s'
      | Lead2 => (N_of_ascii c mod 32 * 64 + payload 0 s')%N :: units s'
      | Lead3 =>
          (N_of_ascii c mod 16 * 4096 + payload 0 s' * 64 + payload 1 s')%N :: units s'
      | Lead4 =>
          high_surrogate (code_point4 c s') :: low_surrogate (code_point4 c s') :: units s'
      end
  | EmptyString => []
  end.

(** [s.length] *)
Definition string_length (s : string) : nat := length (units s).

(** [String.prototype.trim] removes white space and line terminators
    from both ends. In one byte these are tab, line feed, vertical tab,
    form feed, carriage return and space; in two bytes U+00A0; in three
    bytes U+1680, U+2000 to U+200A, U+2028, U+2029, U+202F, U+205F,
    U+3000 and U+FEFF. *)
Definition is_white_space (c : ascii) : bool :=
  let n := N_of_ascii c in
  ((9 <=? n) && (n <=? 13) || (n =? 32))%N.

Definition is_white_space2 (c d : ascii) : bool :=
  ((N_of_ascii c =? 194) && (N_of_ascii d =? 160))%N.

Definition is_white_space3 (c d e : ascii) : bool :=
  let x := N_of_ascii c in
  let y := N_of_ascii d in
  let z := N_of_ascii e in
  ((x =? 225) && (y =? 154) && (z =? 128)
   || (x =? 226) && (y =? 128)
      && ((128 <=? z) && (z <=? 138) || (z =? 168) || (z =? 169) || (z =? 175))
   || (x =? 226) && (y =? 129) && (z =? 159)
   || (x =? 227) && (y =? 128) && (z =? 128)
   || (x =? 239) && (y =? 187) && (z =? 191))%N.

Fixpoint trim_start (s : string) : string :=
  match s with
  | String c s1 =>
      if is_white_space c then trim_start s1
      else
        match s1 with
        | String d s2 =>
            if is_white_space2 c d then trim_start s2
            else
              match s2 with
              | String e s3 => if is_white_space3 c d e then trim_start s3 else s
              | EmptyString => s
              end
        | EmptyString => s
        end
  | EmptyString => EmptyString
  end.

(** The end of a string is trimmed by dropping its longest suffix of
    white space: nothing is left of a string of white space, and the
    first byte stays otherwise. *)
Fixpoint trim_end (s : string) : string :=
  match s with
  | String c s' =>
      match trim_start s with
      | EmptyString => EmptyString
      | String _ _ => String c (trim_end s')
      end
  | EmptyString => EmptyString
  end.

Definition trim (s : string) : string := trim_end (trim_start s).

(** [s.split(" ").length]: one more than the number of spaces. *)
Fixpoint split_space_length (s : string) : nat :=
  match s with
  | String c s' =>
      if (N_of_ascii c =? 32)%N then S (split_space_length s')
      else split_space_length s'
  | EmptyString => 1
  end.

(** [new Set(xs).size]: the number of distinct elements. *)
Definition set_size {A} `{EqDecision A} (xs : list A) : nat :=
  length (remove_dups xs).

(** [Buffer.prototype.toString()], on a buffer of UTF-8 as a JSON text
    is, and [toString("base64")]. *)
Definition Buffer_toString (b : list byte) : string := string_of_list_byte b.

Module Base64.

Definition alphabet : string :=
  "ABCDEFGHIJKLMNOPQRSTUVWXYZabcdefghijklmnopqrstuvwxyz0123456789+/".

Definition pad : ascii := "="%char.

Definition digit (n : N) : ascii :=
  match String.get (N.to_nat n) alphabet with
  | Some c => c
  | None => pad
  end.

(** Three bytes make four 6-bit digits; a last group of one or two
    bytes is completed with zero bits and padded with [=]. *)
Fixpoint encode (bs : list byte) : string :=
  match bs with
  | [] => EmptyString
  | [a] =>
      let x := Byte.to_N a in
      String (digit (x / 4))
        (String (digit (x mod 4 * 16)) (String pad (String pad EmptyString)))
  | [a; b] =>
      let x := Byte.to_N a in
      let y := Byte.to_N b in
      String (digit (x / 4))
        (String (digit (x mod 4 * 16 + y / 16))
           (String (digit (y mod 16 * 4)) (String pad EmptyString)))
  | a :: b :: c :: rest =>
      let x := Byte.to_N a in
      let y := Byte.to_N b in
      let z := Byte.to_N c in
      String (digit (x / 4))
        (String (digit (x mod 4 * 16 + y / 16))
           (String (digit (y mod 16 * 4 + z / 64))
              (String (digit (z mod 64)) (encode rest))))
  end%N.

(** The value of a digit, for the receiving side. *)
Definition value (c : ascii) : option N :=
  let n := N_of_ascii c in
  if ((65 <=? n) && (n <=? 90))%N then Some (n - 65)%N
  else if ((97 <=? n) && (n <=? 122))%N then Some (n - 71)%N
  else if ((48 <=? n) && (n <=? 57))%N then Some (n + 4)%N
  else if (n =? 43)%N then Some 62%N
  else if (n =? 47)%N then Some 63%N
  else None.

Definition byte_of (n : N) : list byte :=
  match Byte.of_N n with
  | Some b => [b]
  | None => []
  end.

(** Decoding, four characters at a time; it stops at the padding. *)
Fixpoint decode (s : string) : list byte :=
  match s with
  | String c1 (String c2 (String c3 (String c4 rest))) =>
      match value c1, value c2, value c3, value c4 with
      | Some p, Some q, Some r, Some t =>
          (byte_of (p * 4 + q / 16)
             ++ byte_of (q mod 16 * 16 + r / 4)
             ++ byte_of (r mod 4 * 64 + t) ++ decode rest)%list
      | Some p, Some q, Some r, None =>
          (byte_of (p * 4 + q / 16) ++ byte_of (q mod 16 * 16 + r / 4))%list
      | Some p, Some q, None, _ => byte_of (p * 4 + q / 16)
      | _, _, _, _ => []
      end
  | _ => []
  end%N.

End Base64.

End JS.

(** ** client/screens/RecordScreen.tsx *)

Module RecordScreen.

(** [function getConfidenceOpacity(confidence?: number): number] *)
Definition getConfidenceOpacity (confidence : option JS.number) : JS.number :=
  if negb (JS.truthy_opt JS.truthy_num confidence) then JS.one
  else match confidence with
       | None => JS.one
       | Some c =>
           if JS.geb c JS.lit_0_9 then JS.one
           else if JS.geb c JS.lit_0_7 then JS.lit_0_8
           else JS.lit_0_5
       end.

End RecordScreen.

(** ** client/screens/SessionDetailScreen.tsx *)

Module SessionDetailScreen.

(** The same function, declared a second time at module level. *)
Definition getConfidenceOpacity (confidence : option JS.number) : JS.number :=
  if negb (JS.truthy_opt JS.truthy_num confidence) then JS.one
  else match confidence with
       | None => JS.one
       | Some c =>
           if JS.geb c JS.lit_0_9 then JS.one
           else if JS.geb c JS.lit_0_7 then JS.lit_0_8
           else JS.lit_0_5
       end.

End SessionDetailScreen.

(** ** shared/schema.ts and server/storage.ts *)

Module Storage.

(** Rows of the [users] table; [email] is unique. *)
Record User := {
  user_id : string;
  user_email : string;
  user_password : string;
  user_name : string }.

(** Rows of [transcription_sessions], by the columns the handlers read
    or write. *)
Record TranscriptionSession := {
  session_userId : string;
  session_sourceLanguage : string;
  session_targetLanguage : string;
  session_duration : option JS.number;
  session_speakerCount : option nat;
  session_avgConfidence : option JS.number;
  session_totalWordCount : option nat }.

(** [InsertUtterance]: a row of [utterances] before the database adds
    [id] and [createdAt]. The two texts are [NOT NULL] columns fed from
    fields that may be absent. *)
Record InsertUtterance := {
  utt_sessionId : Z;
  utt_speakerLabel : string;
  utt_originalText : option string;
  utt_translatedText : option string;
  utt_confidence : JS.number;
  utt_startTime : JS.number;
  utt_endTime : JS.number }.

(** The [Partial<InsertSession>] that finalize passes to [updateSession]. *)
Record SessionUpdate := {
  upd_duration : JS.number;
  upd_speakerCount : nat;
  upd_avgConfidence : JS.number;
  upd_totalWordCount : nat }.

(** The database: [users] by email, sessions by id, and the utterance
    table in insertion order. A column holds a value as a SELECT returns
    it. *)
Record DatabaseStorage := {
  users : gmap string User;
  transcriptionSessions : gmap Z TranscriptionSession;
  utterances : list InsertUtterance }.

(** Whether PostgreSQL accepts a statement (NOT NULL and column type
    checks); a rejected statement throws and changes nothing. And what a
    column of type [real] returns for a number that was written to it:
    PostgreSQL keeps the nearest binary32 number, and the driver reads
    the shortest decimal that denotes it. *)
Record Postgres := {
  accepts_insert : list InsertUtterance -> bool;
  accepts_update : Z -> SessionUpdate -> bool;
  real : JS.number -> JS.number }.

Definition getUserByEmail (db : DatabaseStorage) (email : string) : option User :=
  users db !! email.

Definition getSessionById (db : DatabaseStorage) (id : Z)
  : option TranscriptionSession :=
  transcriptionSessions db !! id.

(** [avg_confidence] is a [real] column; the other three columns that
    finalize sets are [integer] columns, which hold the whole numbers
    the database accepts as they are. *)
Definition apply_update (pg : Postgres) (data : SessionUpdate) (s : TranscriptionSession)
  : TranscriptionSession :=
  {| session_userId := session_userId s;
     session_sourceLanguage := session_sourceLanguage s;
     session_targetLanguage := session_targetLanguage s;
     session_duration := Some (upd_duration data);
     session_speakerCount := Some (upd_speakerCount data);
     session_avgConfidence := Some (real pg (upd_avgConfidence data));
     session_totalWordCount := Some (upd_totalWordCount data) |}.

(** A row of [utterances] as the table holds it: [confidence] is a
    [real] column, [start_time] and [end_time] are [integer] columns. *)
Definition stored_utterance (pg : Postgres) (row : InsertUtterance) : InsertUtterance :=
  {| utt_sessionId := utt_sessionId row;
     utt_speakerLabel := utt_speakerLabel row;
     utt_originalText := utt_originalText row;
     utt_translatedText := utt_translatedText row;
     utt_confidence := real pg (utt_confidence row);
     utt_startTime := utt_startTime row;
     utt_endTime := utt_endTime row |}.

(** [None] stands for a rejected promise. *)
Definition updateSession (pg : Postgres) (db : DatabaseStorage) (id : Z)
    (data : SessionUpdate) : option DatabaseStorage :=
  if accepts_update pg id data then
    Some {| users := users db;
            transcriptionSessions :=
              alter (apply_update pg data) id (transcriptionSessions db);
            utterances := utterances db |}
  else None.

Definition createUtterances (pg : Postgres) (db : DatabaseStorage)
    (data : list InsertUtterance) : option DatabaseStorage :=
  match data with
  | [] => Some db
  | _ :: _ =>
      if accepts_insert pg data then
        Some {| users := users db;
                transcriptionSessions := transcriptionSessions db;
                utterances := utterances db ++ map (stored_utterance pg) data |}
      else None
  end.

(** The rows of one session in insertion order: the selection of
    [getUtterancesBySessionId], before its [ORDER BY]. *)
Definition utterances_of (db : DatabaseStorage) (id : Z)
  : list InsertUtterance :=
  filter (fun u => utt_sessionId u = id) (utterances db).

End Storage.

(** ** server/routes.ts *)

Module Routes.

Import Storage.

(** *** Messages *)

(** What [JSON.parse] yields for a frame from the client, by the fields
    the handler reads. A field is [None] when it is absent. *)
Record ClientMessage := {
  msg_type : option string;
  msg_token : option string;
  msg_sessionId : option JS.number;
  msg_sourceLanguage : option string;
  msg_targetLanguage : option string;
  msg_userId : option string }.

(** What [JSON.parse] yields for a message of the transcription
    provider. *)
Record AssemblyResult := {
  res_message_type : option string;
  res_text : option string;
  res_confidence : option JS.number;
  res_audio_start : option JS.number;
  res_audio_end : option JS.number }.

(** The objects the relay serialises to the client, tagged by [type]. *)
Inductive ServerMessage :=
| MsgError (message : string)
| MsgAuthSuccess
| MsgReady
| MsgStopped
| MsgTranslation (speaker originalText translatedText : string)
    (confidence startTime endTime : JS.number).

Definition type_of (m : ServerMessage) : string :=
  match m with
  | MsgError _ => "error"
  | MsgAuthSuccess => "auth_success"
  | MsgReady => "ready"
  | MsgStopped => "stopped"
  | MsgTranslation _ _ _ _ _ _ => "translation"
  end.

(** The objects the relay serialises to the provider:
    [{ terminate_session: true }] and [{ audio_data: ... }]. *)
Inductive AssemblyMessage :=
| TerminateSession
| AudioData (audio_data : string).

(** A frame as the [message] event of the client socket hands it over. *)
Inductive RawData :=
| StringData (s : string)
| BufferData (b : list byte).

Definition toString (data : RawData) : string :=
  match data with
  | StringData s => s
  | BufferData b => JS.Buffer_toString b
  end.

(** *** HTTP *)

(** A value of a request body where the handler expects a string: a
    string, or a value of another type (a number, a boolean, an array,
    an object), of which the handler tests the truthiness. *)
Inductive Json :=
| JString (s : string)
| JOther (truthy : bool).

Definition truthy_json (v : Json) : bool :=
  match v with
  | JString s => JS.truthy_str s
  | JOther truthy => truthy
  end.

Inductive Body :=
| BodyError (error : string)
| BodyAuth (token id email name : string)
| BodyFinalized (sessionId : Z).

Record Response := { status : nat; body : Body }.

(** An utterance as it is submitted in the body of a finalize request. *)
Record SubmittedUtterance := {
  u_speaker : option string;
  u_text : option string;
  u_originalText : option string;
  u_translatedText : option string;
  u_confidence : option JS.number;
  u_startTime : option JS.number;
  u_endTime : option JS.number }.

(** *** The world outside the process *)

(** The outcome of the request to the LeMUR task endpoint: the request
    or the decoding of its body threw, the status was not ok, or the
    body was read, with its [response] field when there is one. *)
Inductive LemurReply :=
| LemurThrew
| LemurNotOk
| LemurOk (response : option string).

(** The environment variables and the libraries the routes call. A
    library call that throws returns [None]. [lemur_task] is the reply
    to the prompt built from source language, target language and text
    under an API key; [JSON_parse_*] is [JSON.parse] followed by the
    reading of the fields (reading a field of [null] throws too). *)
Record World := {
  SESSION_SECRET : option string;
  ASSEMBLYAI_API_KEY : option string;
  jwt_verify : option string -> string -> option string;
  jwt_sign : string -> string -> option string;
  bcrypt_compare : string -> string -> option bool;
  lemur_task : string -> string -> string -> string -> LemurReply;
  JSON_parse_client : string -> option ClientMessage;
  JSON_parse_assembly : string -> option AssemblyResult;
  postgres : Postgres }.

(** *** The relay's state *)

Inductive ReadyState := CONNECTING | OPEN | CLOSING | CLOSED.

Record SessionConfig := {
  cfg_sessionId : option JS.number;
  cfg_sourceLanguage : string;
  cfg_targetLanguage : string;
  cfg_userId : option string }.

(** The variables one connection closes over, and the sockets: the
    client socket and every provider socket created so far, by creation
    order, with their ready states. [assemblyWs] names one of them. *)
Record Relay := {
  assemblyWs : option nat;
  sessionConfig : option SessionConfig;
  isAuthenticated : bool;
  assemblyApiKey : option string;
  clientWs : ReadyState;
  sockets : list ReadyState }.

(** The calls a handler makes on the sockets. *)
Inductive Call :=
| ClientSend (m : ServerMessage)
| ClientClose
| AssemblyNew (id : nat) (url authorization : string)
| AssemblySend (id : nat) (m : AssemblyMessage)
| AssemblyClose (id : nat).

(** The events delivered to the handlers of one connection. *)
Inductive Event :=
| OnClientMessage (data : RawData)
| OnClientClose
| OnClientError
| OnAssemblyOpen (id : nat)
| OnAssemblyMessage (id : nat) (data : string)
| OnAssemblyError (id : nat)
| OnAssemblyClose (id : nat).

Definition initial : Relay :=
  {| assemblyWs := None; sessionConfig := None; isAuthenticated := false;
     assemblyApiKey := None; clientWs := OPEN; sockets := [] |}.

Definition set_clientWs (r : ReadyState) (st : Relay) : Relay :=
  {| assemblyWs := assemblyWs st; sessionConfig := sessionConfig st;
     isAuthenticated := isAuthenticated st; assemblyApiKey := assemblyApiKey st;
     clientWs := r; sockets := sockets st |}.

Definition set_socket (id : nat) (r : ReadyState) (st : Relay) : Relay :=
  {| assemblyWs := assemblyWs st; sessionConfig := sessionConfig st;
     isAuthenticated := isAuthenticated st; assemblyApiKey := assemblyApiKey st;
     clientWs := clientWs st; sockets := <[id := r]> (sockets st) |}.

Definition set_isAuthenticated (b : bool) (st : Relay) : Relay :=
  {| assemblyWs := assemblyWs st; sessionConfig := sessionConfig st;
     isAuthenticated := b; assemblyApiKey := assemblyApiKey st;
     clientWs := clientWs st; sockets := sockets st |}.

Definition set_sessionConfig (c : SessionConfig) (st : Relay) : Relay :=
  {| assemblyWs := assemblyWs st; sessionConfig := Some c;
     isAuthenticated := isAuthenticated st; assemblyApiKey := assemblyApiKey st;
     clientWs := clientWs st; sockets := sockets st |}.

Definition set_assemblyApiKey (k : option string) (st : Relay) : Relay :=
  {| assemblyWs := assemblyWs st; sessionConfig := sessionConfig st;
     isAuthenticated := isAuthenticated st; assemblyApiKey := k;
     clientWs := clientWs st; sockets := sockets st |}.

(** [assemblyWs = new WebSocket(...)]: a further socket, connecting. *)
Definition new_assemblyWs (st : Relay) : Relay :=
  {| assemblyWs := Some (length (sockets st)); sessionConfig := sessionConfig st;
     isAuthenticated := isAuthenticated st; assemblyApiKey := assemblyApiKey st;
     clientWs := clientWs st; sockets := sockets st ++ [CONNECTING] |}.

(** [assemblyWs && assemblyWs.readyState === WebSocket.OPEN] *)
Definition assemblyWs_open (st : Relay) : option nat :=
  match assemblyWs st with
  | Some id =>
      match sockets st !! id with
      | Some OPEN => Some id
      | _ => None
      end
  | None => None
  end.

Definition assemblyUrl : string :=
  "wss://api.assemblyai.com/v2/realtime/ws?sample_rate=16000".

Section Handlers.

Context (W : World).

Definition JWT_SECRET : string :=
  JS.or_str (SESSION_SECRET W) "dev-secret-change-in-prod".

(** [function verifyToken(token)]: the decoded payload, or [null]. *)
Definition verifyToken (token : option string) : option string :=
  jwt_verify W token JWT_SECRET.

(** [async function translateWithLemur(text, sourceLanguage,
    targetLanguage, apiKey)]; the [length] of a string is 0 when it has
    no byte, and then only. *)
Definition translateWithLemur (text sourceLanguage targetLanguage apiKey : string)
  : string :=
  if negb (JS.truthy_str text) || (String.length (JS.trim text) =? 0)%nat then text
  else if String.eqb sourceLanguage targetLanguage then text
  else match lemur_task W sourceLanguage targetLanguage text apiKey with
       | LemurThrew => text
       | LemurNotOk => text
       | LemurOk response =>
           JS.or_str (option_map JS.trim response) text
       end.

(** **** POST /api/auth/login *)

Definition invalid_credentials : Response :=
  {| status := 401; body := BodyError "Invalid email or password" |}.

(** [bcrypt.compare(password, user.password)]: the promise is rejected
    for a password that is not a string, and is the library's answer
    for one that is. *)
Definition compare (password : Json) (hash : string) : option bool :=
  match password with
  | JString password => bcrypt_compare W password hash
  | JOther _ => None
  end.

Definition login (db : DatabaseStorage) (email : option string) (password : option Json)
  : Response :=
  match email, password with
  | Some email, Some password =>
      if negb (JS.truthy_str email) || negb (truthy_json password) then
        {| status := 400; body := BodyError "Email and password are required" |}
      else
        match getUserByEmail db email with
        | None => invalid_credentials
        | Some user =>
            match compare password (user_password user) with
            | None => {| status := 500; body := BodyError "Login failed" |}
            | Some false => invalid_credentials
            | Some true =>
                match jwt_sign W (user_id user) JWT_SECRET with
                | None => {| status := 500; body := BodyError "Login failed" |}
                | Some token =>
                    {| status := 200;
                       body := BodyAuth token (user_id user) (user_email user)
                                 (user_name user) |}
                end
            end
        end
  | _, _ => {| status := 400; body := BodyError "Email and password are required" |}
  end.

(** **** POST /api/sessions/:id/finalize *)

(** The row built for the utterance [u] at index [i]. *)
Definition utteranceData (sessionId : Z) (i : nat) (u : SubmittedUtterance)
  : InsertUtterance :=
  {| utt_sessionId := sessionId;
     utt_speakerLabel := JS.or_str (u_speaker u) "A";
     utt_originalText := JS.or_opt JS.truthy_str (u_originalText u) (u_text u);
     utt_translatedText := JS.or_opt JS.truthy_str (u_translatedText u) (u_text u);
     utt_confidence := JS.or_num (u_confidence u) JS.lit_0_9;
     utt_startTime := JS.or_num (u_startTime u) (JS.mul (JS.of_nat i) JS.lit_5000);
     utt_endTime :=
       JS.or_num (u_endTime u)
         (JS.mul (JS.add (JS.of_nat i) JS.one) JS.lit_5000) |}.

Definition avgConfidence (utterances : option (list SubmittedUtterance))
  : JS.number :=
  match utterances with
  | Some ((_ :: _) as us) =>
      JS.div
        (fold_left (fun sum u => JS.add sum (JS.or_num (u_confidence u) JS.lit_0_9))
           us JS.zero)
        (JS.of_nat (length us))
  | _ => JS.lit_0_9
  end.

Definition speakerCount (utterances : option (list SubmittedUtterance)) : nat :=
  match utterances with
  | Some us => JS.set_size (map u_speaker us)
  | None => 1
  end.

Definition totalWordCount (utterances : option (list SubmittedUtterance)) : nat :=
  match utterances with
  | Some us =>
      fold_left
        (fun sum u =>
           sum + JS.split_space_length
                   (JS.or_str (JS.or_opt JS.truthy_str (u_translatedText u) (u_text u)) ""))
        us 0
  | None => 0
  end.

(** The quality metrics, as passed to [updateSession]. *)
Definition sessionUpdate (duration : option JS.number)
    (utterances : option (list SubmittedUtterance)) : SessionUpdate :=
  {| upd_duration := JS.or_num duration JS.zero;
     upd_speakerCount := speakerCount utterances;
     upd_avgConfidence := avgConfidence utterances;
     upd_totalWordCount := totalWordCount utterances |}.

Definition server_error : Response :=
  {| status := 500; body := BodyError "Failed to finalize session" |}.

(** The handler behind [authMiddleware]: [userId] is the bearer's,
    [sessionId] the integer read from the path. *)
Definition finalize (db : DatabaseStorage) (userId : string) (sessionId : Z)
    (duration : option JS.number) (utterances : option (list SubmittedUtterance))
  : DatabaseStorage * Response :=
  match getSessionById db sessionId with
  | None => (db, {| status := 404; body := BodyError "Session not found" |})
  | Some session =>
      if negb (String.eqb (session_userId session) userId) then
        (db, {| status := 404; body := BodyError "Session not found" |})
      else
        let saved :=
          match utterances with
          | Some ((_ :: _) as us) =>
              createUtterances (postgres W) db (imap (utteranceData sessionId) us)
          | _ => Some db
          end in
        match saved with
        | None => (db, server_error)
        | Some db1 =>
            match updateSession (postgres W) db1 sessionId
                    (sessionUpdate duration utterances) with
            | None => (db1, server_error)
            | Some db2 =>
                (db2, {| status := 200; body := BodyFinalized sessionId |})
            end
        end
  end.

(** **** The WebSocket relay, [wss.on("connection", ...)] *)

(** [typeof data === "string" || (data instanceof Buffer && data[0] === 123)] *)
Definition is_control (data : RawData) : bool :=
  match data with
  | StringData _ => true
  | BufferData (b :: _) => (Byte.to_N b =? 123)%N
  | BufferData [] => false
  end.

Definition type_is (message : ClientMessage) (t : string) : bool :=
  match msg_type message with
  | Some t' => String.eqb t' t
  | None => false
  end.

(** [message.type === "auth"] *)
Definition on_auth (st : Relay) (message : ClientMessage) : Relay * list Call :=
  match verifyToken (msg_token message) with
  | None =>
      (set_clientWs CLOSING st,
       [ClientSend (MsgError "Authentication failed"); ClientClose])
  | Some _ =>
      (set_isAuthenticated true st, [ClientSend MsgAuthSuccess])
  end.

(** [message.type === "start"] *)
Definition on_start (st : Relay) (message : ClientMessage) : Relay * list Call :=
  if negb (isAuthenticated st) then
    (st, [ClientSend (MsgError "Not authenticated")])
  else
    let st1 :=
      set_sessionConfig
        {| cfg_sessionId := msg_sessionId message;
           cfg_sourceLanguage := JS.or_str (msg_sourceLanguage message) "es";
           cfg_targetLanguage := JS.or_str (msg_targetLanguage message) "en";
           cfg_userId := msg_userId message |} st in
    let st2 :=
      set_assemblyApiKey (JS.or_opt JS.truthy_str (ASSEMBLYAI_API_KEY W) None) st1 in
    match assemblyApiKey st2 with
    | None =>
        (st2, [ClientSend (MsgError "AssemblyAI API key not configured")])
    | Some key =>
        (new_assemblyWs st2, [AssemblyNew (length (sockets st2)) assemblyUrl key])
    end.

(** The block shared by the "stop" branch and the client's [close]
    handler: terminate and close the provider socket when it is open. *)
Definition close_assemblyWs (st : Relay) : Relay * list Call :=
  match assemblyWs_open st with
  | Some id =>
      (set_socket id CLOSING st,
       [AssemblySend id TerminateSession; AssemblyClose id])
  | None => (st, [])
  end.

(** [message.type === "stop"] *)
Definition on_stop (st : Relay) : Relay * list Call :=
  let '(st', calls) := close_assemblyWs st in
  (st', calls ++ [ClientSend MsgStopped]).

(** The [else] branch: binary audio. *)
Definition on_audio (st : Relay) (data : RawData) : Relay * list Call :=
  match assemblyWs_open st with
  | Some id =>
      match data with
      | BufferData b => (st, [AssemblySend id (AudioData (JS.Base64.encode b))])
      | StringData _ => (st, [])
      end
  | None => (st, [])
  end.

(** [clientWs.on("message", async (data) => ...)]; an exception inside
    is caught and logged. *)
Definition on_client_message (st : Relay) (data : RawData) : Relay * list Call :=
  if is_control data then
    match JSON_parse_client W (toString data) with
    | None => (st, [])
    | Some message =>
        if type_is message "auth" then on_auth st message
        else if type_is message "start" then on_start st message
        else if type_is message "stop" then on_stop st
        else (st, [])
    end
  else on_audio st data.

(** [clientWs.on("close", ...)] *)
Definition on_client_close (st : Relay) : Relay * list Call :=
  close_assemblyWs st.

(** [assemblyWs.on("message", async (assemblyData) => ...)], written
    as one step: the translation call is awaited before the send. *)
Definition on_assembly_message (st : Relay) (assemblyData : string) : list Call :=
  match JSON_parse_assembly W assemblyData with
  | None => []
  | Some result =>
      match res_message_type result, res_text result with
      | Some message_type, Some text =>
          if String.eqb message_type "FinalTranscript" && JS.truthy_str text then
            let translatedText :=
              match sessionConfig st, assemblyApiKey st with
              | Some cfg, Some key =>
                  if negb (String.eqb (cfg_sourceLanguage cfg) (cfg_targetLanguage cfg))
                     && JS.truthy_str key
                  then translateWithLemur text (cfg_sourceLanguage cfg)
                         (cfg_targetLanguage cfg) key
                  else text
              | _, _ => text
              end in
            [ClientSend
               (MsgTranslation "A" text (JS.trim translatedText)
                  (JS.or_num (res_confidence result) JS.lit_0_9)
                  (JS.or_num (res_audio_start result) JS.zero)
                  (JS.or_num (res_audio_end result) JS.zero))]
          else []
      | _, _ => []
      end
  end.

(** [assemblyWs.on("open", ...)] *)
Definition on_assembly_open : list Call := [ClientSend MsgReady].

(** [assemblyWs.on("error", ...)] *)
Definition on_assembly_error : list Call :=
  [ClientSend (MsgError "Transcription service error")].

(** One event: the handler registered for it runs, and the ready state
    of the socket the event is about moves as the socket library moves
    it: a socket is open once [open] fired, closing when [error] fires,
    the library having set it so before it emits the event, and closed
    once [close] fired. Handlers of a provider socket exist once it was
    created, and stay registered when [assemblyWs] is assigned another
    socket. *)
Definition step (st : Relay) (ev : Event) : Relay * list Call :=
  match ev with
  | OnClientMessage data => on_client_message st data
  | OnClientClose => on_client_close (set_clientWs CLOSED st)
  | OnClientError => (st, [])
  | OnAssemblyOpen id =>
      if decide (id < length (sockets st)) then (set_socket id OPEN st, on_assembly_open)
      else (st, [])
  | OnAssemblyMessage id data =>
      if decide (id < length (sockets st)) then (st, on_assembly_message st data)
      else (st, [])
  | OnAssemblyError id =>
      if decide (id < length (sockets st)) then
        (set_socket id CLOSING st, on_assembly_error)
      else (st, [])
  | OnAssemblyClose id =>
      if decide (id < length (sockets st)) then (set_socket id CLOSED st, [])
      else (st, [])
  end.

(** A run: the state after a sequence of events and every call made,
    in order. *)
Fixpoint run (st : Relay) (evs : list Event) : Relay * list Call :=
  match evs with
  | [] => (st, [])
  | ev :: evs' =>
      let '(st1, calls1) := step st ev in
      let '(st2, calls2) := run st1 evs' in
      (st2, calls1 ++ calls2)
  end.

End Handlers.

End Routes.

(** ** Terms of the specification *)

Module Spec.

Import Routes.

(** The arithmetic mean of a list of numbers: their sum, from the left,
    divided by their count. *)
Definition sum (xs : list JS.number) : JS.number := fold_left JS.add xs JS.zero.

Definition arithmetic_mean (xs : list JS.number) : JS.number :=
  JS.div (sum xs) (JS.of_nat (length xs)).

(** The confidence values a request submits: those of the utterances
    that carry one. *)
Definition submitted_confidences (us : list SubmittedUtterance) : list JS.number :=
  omap u_confidence us.

(** What an utterance carries in a field: the value that is there,
    unless it is falsy (an empty string, a zero, [NaN]). *)
Definition carried {A} (truthy : A -> bool) (field : option A) : option A :=
  match field with
  | Some v => if truthy v then Some v else None
  | None => None
  end.

(** The confidence an utterance counts with: the one it carries, or
    0.9 when it carries none. *)
Definition counted_confidence (u : SubmittedUtterance) : JS.number :=
  default JS.lit_0_9 (carried JS.truthy_num (u_confidence u)).

(** The row to persist for the utterance [u] submitted at index [i]:
    each field as the utterance carries it, and otherwise the speaker
    "A", the text of [text] if there is one, the confidence 0.9, and
    the times [i] times 5000 and [i + 1] times 5000; the confidence as
    the [real] column returns it. *)
Definition persisted (pg : Storage.Postgres) (sessionId : Z) (i : nat)
    (u : SubmittedUtterance) : Storage.InsertUtterance :=
  {| Storage.utt_sessionId := sessionId;
     Storage.utt_speakerLabel := default "A" (carried JS.truthy_str (u_speaker u));
     Storage.utt_originalText :=
       match carried JS.truthy_str (u_originalText u) with
       | Some text => Some text
       | None => u_text u
       end;
     Storage.utt_translatedText :=
       match carried JS.truthy_str (u_translatedText u) with
       | Some text => Some text
       | None => u_text u
       end;
     Storage.utt_confidence := Storage.real pg (counted_confidence u);
     Storage.utt_startTime :=
       default (JS.mul (JS.of_nat i) JS.lit_5000) (carried JS.truthy_num (u_startTime u));
     Storage.utt_endTime :=
       default (JS.mul (JS.add (JS.of_nat i) JS.one) JS.lit_5000)
         (carried JS.truthy_num (u_endTime u)) |}.

(** A socket is shut once its closing was started or has completed. *)
Definition shut (r : ReadyState) : bool :=
  match r with
  | CLOSING | CLOSED => true
  | CONNECTING | OPEN => false
  end.

(** A call that forwards audio to the provider. *)
Definition forwards_audio (c : Call) : bool :=
  match c with
  | AssemblySend _ (AudioData _) => true
  | _ => false
  end.

(** A call that opens a connection to the provider. *)
Definition opens_upstream (c : Call) : bool :=
  match c with
  | AssemblyNew _ _ _ => true
  | _ => false
  end.

(** A call that closes a socket. *)
Definition closes_socket (c : Call) : bool :=
  match c with
  | ClientClose | AssemblyClose _ => true
  | _ => false
  end.

(** An event is a successful authentication when it is a control frame
    that parses to an "auth" message whose token verifies. *)
Definition successful_auth (W : World) (ev : Event) : bool :=
  match ev with
  | OnClientMessage data =>
      is_control data &&
      match JSON_parse_client W (toString data) with
      | Some message =>
          type_is message "auth" && bool_decide (is_Some (verifyToken W (msg_token message)))
      | None => false
      end
  | _ => false
  end.

(** A frame is a "start" (a "stop") command when it is a control frame
    that parses to a message of that type. *)
Definition is_command (W : World) (t : string) (data : RawData) : bool :=
  is_control data &&
  match JSON_parse_client W (toString data) with
  | Some message => type_is message t
  | None => false
  end.


(** *** Invariants of the relay *)

(** No authentication succeeded yet: the flag is down and no provider
    socket exists. *)
Definition unauthenticated (st : Relay) : Prop :=
  isAuthenticated st = false /\ sockets st = [] /\ assemblyWs st = None.

(** The handlers of a provider socket read [sessionConfig] and
    [assemblyApiKey]: both were set by the "start" that created the
    socket, the key from the environment. *)
Definition configured (W : World) (st : Relay) : Prop :=
  sockets st <> [] ->
  exists cfg key,
    sessionConfig st = Some cfg /\ assemblyApiKey st = Some key /\
    JS.truthy_str key = true /\
    JS.or_opt JS.truthy_str (ASSEMBLYAI_API_KEY W) None = Some key.

End Spec.

(** ** A concrete world, for the examples *)

Module Sample.

Import Storage Routes.

Definition dq : string := String (ascii_of_N 34) EmptyString.

(** [quoted s] is [s] between double quotes; [field k v] is a member of
    a JSON object. *)
Definition quoted (s : string) : string := (dq ++ s ++ dq)%string.
Definition field (k v : string) : string := (quoted k ++ ":" ++ v)%string.

(** The frames the client of RecordScreen.tsx sends. *)
Definition auth_frame (token : string) : string :=
  ("{" ++ field "type" (quoted "auth") ++ "," ++ field "token" (quoted token) ++ "}")%string.

Definition start_frame : string :=
  ("{" ++ field "type" (quoted "start") ++ "," ++ field "sessionId" "7" ++ ","
     ++ field "sourceLanguage" (quoted "es") ++ ","
     ++ field "targetLanguage" (quoted "en") ++ ","
     ++ field "userId" (quoted "u1") ++ "}")%string.

Definition stop_frame : string :=
  ("{" ++ field "type" (quoted "stop") ++ "}")%string.

(** Final transcripts of the provider, with and without text. *)
Definition final_frame (text : string) : string :=
  ("{" ++ field "message_type" (quoted "FinalTranscript") ++ ","
     ++ field "text" (quoted text) ++ ","
     ++ field "audio_start" "100" ++ "," ++ field "audio_end" "900" ++ "}")%string.

Definition start_message : ClientMessage :=
  {| msg_type := Some "start"; msg_token := None;
     msg_sessionId := Some (JS.of_Z 7);
     msg_sourceLanguage := Some "es"; msg_targetLanguage := Some "en";
     msg_userId := Some "u1" |}.

Definition typed (t : string) (token : option string) : ClientMessage :=
  {| msg_type := Some t; msg_token := token; msg_sessionId := None;
     msg_sourceLanguage := None; msg_targetLanguage := None; msg_userId := None |}.

(** [JSON.parse] on the frames above; every other text is rejected, as
    a text that is not JSON is. *)
Definition parse_client (s : string) : option ClientMessage :=
  if String.eqb s (auth_frame "good") then Some (typed "auth" (Some "good"))
  else if String.eqb s (auth_frame "bad") then Some (typed "auth" (Some "bad"))
  else if String.eqb s start_frame then Some start_message
  else if String.eqb s stop_frame then Some (typed "stop" None)
  else None.

Definition final_result (text : string) : AssemblyResult :=
  {| res_message_type := Some "FinalTranscript"; res_text := Some text;
     res_confidence := None;
     res_audio_start := Some (JS.of_Z 100); res_audio_end := Some (JS.of_Z 900) |}.

Definition parse_assembly (s : string) : option AssemblyResult :=
  if String.eqb s (final_frame "hola") then Some (final_result "hola")
  else if String.eqb s (final_frame "") then Some (final_result "")
  else None.

(** The world of the examples. Its database enforces NOT NULL on the
    two texts of an utterance. The numbers the examples write to its
    [real] columns are 0.9, 0.5 and their mean 0.7, the doubles of
    decimals of one digit: PostgreSQL rounds such a number to binary32,
    prints that as the same decimal, and the driver reads the double
    back, so that the column returns the number as it was written. *)
Definition world : World :=
  {| SESSION_SECRET := None;
     ASSEMBLYAI_API_KEY := Some "key";
     jwt_verify := fun token _ =>
       match token with
       | Some t => if String.eqb t "good" then Some "u1" else None
       | None => None
       end;
     jwt_sign := fun userId _ => Some ("jwt:" ++ userId)%string;
     bcrypt_compare := fun password hash =>
       Some (String.eqb ("hash:" ++ password)%string hash);
     lemur_task := fun _ _ text _ =>
       if String.eqb text "hola" then LemurOk (Some " hello ") else LemurThrew;
     JSON_parse_client := parse_client;
     JSON_parse_assembly := parse_assembly;
     postgres :=
       {| accepts_insert := forallb (fun r =>
            bool_decide (is_Some (utt_originalText r))
            && bool_decide (is_Some (utt_translatedText r)));
          accepts_update := fun _ _ => true;
          real := fun x => x |} |}.

(** A frame as the socket library delivers it: a buffer. *)
Definition frame (s : string) : Event :=
  OnClientMessage (BufferData (list_byte_of_string s)).

(** A connection that authenticated, started, and whose provider socket
    opened. *)
Definition streaming : list Event :=
  [frame (auth_frame "good"); frame start_frame; OnAssemblyOpen 0].

(** An audio frame of two 16-bit samples, the first of value 123. *)
Definition audio_123 : list byte := [x7b; x00; x01; x00]%byte.

Definition alice : User :=
  {| user_id := "u1"; user_email := "alice@example.org";
     user_password := "hash:secret"; user_name := "Alice" |}.

Definition session_7 : TranscriptionSession :=
  {| session_userId := "u1"; session_sourceLanguage := "es";
     session_targetLanguage := "en"; session_duration := Some JS.zero;
     session_speakerCount := Some 1; session_avgConfidence := None;
     session_totalWordCount := Some 0 |}.

Definition db : DatabaseStorage :=
  {| users := {[ "alice@example.org" := alice ]};
     transcriptionSessions := {[ 7%Z := session_7 ]};
     utterances := [] |}.


Definition utterance (text : string) (confidence : option JS.number)
    (startTime endTime : Z) : SubmittedUtterance :=
  {| u_speaker := Some "A"; u_text := None;
     u_originalText := Some text; u_translatedText := Some text;
     u_confidence := confidence;
     u_startTime := Some (JS.of_Z startTime); u_endTime := Some (JS.of_Z endTime) |}.

(** Two utterances with every field, and two of which the first carries
    no confidence. *)
Definition complete_pair : list SubmittedUtterance :=
  [utterance "hola" (Some JS.lit_0_9) 1000 2000;
   utterance "adios amigo" (Some JS.lit_0_5) 3000 4000].

Definition partial_pair : list SubmittedUtterance :=
  [utterance "hola" None 1000 2000;
   utterance "adios amigo" (Some JS.lit_0_5) 3000 4000].

(** And two of which the first carries the confidence 0. *)
Definition zero_pair : list SubmittedUtterance :=
  [utterance "hola" (Some JS.zero) 1000 2000;
   utterance "adios amigo" (Some JS.lit_0_5) 3000 4000].

End Sample.

(** ** JavaScript values, continued: what the other functions need *)

Module JSLib.

(** [Number.prototype.toString] on an integer: its decimal digits, with
    a minus sign when negative. *)
Definition toString (n : Z) : string :=
  DecimalString.NilZero.string_of_int (Z.to_int n).

(** [s.padStart(targetLength, c)] for a one-character pad string. *)
Fixpoint repeat_char (c : ascii) (n : nat) : string :=
  match n with
  | O => EmptyString
  | S n' => String c (repeat_char c n')
  end.

Definition padStart (targetLength : nat) (c : ascii) (s : string) : string :=
  (repeat_char c (targetLength - String.length s) ++ s)%string.

(** [s.slice(n)] for a natural number [n], where the first [n]
    characters of [s] have one byte each, as those of "Bearer " and of
    "https://" have. *)
Fixpoint slice_from (n : nat) (s : string) : string :=
  match n, s with
  | O, _ => s
  | S n', String _ s' => slice_from n' s'
  | S _, EmptyString => EmptyString
  end.

(** The three bytes of a surrogate that stands alone. *)
Definition surrogate_bytes (h : N) : string :=
  String (ascii_of_N (224 + h / 4096))
    (String (ascii_of_N (128 + h / 64 mod 64))
       (String (ascii_of_N (128 + h mod 64)) EmptyString)).

(** [s.slice(0, n)] for a natural number [n]: the first [n] code units
    of [s]. A character of one code unit is taken with all its bytes;
    of a character of two code units of which only the first fits, the
    high surrogate is left. *)
Fixpoint slice_to (n : nat) (s : string) {struct s} : string :=
  match s with
  | String c s' =>
      match JS.utf8 c with
      | JS.Continuation => String c (slice_to n s')
      | JS.Lead4 =>
          match n with
          | O => EmptyString
          | S O => surrogate_bytes (JS.high_surrogate (JS.code_point4 c s'))
          | S (S n') => String c (slice_to n' s')
          end
      | _ =>
          match n with
          | O => EmptyString
          | S n' => String c (slice_to n' s')
          end
      end
  | EmptyString => EmptyString
  end.

(** [s.startsWith(p)] *)
Definition startsWith (p s : string) : bool := String.prefix p s.

(** [s.charCodeAt(0)]: the code of the first character, [None] for the
    [NaN] the empty string gives. The first character has one byte, as
    the letters and digits of a speaker label have: of a character of
    more bytes the code unit is not its first byte. *)
Definition charCodeAt0 (s : string) : option Z :=
  match s with
  | String c _ => Some (Z.of_N (N_of_ascii c))
  | EmptyString => None
  end.

(** [a % b] on integers: the remainder has the sign of the dividend. *)
Definition remainder (a b : Z) : Z := Z.rem a b.

(** A number as it arrives after [JSON.stringify] and [JSON.parse]: a
    finite number arrives as it is ([-0] as [0]); [NaN] and the
    infinities are written as [null]. *)
Definition JSON_number (x : JS.number) : option JS.number :=
  match x with
  | S754_finite _ _ _ => Some x
  | S754_zero _ => Some JS.zero
  | S754_infinity _ | S754_nan => None
  end.

Definition JSON_field (x : option JS.number) : option JS.number :=
  match x with
  | Some v => JSON_number v
  | None => None
  end.

End JSLib.

(** ** client/constants/theme.ts *)

Module Theme.

(** [SpeakerColors]: the five speaker accents of the light palette. *)
Definition SpeakerColors : list string :=
  ["#2563EB"; "#DC2626"; "#059669"; "#7C3AED"; "#EA580C"].

End Theme.

(** ** client/screens, the other functions *)

Module Screens.

Import Routes.

(** [function getSpeakerColor(speaker: string): string], in RecordScreen
    and in SessionDetailScreen; [None] is the [undefined] that an index
    outside the array gives. *)
Definition getSpeakerColor (speaker : string) : option string :=
  match JSLib.charCodeAt0 speaker with
  | None => None
  | Some code =>
      let index := (code - 65)%Z in
      let i := JSLib.remainder index (Z.of_nat (length Theme.SpeakerColors)) in
      if (i <? 0)%Z then None else Theme.SpeakerColors !! Z.to_nat i
  end.

(** [function formatDuration(seconds: number): string], in HistoryScreen
    and in SessionDetailScreen, on the whole numbers of seconds the
    [duration] column holds. *)
Definition formatDuration (seconds : Z) : string :=
  let mins := (seconds / 60)%Z in
  let secs := JSLib.remainder seconds 60 in
  (JSLib.toString mins ++ ":" ++ JSLib.padStart 2 "0" (JSLib.toString secs))%string.

(** [function getWebSocketUrl(): string] of RecordScreen, as a function
    of what [getApiUrl()] returns. *)
Definition getWebSocketUrl (apiUrl : string) : string :=
  let wsProtocol := if JSLib.startsWith "https" apiUrl then "wss" else "ws" in
  let host :=
    if JSLib.startsWith "https://" apiUrl then JSLib.slice_from 8 apiUrl
    else if JSLib.startsWith "http://" apiUrl then JSLib.slice_from 7 apiUrl
    else apiUrl in
  (wsProtocol ++ "://" ++ host ++ "/ws/transcribe")%string.

(** *** RecordScreen: from the relay's messages to the finalize request *)

(** A "translation" message as [JSON.parse(event.data)] yields it. *)
Record TranslationMessage := {
  tm_speaker : option string;
  tm_originalText : option string;
  tm_translatedText : option string;
  tm_confidence : option JS.number;
  tm_startTime : option JS.number;
  tm_endTime : option JS.number }.

(** What the client parses from what the relay serialised. *)
Definition received (m : ServerMessage) : option TranslationMessage :=
  match m with
  | MsgTranslation speaker originalText translatedText confidence startTime endTime =>
      Some {| tm_speaker := Some speaker;
              tm_originalText := Some originalText;
              tm_translatedText := Some translatedText;
              tm_confidence := JSLib.JSON_number confidence;
              tm_startTime := JSLib.JSON_number startTime;
              tm_endTime := JSLib.JSON_number endTime |}
  | _ => None
  end.

(** [interface TranslationChunk] *)
Record TranslationChunk := {
  chunk_speaker : string;
  chunk_text : option string;
  chunk_originalText : option string;
  chunk_confidence : option JS.number;
  chunk_startTime : option JS.number;
  chunk_endTime : option JS.number }.

(** [ws.onmessage], the branch [message.type === "translation"]: the
    chunk appended to [translations]. *)
Definition newChunk (message : TranslationMessage) : TranslationChunk :=
  {| chunk_speaker := JS.or_str (tm_speaker message) "A";
     chunk_text := tm_translatedText message;
     chunk_originalText := tm_originalText message;
     chunk_confidence := tm_confidence message;
     chunk_startTime := tm_startTime message;
     chunk_endTime := tm_endTime message |}.

(** [stopRecording]: the utterance sent for the chunk [t] at index [i],
    as the server parses it from the request body. *)
Definition submitted (i : nat) (t : TranslationChunk) : SubmittedUtterance :=
  {| u_speaker := Some (chunk_speaker t);
     u_text := None;
     u_originalText := JS.or_opt JS.truthy_str (chunk_originalText t) (chunk_text t);
     u_translatedText := chunk_text t;
     u_confidence := JSLib.JSON_field (chunk_confidence t);
     u_startTime :=
       JSLib.JSON_number
         (JS.or_num (chunk_startTime t) (JS.mul (JS.of_nat i) JS.lit_5000));
     u_endTime :=
       JSLib.JSON_number
         (JS.or_num (chunk_endTime t) (JS.mul (JS.add (JS.of_nat i) JS.one) JS.lit_5000)) |}.

(** The [utterances] of the finalize request for the chunks collected. *)
Definition finalize_utterances (translations : list TranslationChunk)
  : list SubmittedUtterance :=
  imap submitted translations.

(** *** SignupScreen *)

(** What the form handler does with the fields: it alerts, or it calls
    [signup] of the authentication context with these arguments. *)
Inductive Submission :=
| Alert (title message : string)
| Submit (name email password : string).

(** [async function handleSignup()] *)
Definition handleSignup (name email password : string) : Submission :=
  if negb (JS.truthy_str (JS.trim name)) || negb (JS.truthy_str (JS.trim email))
     || negb (JS.truthy_str (JS.trim password)) then
    Alert "Error" "Please fill in all fields"
  else if (JS.string_length password <? 6)%nat then
    Alert "Error" "Password must be at least 6 characters"
  else Submit (JS.trim name) (JS.trim email) password.

(** *** LanguageSelectorScreen *)

Inductive Tab := source | target.

(** The component's state: the active tab and the two selections. *)
Record Selector := {
  activeTab : Tab;
  selectedSource : string;
  selectedTarget : string }.

(** [function handleLanguageSelect(code: string)]; each setter is given
    a value read from the state the handler was rendered with. *)
Definition handleLanguageSelect (code : string) (st : Selector) : Selector :=
  match activeTab st with
  | source =>
      {| activeTab := source;
         selectedSource := code;
         selectedTarget :=
           if String.eqb code (selectedTarget st) then selectedSource st
           else selectedTarget st |}
  | target =>
      {| activeTab := target;
         selectedSource :=
           if String.eqb code (selectedSource st) then selectedTarget st
           else selectedSource st;
         selectedTarget := code |}
  end.

(** [setActiveTab] *)
Definition setActiveTab (tab : Tab) (st : Selector) : Selector :=
  {| activeTab := tab; selectedSource := selectedSource st;
     selectedTarget := selectedTarget st |}.

(** What the user does on the screen before pressing Done. *)
Inductive Gesture :=
| Select (code : string)
| SwitchTab (tab : Tab).

Definition gesture (st : Selector) (g : Gesture) : Selector :=
  match g with
  | Select code => handleLanguageSelect code st
  | SwitchTab tab => setActiveTab tab st
  end.

(** The pair [handleDone] passes to [onSelect] after the gestures [gs]. *)
Definition handleDone (st : Selector) (gs : list Gesture) : string * string :=
  let st' := fold_left gesture gs st in
  (selectedSource st', selectedTarget st').

End Screens.

(** ** server/routes.ts and server/storage.ts, the other routes *)

Module Server.

Import Storage Routes.

(** What the database engine and bcrypt decide for the routes below:
    the hash of a password ([None] when [bcrypt.hash] throws), the
    default of [users.id], the next value of the serial
    [transcription_sessions.id], and the order in which an [ORDER BY]
    returns the rows it is given. *)
Record Engine := {
  bcrypt_hash : string -> option string;
  gen_random_uuid : DatabaseStorage -> string;
  nextval : DatabaseStorage -> Z;
  order_by_startTime : list InsertUtterance -> list InsertUtterance;
  order_by_createdAt :
    list (Z * TranscriptionSession) -> list (Z * TranscriptionSession) }.

(** *** storage.ts *)

(** Whether a user has this id: [users.id] is the primary key, and the
    target of the foreign key [transcription_sessions.user_id]. *)
Definition user_exists (db : DatabaseStorage) (id : string) : bool :=
  existsb (fun row => String.eqb (user_id row.2) id) (map_to_list (users db)).

(** [createUser]: [None] when the insert violates [unique(email)] or
    the primary key. *)
Definition createUser (E : Engine) (db : DatabaseStorage) (name email password : string)
  : option (DatabaseStorage * User) :=
  match users db !! email with
  | Some _ => None
  | None =>
      let user :=
        {| user_id := gen_random_uuid E db; user_email := email;
           user_password := password; user_name := name |} in
      if user_exists db (user_id user) then None
      else
        Some ({| users := <[email := user]> (users db);
                 transcriptionSessions := transcriptionSessions db;
                 utterances := utterances db |}, user)
  end.

(** [createSession]: [None] when the insert violates the foreign key
    to [users] or the primary key. *)
Definition createSession (E : Engine) (db : DatabaseStorage)
    (data : TranscriptionSession) : option (DatabaseStorage * Z) :=
  let id := nextval E db in
  if negb (user_exists db (session_userId data)) then None
  else
    match transcriptionSessions db !! id with
    | Some _ => None
    | None =>
        Some ({| users := users db;
                 transcriptionSessions := <[id := data]> (transcriptionSessions db);
                 utterances := utterances db |}, id)
    end.

Definition getSessionsByUserId (E : Engine) (db : DatabaseStorage) (userId : string)
  : list (Z * TranscriptionSession) :=
  order_by_createdAt E
    (filter (fun row => session_userId row.2 = userId)
       (map_to_list (transcriptionSessions db))).

Definition getUtterancesBySessionId (E : Engine) (db : DatabaseStorage) (id : Z)
  : list InsertUtterance :=
  order_by_startTime E (utterances_of db id).

(** *** routes.ts *)

(** What a route answers besides the bodies of [Routes.Response]. *)
Inductive Reply :=
| ReplyError (status : nat) (error : string)
| ReplySession (id : Z) (session : TranscriptionSession)
| ReplySessions (sessions : list (Z * TranscriptionSession * string))
| ReplyDetail (id : Z) (session : TranscriptionSession)
    (utterances : list InsertUtterance).

(** The outcome of [authMiddleware]: a 401 with its error, or [next()]
    with [req.userId] set. *)
Inductive Auth :=
| Rejected (error : string)
| Authorized (userId : string).

Section Handlers.

Context (W : World) (E : Engine).

(** [function authMiddleware(req, res, next)] *)
Definition authMiddleware (authorization : option string) : Auth :=
  match authorization with
  | Some authHeader =>
      if JSLib.startsWith "Bearer " authHeader then
        match jwt_verify W (Some (JSLib.slice_from 7 authHeader)) (JWT_SECRET W) with
        | Some userId => Authorized userId
        | None => Rejected "Invalid token"
        end
      else Rejected "Unauthorized"
  | None => Rejected "Unauthorized"
  end.

(** POST /api/auth/signup *)
Definition signup (db : DatabaseStorage) (name email password : option string)
  : DatabaseStorage * Response :=
  match name, email, password with
  | Some name, Some email, Some password =>
      if negb (JS.truthy_str name) || negb (JS.truthy_str email)
         || negb (JS.truthy_str password) then
        (db, {| status := 400; body := BodyError "All fields are required" |})
      else
        match getUserByEmail db email with
        | Some _ => (db, {| status := 400; body := BodyError "Email already registered" |})
        | None =>
            match bcrypt_hash E password with
            | None => (db, {| status := 500; body := BodyError "Failed to create account" |})
            | Some hashedPassword =>
                match createUser E db name email hashedPassword with
                | None =>
                    (db, {| status := 500; body := BodyError "Failed to create account" |})
                | Some (db1, user) =>
                    match jwt_sign W (user_id user) (JWT_SECRET W) with
                    | None =>
                        (db1, {| status := 500;
                                 body := BodyError "Failed to create account" |})
                    | Some token =>
                        (db1, {| status := 200;
                                 body := BodyAuth token (user_id user) (user_email user)
                                           (user_name user) |})
                    end
                end
            end
        end
  | _, _, _ => (db, {| status := 400; body := BodyError "All fields are required" |})
  end.

(** POST /api/sessions *)
Definition post_sessions (db : DatabaseStorage) (authorization : option string)
    (sourceLanguage targetLanguage : option string) : DatabaseStorage * Reply :=
  match authMiddleware authorization with
  | Rejected error => (db, ReplyError 401 error)
  | Authorized userId =>
      let data :=
        {| session_userId := userId;
           session_sourceLanguage := JS.or_str sourceLanguage "es";
           session_targetLanguage := JS.or_str targetLanguage "en";
           session_duration := Some JS.zero;
           session_speakerCount := Some 1;
           session_avgConfidence := None;
           session_totalWordCount := Some 0 |} in
      match createSession E db data with
      | None => (db, ReplyError 500 "Failed to create session")
      | Some (db1, id) => (db1, ReplySession id data)
      end
  end.

(** [utterances[0]?.translatedText?.slice(0, 100) || ""] *)
Definition preview (utterances : list InsertUtterance) : string :=
  match utterances with
  | u :: _ => JS.or_str (option_map (JSLib.slice_to 100) (utt_translatedText u)) ""
  | [] => ""
  end.

(** GET /api/sessions *)
Definition get_sessions (db : DatabaseStorage) (authorization : option string) : Reply :=
  match authMiddleware authorization with
  | Rejected error => ReplyError 401 error
  | Authorized userId =>
      ReplySessions
        (map (fun row => (row, preview (getUtterancesBySessionId E db row.1)))
           (getSessionsByUserId E db userId))
  end.

(** GET /api/sessions/:id *)
Definition get_session (db : DatabaseStorage) (authorization : option string)
    (sessionId : Z) : Reply :=
  match authMiddleware authorization with
  | Rejected error => ReplyError 401 error
  | Authorized userId =>
      match getSessionById db sessionId with
      | None => ReplyError 404 "Session not found"
      | Some session =>
          if negb (String.eqb (session_userId session) userId) then
            ReplyError 404 "Session not found"
          else ReplyDetail sessionId session (getUtterancesBySessionId E db sessionId)
      end
  end.

(** POST /api/sessions/:id/finalize, behind [authMiddleware]. *)
Definition post_finalize (db : DatabaseStorage) (authorization : option string)
    (sessionId : Z) (duration : option JS.number)
    (utterances : option (list SubmittedUtterance)) : DatabaseStorage * Response :=
  match authMiddleware authorization with
  | Rejected error => (db, {| status := 401; body := BodyError error |})
  | Authorized userId => finalize W db userId sessionId duration utterances
  end.

End Handlers.

End Server.

(** ** Terms of the properties of the other functions *)

Module Terms.

Import Storage Routes.

(** The provider socket a call is made on, if it is made on one. *)
Definition provider_target (c : Call) : option nat :=
  match c with
  | AssemblySend id _ | AssemblyClose id => Some id
  | _ => None
  end.

(** The socket [assemblyWs] refers to when the sockets are [sockets]:
    the one created last. *)
Definition latest (sockets : list ReadyState) : option nat :=
  match length sockets with
  | O => None
  | S n => Some n
  end.

(** A string is blank when trimming leaves nothing of it. *)
Definition blank (s : string) : bool :=
  match JS.trim s with
  | EmptyString => true
  | String _ _ => false
  end.

(** A finite number. *)
Definition finite (x : JS.number) : bool :=
  match x with
  | S754_finite _ _ _ | S754_zero _ => true
  | S754_infinity _ | S754_nan => false
  end.

(** The header of a request that carries [token] as its bearer. *)
Definition bearer (token : string) : string := ("Bearer " ++ token)%string.

(** What a user may see of a session: the session, when it is theirs. *)
Definition visible (userId : string) (session : option TranscriptionSession)
  : option TranscriptionSession :=
  match session with
  | Some s => if String.eqb (session_userId s) userId then Some s else None
  | None => None
  end.

(** The rows of a finalize request, as the table holds them. *)
Definition submitted_rows (pg : Postgres) (sessionId : Z)
    (utterances : option (list SubmittedUtterance)) : list InsertUtterance :=
  match utterances with
  | Some us => map (stored_utterance pg) (imap (utteranceData sessionId) us)
  | None => []
  end.

(** Whether a character occurs in a string. *)
Fixpoint occurs (c : ascii) (s : string) : bool :=
  match s with
  | String c' s' => Ascii.eqb c c' || occurs c s'
  | EmptyString => false
  end.

(** The code of a character. *)
Definition code (c : ascii) : Z := Z.of_N (N_of_ascii c).

(** A string that is empty or starts with a character that is not
    white space: what [trimStart] leaves. *)
Definition starts_black (s : string) : Prop :=
  match s with
  | String c s1 =>
      JS.is_white_space c = false /\
      match s1 with
      | String d s2 =>
          JS.is_white_space2 c d = false /\
          match s2 with
          | String e _ => JS.is_white_space3 c d e = false
          | EmptyString => True
          end
      | EmptyString => True
      end
  | EmptyString => True
  end.

(** The seconds of a duration as [formatDuration] shows them. *)
Definition seconds_shown (secs : Z) : string :=
  JSLib.padStart 2 "0" (JSLib.toString secs).

(** The number of connections to the provider that a list of calls
    opens. *)
Definition opened (calls : list Call) : nat :=
  length (List.filter Spec.opens_upstream calls).

End Terms.

(** ** Further cases, for the examples *)

Module Cases.

Import Storage Routes Screens.


Definition with_postgres (pg : Postgres) : World :=
  {| SESSION_SECRET := SESSION_SECRET Sample.world;
     ASSEMBLYAI_API_KEY := ASSEMBLYAI_API_KEY Sample.world;
     jwt_verify := jwt_verify Sample.world;
     jwt_sign := jwt_sign Sample.world;
     bcrypt_compare := bcrypt_compare Sample.world;
     lemur_task := lemur_task Sample.world;
     JSON_parse_client := JSON_parse_client Sample.world;
     JSON_parse_assembly := JSON_parse_assembly Sample.world;
     postgres := pg |}.


(** A database server that takes the rows and rejects the update of the
    session. *)
Definition rejecting_updates : World :=
  with_postgres
    {| accepts_insert := fun _ => true; accepts_update := fun _ _ => false;
       real := real (postgres Sample.world) |}.

(** An engine that hashes as the [bcrypt_compare] of [Sample.world]
    expects, hands out "u2" and 8 as the next ids, and returns rows in
    the order it finds them. *)
Definition engine : Server.Engine :=
  {| Server.bcrypt_hash := fun password => Some ("hash:" ++ password)%string;
     Server.gen_random_uuid := fun _ => "u2";
     Server.nextval := fun _ => 8%Z;
     Server.order_by_startTime := fun rows => rows;
     Server.order_by_createdAt := fun rows => rows |}.

(** The state of a connection that is streaming, and of one that has
    authenticated only. *)
Definition streaming_relay : Relay := (run Sample.world initial Sample.streaming).1.

Definition authenticated_relay : Relay :=
  (run Sample.world initial [Sample.frame (Sample.auth_frame "good")]).1.

(** The translation the relay of [Sample.world] sends for "hola". *)
Definition hola : ServerMessage :=
  MsgTranslation "A" "hola" "hello" JS.lit_0_9 (JS.of_Z 100) (JS.of_Z 900).

(** A chunk as RecordScreen keeps it for a transcript of one space. *)
Definition empty_chunk : TranslationChunk :=
  {| chunk_speaker := "A"; chunk_text := Some ""; chunk_originalText := Some " ";
     chunk_confidence := Some JS.lit_0_9;
     chunk_startTime := Some (JS.of_Z 100); chunk_endTime := Some (JS.of_Z 900) |}.

(** The chunk RecordScreen keeps of [hola]. *)
Definition hola_chunk : TranslationChunk :=
  {| chunk_speaker := "A"; chunk_text := Some "hello"; chunk_originalText := Some "hola";
     chunk_confidence := Some JS.lit_0_9;
     chunk_startTime := Some (JS.of_Z 100); chunk_endTime := Some (JS.of_Z 900) |}.

(** The database of [Sample] with a session of another user, and an
    utterance of that session. *)
Definition session_9 : TranscriptionSession :=
  {| session_userId := "u2"; session_sourceLanguage := "fr";
     session_targetLanguage := "en"; session_duration := Some JS.zero;
     session_speakerCount := Some 1; session_avgConfidence := None;
     session_totalWordCount := Some 0 |}.

Definition db_of_two : DatabaseStorage :=
  {| users := users Sample.db;
     transcriptionSessions := <[9%Z := session_9]> (transcriptionSessions Sample.db);
     utterances :=
       [{| utt_sessionId := 9; utt_speakerLabel := "A";
           utt_originalText := Some "bonjour"; utt_translatedText := Some "hello";
           utt_confidence := JS.lit_0_9;
           utt_startTime := JS.of_Z 100; utt_endTime := JS.of_Z 900 |}] |}.

End Cases.

(** ** Tactics *)

(** Case analysis on the comparisons of exponents and mantissas left in
    the goal; a case is closed by computation or is contradictory. *)
Ltac by_order :=
  repeat match goal with
    | |- context [(?a ?= ?b)%Z] => destruct (Z.compare_spec a b)
    end;
  cbv beta iota delta [CompOpp]; intros; try discriminate;
  lazymatch goal with
  | |- ?x = ?x => reflexivity
  | _ => exfalso; lia
  end.

(** Case analysis on one step of the relay, along the branches of its
    handlers; the equations of the branch taken are left as hypotheses. *)
Ltac relay_cases W st ev :=
  destruct ev as [data| | |i|i data|i|i]; cbn [Routes.step];
  [ unfold Routes.on_client_message;
    destruct (Routes.is_control data) eqn:Hctl;
    [ destruct (Routes.JSON_parse_client W (Routes.toString data)) as [message|] eqn:Hparse;
      [ destruct (Routes.type_is message "auth") eqn:Hauth;
        [ unfold Routes.on_auth;
          destruct (Routes.verifyToken W (Routes.msg_token message)) eqn:Htoken
        | destruct (Routes.type_is message "start") eqn:Hstart;
          [ unfold Routes.on_start;
            destruct (Routes.isAuthenticated st) eqn:Hflag; cbn [negb];
            [ cbn [Routes.assemblyApiKey Routes.set_assemblyApiKey];
              destruct (JS.or_opt JS.truthy_str (Routes.ASSEMBLYAI_API_KEY W) None)
                as [key|] eqn:Hkey
            | ]
          | destruct (Routes.type_is message "stop") eqn:Hstop;
            [ unfold Routes.on_stop, Routes.close_assemblyWs;
              destruct (Routes.assemblyWs_open st) as [held|] eqn:Hheld
            | ] ] ]
      | ]
    | unfold Routes.on_audio;
      destruct (Routes.assemblyWs_open st) as [held|] eqn:Hheld;
      [ destruct data as [s|b] | ] ]
  | unfold Routes.on_client_close, Routes.close_assemblyWs;
    destruct (Routes.assemblyWs_open (Routes.set_clientWs Routes.CLOSED st))
      as [held|] eqn:Hheld
  |
  | case_decide
  | case_decide
  | case_decide
  | case_decide ];
  cbn [fst snd app].

(** A goal about each call of a list that is written out. *)
Ltac each_call tac :=
  let Hc := fresh "Hc" in
  intros Hc;
  repeat (apply elem_of_cons in Hc as [Hc | Hc]; [tac Hc|]);
  solve [inversion Hc].

(** * Properties *)

(** ** The fragment of JavaScript *)

Module JSFacts.

Import JS.

(** The literals are the doubles nearest to the decimal constants. *)
Example literals_are_rounded :
  div (of_Z 9) (of_Z 10) = lit_0_9 /\ div (of_Z 7) (of_Z 10) = lit_0_7 /\
  div (of_Z 8) (of_Z 10) = lit_0_8 /\ div (of_Z 1) (of_Z 2) = lit_0_5 /\
  of_Z 1 = one /\ of_Z 5000 = lit_5000.
Proof. repeat split; vm_compute; reflexivity. Qed.

(** Comparing a number with a positive finite one, by cases on the
    number. *)
Lemma compare_finite_l (x : number) (m : positive) (e : Z) :
  SFcompare x (S754_finite false m e) =
  match x with
  | S754_nan => None
  | S754_infinity s => Some (if s then Lt else Gt)
  | S754_zero _ => Some Lt
  | S754_finite true _ _ => Some Lt
  | S754_finite false m' e' =>
      Some match (e' ?= e)%Z with
           | Lt => Lt
           | Gt => Gt
           | Eq => (Z.pos m' ?= Z.pos m)%Z
           end
  end.
Proof. destruct x as [s|s| |[|] m' e']; reflexivity. Qed.

Lemma compare_finite_r (x : number) (m : positive) (e : Z) :
  SFcompare (S754_finite false m e) x =
  match x with
  | S754_nan => None
  | S754_infinity s => Some (if s then Gt else Lt)
  | S754_zero _ => Some Gt
  | S754_finite true _ _ => Some Gt
  | S754_finite false m' e' =>
      Some match (e' ?= e)%Z with
           | Lt => Gt
           | Gt => Lt
           | Eq => CompOpp (Z.pos m' ?= Z.pos m)%Z
           end
  end.
Proof.
  destruct x as [s|s| |[|] m' e']; try reflexivity.
  cbn [SFcompare]. change (Pos.compare_cont Eq m m') with (Z.pos m ?= Z.pos m')%Z.
  rewrite (Z.compare_antisym e' e), (Z.compare_antisym (Z.pos m') (Z.pos m)).
  destruct (e' ?= e)%Z; reflexivity.
Qed.

Lemma or_else_truthy {A} (truthy : A -> bool) (x : option A) (d : A) :
  truthy_opt truthy x = true -> Some (or_else truthy x d) = x.
Proof. destruct x as [v|]; cbn; [intros ->; reflexivity | discriminate]. Qed.

Lemma or_opt_truthy {A} (truthy : A -> bool) (x y : option A) :
  truthy_opt truthy x = true -> or_opt truthy x y = x.
Proof. unfold or_opt. intros ->. reflexivity. Qed.

(** *** Base64 *)

Import JS.Base64.

(** Every 6-bit digit is read back as its value, and the padding
    character has none. *)
Lemma value_digit_table :
  forallb (fun k => bool_decide (value (digit (N.of_nat k)) = Some (N.of_nat k)))
    (seq 0 64) = true.
Proof. vm_compute. reflexivity. Qed.

Lemma value_digit (n : N) : (n < 64)%N -> value (digit n) = Some n.
Proof.
  intros Hn. pose proof value_digit_table as Htable.
  rewrite forallb_forall in Htable.
  specialize (Htable (N.to_nat n)). rewrite N2Nat.id in Htable.
  apply bool_decide_eq_true in Htable; [exact Htable|].
  apply in_seq. lia.
Qed.

Lemma value_pad : value pad = None.
Proof. reflexivity. Qed.

Lemma byte_of_to_N (b : byte) : byte_of (Byte.to_N b) = [b].
Proof. unfold byte_of. rewrite Byte.of_to_N. reflexivity. Qed.

Lemma to_N_lt (b : byte) : (Byte.to_N b < 256)%N.
Proof. pose proof (Byte.to_N_bounded b). lia. Qed.

(** The four digits of a group are in range and carry its three bytes. *)
Lemma group_digits (x y z : N) :
  (x < 256 -> y < 256 -> z < 256 ->
   x / 4 < 64 /\ x mod 4 * 16 + y / 16 < 64 /\
   y mod 16 * 4 + z / 64 < 64 /\ z mod 64 < 64 /\
   x / 4 * 4 + (x mod 4 * 16 + y / 16) / 16 = x /\
   (x mod 4 * 16 + y / 16) mod 16 * 16 + (y mod 16 * 4 + z / 64) / 4 = y /\
   (y mod 16 * 4 + z / 64) mod 4 * 64 + z mod 64 = z)%N.
Proof.
  intros Hx Hy Hz. repeat split; zify; Z.to_euclidean_division_equations; lia.
Qed.

Lemma last_group_digits (x y : N) :
  (x < 256 -> y < 256 ->
   x mod 4 * 16 < 64 /\ y mod 16 * 4 < 64 /\
   x / 4 * 4 + (x mod 4 * 16) / 16 = x /\
   (x mod 4 * 16 + y / 16) mod 16 * 16 + (y mod 16 * 4) / 4 = y)%N.
Proof.
  intros Hx Hy. repeat split; zify; Z.to_euclidean_division_equations; lia.
Qed.

(** Induction over a list, three elements at a time. *)
Lemma list_ind3 {A} (P : list A -> Prop) :
  P [] -> (forall a, P [a]) -> (forall a b, P [a; b]) ->
  (forall a b c l, P l -> P (a :: b :: c :: l)) ->
  forall l, P l.
Proof.
  intros H0 H1 H2 H3. fix IH 1.
  intros [|a [|b [|c l]]]; [exact H0 | apply H1 | apply H2 | apply H3, IH].
Qed.

(** Decoding recovers the bytes that were encoded. *)
Lemma decode_encode (bs : list byte) : decode (encode bs) = bs.
Proof.
  induction bs as [|a|a b|a b c bs IH] using list_ind3.
  - reflexivity.
  - pose proof (to_N_lt a) as Ha.
    destruct (group_digits (Byte.to_N a) 0 0) as (H1 & _); [lia..|].
    destruct (last_group_digits (Byte.to_N a) 0) as (H2 & _ & E1 & _); [lia..|].
    cbn [encode decode].
    rewrite !value_digit, value_pad by assumption.
    rewrite E1. apply byte_of_to_N.
  - pose proof (to_N_lt a) as Ha. pose proof (to_N_lt b) as Hb.
    destruct (group_digits (Byte.to_N a) (Byte.to_N b) 0) as (H1 & H2 & _ & _ & E1 & _);
      [lia..|].
    destruct (last_group_digits (Byte.to_N a) (Byte.to_N b)) as (_ & H3 & _ & E2);
      [lia..|].
    cbn [encode decode].
    rewrite !value_digit, value_pad by assumption.
    rewrite E1, E2, !byte_of_to_N. reflexivity.
  - pose proof (to_N_lt a) as Ha. pose proof (to_N_lt b) as Hb.
    pose proof (to_N_lt c) as Hc.
    destruct (group_digits (Byte.to_N a) (Byte.to_N b) (Byte.to_N c))
      as (H1 & H2 & H3 & H4 & E1 & E2 & E3); [lia..|].
    cbn [encode decode].
    rewrite !value_digit by assumption.
    rewrite E1, E2, E3, !byte_of_to_N, IH. reflexivity.
Qed.

End JSFacts.

(** ** The confidence display *)

Module DisplayFacts.

Import JS JSFacts.

(** C9. [getConfidenceOpacity], in both screens, maps a confidence of at
    least 0.9 to opacity 1, one in [0.7, 0.9) to 0.8 and one in (0, 0.7)
    to 0.5; a confidence of exactly 0 and an absent confidence are both
    shown at opacity 1. *)
Theorem getConfidenceOpacity_buckets :
  SessionDetailScreen.getConfidenceOpacity = RecordScreen.getConfidenceOpacity /\
  (forall c : number,
      (geb c lit_0_9 = true -> RecordScreen.getConfidenceOpacity (Some c) = one) /\
      (geb c lit_0_7 = true -> ltb c lit_0_9 = true ->
       RecordScreen.getConfidenceOpacity (Some c) = lit_0_8) /\
      (gtb c zero = true -> ltb c lit_0_7 = true ->
       RecordScreen.getConfidenceOpacity (Some c) = lit_0_5) /\
      (eqb c zero = true -> RecordScreen.getConfidenceOpacity (Some c) = one)) /\
  RecordScreen.getConfidenceOpacity None = one.
Proof.
  split; [reflexivity | split; [| reflexivity]].
  intros c.
  unfold RecordScreen.getConfidenceOpacity, geb, ltb, gtb, eqb, SFleb, SFltb, SFeqb,
    lit_0_9, lit_0_7, zero.
  rewrite !compare_finite_l, !compare_finite_r.
  destruct c as [s|s| |[|] m e]; cbn [truthy_opt truthy_num negb SFcompare];
    repeat split; try (intros; discriminate).
  1-4: destruct s; cbv beta iota; intros; try discriminate; reflexivity.
  all: by_order.
Qed.

(** The four cases on concrete confidences: 0.9, 0.8, 0.5, 0. *)
Example getConfidenceOpacity_samples :
  RecordScreen.getConfidenceOpacity (Some lit_0_9) = one /\
  RecordScreen.getConfidenceOpacity (Some lit_0_8) = lit_0_8 /\
  RecordScreen.getConfidenceOpacity (Some lit_0_5) = lit_0_5 /\
  RecordScreen.getConfidenceOpacity (Some zero) = one /\
  RecordScreen.getConfidenceOpacity (Some (S754_zero true)) = one.
Proof. repeat split. Qed.

End DisplayFacts.

(** ** The relay *)

Module RelayFacts.

Import Storage Routes Spec.

Section WithWorld.

Context (W : World).

(** *** Runs *)

(** A property of the state that every step keeps holds after a run. *)
Lemma run_preserves (P : Relay -> Prop) :
  (forall st ev, P st -> P (fst (step W st ev))) ->
  forall evs st, P st -> P (fst (run W st evs)).
Proof.
  intros Hstep evs. induction evs as [|ev evs IH]; intros st HP; cbn [run].
  - exact HP.
  - specialize (Hstep st ev HP). destruct (step W st ev) as [st1 calls1].
    specialize (IH st1 Hstep). destruct (run W st1 evs). exact IH.
Qed.

(** *** Before authentication *)

Lemma close_assemblyWs_unauthenticated (st : Relay) :
  unauthenticated st -> close_assemblyWs st = (st, []).
Proof.
  intros (_ & _ & Hws). unfold close_assemblyWs, assemblyWs_open. rewrite Hws.
  reflexivity.
Qed.

Lemma step_unauthenticated (st : Relay) (ev : Event) :
  unauthenticated st -> successful_auth W ev = false ->
  unauthenticated (fst (step W st ev)) /\
  Forall (fun c => opens_upstream c = false) (snd (step W st ev)).
Proof.
  intros Hun Hev. pose proof Hun as (Hauth & Hsock & Hws).
  destruct ev as [data| | |id|id data|id|id]; cbn [step].
  - unfold on_client_message. cbn [successful_auth] in Hev.
    destruct (is_control data) eqn:Hctl; cbn [andb] in Hev.
    + destruct (JSON_parse_client W (toString data)) as [message|]; [|auto].
      destruct (type_is message "auth") eqn:Hty; cbn [andb] in Hev.
      * unfold on_auth. destruct (verifyToken W (msg_token message)) eqn:Hv.
        { exfalso. apply bool_decide_eq_false in Hev. apply Hev. eauto. }
        cbn; repeat split; auto.
      * destruct (type_is message "start").
        { unfold on_start. rewrite Hauth. cbn. auto. }
        destruct (type_is message "stop"); [|auto].
        unfold on_stop. rewrite close_assemblyWs_unauthenticated by assumption.
        cbn. auto.
    + unfold on_audio, assemblyWs_open. rewrite Hws. auto.
  - unfold on_client_close.
    rewrite close_assemblyWs_unauthenticated; cbn; repeat split; auto.
  - auto.
  - rewrite Hsock. cbn. auto.
  - rewrite Hsock. cbn. auto.
  - rewrite Hsock. cbn. auto.
  - rewrite Hsock. cbn. auto.
Qed.

Lemma run_unauthenticated (evs : list Event) (st : Relay) :
  unauthenticated st ->
  Forall (fun ev => successful_auth W ev = false) evs ->
  unauthenticated (fst (run W st evs)) /\
  Forall (fun c => opens_upstream c = false) (snd (run W st evs)).
Proof.
  revert st. induction evs as [|ev evs IH]; intros st Hun Hall; cbn [run].
  - split; [exact Hun | constructor].
  - inversion Hall as [|? ? Hev Hevs]; subst.
    destruct (step_unauthenticated st ev Hun Hev) as [Hun1 Hcalls1].
    destruct (step W st ev) as [st1 calls1]. cbn [fst snd] in *.
    destruct (IH st1 Hun1 Hevs) as [Hun2 Hcalls2].
    destruct (run W st1 evs) as [st2 calls2]. cbn [fst snd] in *.
    split; [exact Hun2 | apply Forall_app; split; assumption].
Qed.

(** C2. As long as no "auth" message with a verifying token was
    processed, the connection is not authenticated, the relay has
    opened no connection to the provider, and a "start" command is
    answered by one "error" message ("Not authenticated") and nothing
    else. *)
Theorem start_rejected_before_auth (evs : list Event) :
  Forall (fun ev => successful_auth W ev = false) evs ->
  isAuthenticated (fst (run W initial evs)) = false /\
  Forall (fun c => opens_upstream c = false) (snd (run W initial evs)) /\
  forall data, is_command W "start" data = true ->
    step W (fst (run W initial evs)) (OnClientMessage data) =
    (fst (run W initial evs), [ClientSend (MsgError "Not authenticated")]) /\
    type_of (MsgError "Not authenticated") = "error".
Proof.
  intros Hall.
  destruct (run_unauthenticated evs initial) as [(Hauth & Hsock & Hws) Hcalls];
    [repeat split | exact Hall |].
  split; [exact Hauth|]. split; [exact Hcalls|].
  intros data Hcmd. split; [|reflexivity].
  unfold is_command in Hcmd. apply andb_true_iff in Hcmd as [Hctl Hty].
  cbn [step]. unfold on_client_message. rewrite Hctl.
  destruct (JSON_parse_client W (toString data)) as [message|]; [|discriminate].
  replace (type_is message "auth") with false.
  - rewrite Hty. unfold on_start. rewrite Hauth. reflexivity.
  - unfold type_is in *. destruct (msg_type message) as [t|]; [|reflexivity].
    apply String.eqb_eq in Hty. subst t. reflexivity.
Qed.

(** *** Once a provider socket exists *)

Lemma or_opt_env_truthy (key : string) :
  JS.or_opt JS.truthy_str (ASSEMBLYAI_API_KEY W) None = Some key ->
  JS.truthy_str key = true.
Proof.
  unfold JS.or_opt. destruct (ASSEMBLYAI_API_KEY W) as [k|]; cbn; [|discriminate].
  destruct (JS.truthy_str k) eqn:Hk; [|discriminate].
  intros [= <-]. exact Hk.
Qed.

Lemma close_assemblyWs_configured (st : Relay) :
  configured W st -> configured W (fst (close_assemblyWs st)).
Proof.
  unfold close_assemblyWs. destruct (assemblyWs_open st) as [id|]; [|auto].
  intros Hc Hne. cbn in *. apply Hc. intros Hnil. apply Hne. rewrite Hnil.
  reflexivity.
Qed.

Lemma set_socket_configured (st : Relay) (id : nat) (r : ReadyState) :
  configured W st -> configured W (set_socket id r st).
Proof.
  intros Hc Hne. cbn in *. apply Hc. intros Hnil. apply Hne. rewrite Hnil.
  reflexivity.
Qed.

Lemma step_configured (st : Relay) (ev : Event) :
  configured W st -> configured W (fst (step W st ev)).
Proof.
  intros Hc.
  destruct ev as [data| | |id|id data|id|id]; cbn [step];
    repeat case_decide; cbn [fst]; auto using set_socket_configured.
  - unfold on_client_message.
    destruct (is_control data).
    + destruct (JSON_parse_client W (toString data)) as [message|]; [|exact Hc].
      destruct (type_is message "auth").
      { unfold on_auth. destruct (verifyToken W (msg_token message)); exact Hc. }
      destruct (type_is message "start").
      { unfold on_start. destruct (isAuthenticated st); [|exact Hc]. cbn [negb].
        cbn [assemblyApiKey set_assemblyApiKey].
        destruct (JS.or_opt JS.truthy_str (ASSEMBLYAI_API_KEY W) None) as [key|] eqn:Hk.
        - intros _. cbn. eauto 8 using or_opt_env_truthy.
        - intros Hne. cbn in *. destruct (Hc Hne) as (cfg & key & _ & _ & _ & Hk').
          congruence. }
      destruct (type_is message "stop"); [|exact Hc].
      unfold on_stop. pose proof (close_assemblyWs_configured st Hc) as Hc'.
      destruct (close_assemblyWs st). exact Hc'.
    + unfold on_audio. destruct (assemblyWs_open st); [destruct data|]; exact Hc.
  - unfold on_client_close. apply close_assemblyWs_configured. exact Hc.
Qed.

Lemma reachable_configured (evs : list Event) :
  configured W (fst (run W initial evs)).
Proof.
  apply (run_preserves (configured W)); [exact step_configured|].
  intros Hne. exfalso. apply Hne. reflexivity.
Qed.

(** Translating into the source language is the identity. *)
Lemma translateWithLemur_same (text language apiKey : string) :
  translateWithLemur W text language language apiKey = text.
Proof.
  unfold translateWithLemur.
  destruct (negb (JS.truthy_str text) || (String.length (JS.trim text) =? 0)%nat);
    [reflexivity|].
  rewrite String.eqb_refl. reflexivity.
Qed.

(** C1, as amended. On a connection in any reachable state, a provider
    message with [message_type] "FinalTranscript" and a non-empty [text]
    makes the relay send the client exactly one message, of type
    "translation": [originalText] is the text, [translatedText] the
    trimmed result of [translateWithLemur] for the session's language
    pair, [startTime] and [endTime] the provider's [audio_start] and
    [audio_end], or 0 when absent. A final transcript whose text is
    absent or empty produces no message. *)
Theorem final_transcript_forwarded (evs : list Event) (id : nat) (data : string)
    (result : AssemblyResult) :
  id < length (sockets (fst (run W initial evs))) ->
  JSON_parse_assembly W data = Some result ->
  res_message_type result = Some "FinalTranscript" ->
  (forall text, res_text result = Some text -> text <> "" ->
    exists cfg key,
      sessionConfig (fst (run W initial evs)) = Some cfg /\
      assemblyApiKey (fst (run W initial evs)) = Some key /\
      step W (fst (run W initial evs)) (OnAssemblyMessage id data) =
      (fst (run W initial evs),
       [ClientSend
          (MsgTranslation "A" text
             (JS.trim
                (translateWithLemur W text (cfg_sourceLanguage cfg)
                   (cfg_targetLanguage cfg) key))
             (JS.or_num (res_confidence result) JS.lit_0_9)
             (JS.or_num (res_audio_start result) JS.zero)
             (JS.or_num (res_audio_end result) JS.zero))])) /\
  (JS.truthy_opt JS.truthy_str (res_text result) = false ->
    step W (fst (run W initial evs)) (OnAssemblyMessage id data) =
    (fst (run W initial evs), [])).
Proof.
  intros Hid Hparse Hty.
  pose proof (reachable_configured evs) as Hc.
  set (st := fst (run W initial evs)) in *.
  cbn [step]. rewrite decide_True by exact Hid.
  unfold on_assembly_message. rewrite Hparse, Hty. split.
  - intros text Htext Hne. rewrite Htext.
    destruct Hc as (cfg & key & Hcfg & Hkey & Htruthy & _).
    { intros Hnil. rewrite Hnil in Hid. cbn in Hid. lia. }
    exists cfg, key. split; [exact Hcfg|]. split; [exact Hkey|].
    rewrite String.eqb_refl. cbn [andb].
    replace (JS.truthy_str text) with true by (destruct text; [congruence | reflexivity]).
    rewrite Hcfg, Hkey, Htruthy, andb_true_r.
    destruct (String.eqb_spec (cfg_sourceLanguage cfg) (cfg_targetLanguage cfg)) as [->|_];
      cbn [negb]; [rewrite translateWithLemur_same|]; reflexivity.
  - intros Hfalsy. destruct (res_text result) as [text|]; [|reflexivity].
    cbn in Hfalsy. rewrite Hfalsy, andb_false_r. reflexivity.
Qed.

(** *** Control frames and audio frames *)

Lemma assemblyWs_open_inv (st : Relay) (id : nat) :
  assemblyWs_open st = Some id ->
  assemblyWs st = Some id /\ sockets st !! id = Some OPEN.
Proof.
  unfold assemblyWs_open. destruct (assemblyWs st) as [i|]; [|discriminate].
  destruct (sockets st !! i) as [[| | |]|] eqn:Hi; try discriminate.
  intros [= <-]. auto.
Qed.

Lemma assemblyWs_open_intro (st : Relay) (id : nat) :
  assemblyWs st = Some id -> sockets st !! id = Some OPEN ->
  assemblyWs_open st = Some id.
Proof. unfold assemblyWs_open. intros -> ->. reflexivity. Qed.

Lemma close_assemblyWs_open (st : Relay) (id : nat) :
  assemblyWs_open st = Some id ->
  close_assemblyWs st =
  (set_socket id CLOSING st, [AssemblySend id TerminateSession; AssemblyClose id]).
Proof. unfold close_assemblyWs. intros ->. reflexivity. Qed.

Lemma set_socket_lookup (st : Relay) (id : nat) (r : ReadyState) :
  id < length (sockets st) -> sockets (set_socket id r st) !! id = Some r.
Proof. intros Hid. cbn. apply list_lookup_insert_eq. exact Hid. Qed.

(** A command of one type is of no other type. *)
Lemma type_is_unique (message : ClientMessage) (t t' : string) :
  type_is message t = true -> t <> t' -> type_is message t' = false.
Proof.
  unfold type_is. destruct (msg_type message) as [s|]; [|discriminate].
  intros Ht Hne. apply String.eqb_eq in Ht. subst s.
  apply String.eqb_neq. exact Hne.
Qed.

Lemma step_stop (st : Relay) (data : RawData) :
  is_command W "stop" data = true ->
  step W st (OnClientMessage data) = on_stop st.
Proof.
  unfold is_command. intros Hcmd. apply andb_true_iff in Hcmd as [Hctl Hty].
  cbn [step]. unfold on_client_message. rewrite Hctl.
  destruct (JSON_parse_client W (toString data)) as [message|]; [|discriminate].
  rewrite (type_is_unique message "stop" "auth"), (type_is_unique message "stop" "start"), Hty
    by (assumption || discriminate).
  reflexivity.
Qed.

(** No branch of the control path forwards audio. *)
Lemma control_never_forwards_audio (st : Relay) (data : RawData) :
  is_control data = true ->
  Forall (fun c => forwards_audio c = false) (snd (step W st (OnClientMessage data))).
Proof.
  intros Hctl. cbn [step]. unfold on_client_message. rewrite Hctl.
  destruct (JSON_parse_client W (toString data)) as [message|]; [|constructor].
  destruct (type_is message "auth").
  { unfold on_auth. destruct (verifyToken W (msg_token message)); repeat constructor. }
  destruct (type_is message "start").
  { unfold on_start. destruct (isAuthenticated st); cbn [negb]; [|repeat constructor].
    destruct (assemblyApiKey _); repeat constructor. }
  destruct (type_is message "stop"); [|constructor].
  unfold on_stop, close_assemblyWs. destruct (assemblyWs_open st); repeat constructor.
Qed.

(** C8. A binary frame whose first byte is 123 is handled exactly as the
    text frame with the same content: it is parsed as a control message,
    no call made for it forwards audio to the provider, whatever the
    state of the provider socket, and when it does not parse the relay
    makes no call at all and its state, the client socket included, stays
    as it was. *)
Theorem brace_frame_is_control (st : Relay) (b : byte) (rest : list byte) :
  Byte.to_N b = 123%N ->
  step W st (OnClientMessage (BufferData (b :: rest))) =
    step W st (OnClientMessage (StringData (toString (BufferData (b :: rest))))) /\
  Forall (fun c => forwards_audio c = false)
    (snd (step W st (OnClientMessage (BufferData (b :: rest))))) /\
  (JSON_parse_client W (toString (BufferData (b :: rest))) = None ->
   step W st (OnClientMessage (BufferData (b :: rest))) = (st, [])).
Proof.
  intros Hb.
  assert (Hctl : is_control (BufferData (b :: rest)) = true)
    by (cbn [is_control]; rewrite Hb; reflexivity).
  split; [|split].
  - cbn [step]. unfold on_client_message. rewrite Hctl. reflexivity.
  - apply control_never_forwards_audio. exact Hctl.
  - intros Hparse. cbn [step]. unfold on_client_message. rewrite Hctl, Hparse.
    reflexivity.
Qed.

(** C6, as amended. While the provider socket the relay holds is open, a
    binary frame whose first byte is not 123 is forwarded at once, as one
    message to the provider whose [audio_data] is the base64 encoding of
    the whole frame; the relay keeps nothing of it (its state is
    unchanged), and decoding [audio_data] gives the frame back, byte for
    byte. *)
Theorem audio_frame_forwarded (st : Relay) (id : nat) (b : list byte) :
  assemblyWs_open st = Some id ->
  is_control (BufferData b) = false ->
  step W st (OnClientMessage (BufferData b)) =
    (st, [AssemblySend id (AudioData (JS.Base64.encode b))]) /\
  JS.Base64.decode (JS.Base64.encode b) = b.
Proof.
  intros Hopen Hctl. split; [|apply JSFacts.decode_encode].
  cbn [step]. unfold on_client_message. rewrite Hctl.
  unfold on_audio. rewrite Hopen. reflexivity.
Qed.

(** *** Tear-down *)

(** C4, as amended. While the provider socket the relay holds is open: a
    "stop" command makes the relay send it a termination message and
    close it, then answer "stopped", leaving the client socket as it is;
    the closure of the client socket makes the relay send the same two
    calls to the provider socket; and the closure of the provider socket
    makes the relay do nothing: the client socket stays as it is. *)
Theorem teardown_closes_provider_socket (st : Relay) (id : nat) :
  assemblyWs_open st = Some id ->
  (forall data, is_command W "stop" data = true ->
     snd (step W st (OnClientMessage data)) =
       [AssemblySend id TerminateSession; AssemblyClose id; ClientSend MsgStopped] /\
     sockets (fst (step W st (OnClientMessage data))) !! id = Some CLOSING /\
     clientWs (fst (step W st (OnClientMessage data))) = clientWs st) /\
  (snd (step W st OnClientClose) =
     [AssemblySend id TerminateSession; AssemblyClose id] /\
   sockets (fst (step W st OnClientClose)) !! id = Some CLOSING /\
   clientWs (fst (step W st OnClientClose)) = CLOSED) /\
  (snd (step W st (OnAssemblyClose id)) = [] /\
   sockets (fst (step W st (OnAssemblyClose id))) !! id = Some CLOSED /\
   clientWs (fst (step W st (OnAssemblyClose id))) = clientWs st).
Proof.
  intros Hopen. pose proof (assemblyWs_open_inv st id Hopen) as [Hws Hsock].
  assert (Hid : id < length (sockets st)) by (eapply lookup_lt_Some; exact Hsock).
  split; [|split].
  - intros data Hcmd. rewrite (step_stop st data Hcmd). unfold on_stop.
    rewrite (close_assemblyWs_open st id Hopen). cbn [fst snd app].
    split; [reflexivity|]. split; [|reflexivity].
    apply set_socket_lookup. exact Hid.
  - cbn [step]. unfold on_client_close.
    rewrite (close_assemblyWs_open (set_clientWs CLOSED st) id) by exact Hopen.
    cbn [fst snd]. split; [reflexivity|]. split; [|reflexivity].
    apply set_socket_lookup. exact Hid.
  - cbn [step]. rewrite decide_True by exact Hid. cbn [fst snd].
    split; [reflexivity|]. split; [|reflexivity].
    apply set_socket_lookup. exact Hid.
Qed.

(** What the client's [close] handler does for the provider socket the
    relay holds: when it is open it is sent a termination message and
    closed, and when it is the only provider socket of the connection no
    provider socket is left open. *)
Theorem client_close_closes_held_socket (st : Relay) (id : nat) :
  assemblyWs st = Some id -> sockets st !! id = Some OPEN ->
  snd (step W st OnClientClose) = [AssemblySend id TerminateSession; AssemblyClose id] /\
  sockets (fst (step W st OnClientClose)) !! id = Some CLOSING /\
  (length (sockets st) = 1 ->
   Forall (fun r => shut r = true) (sockets (fst (step W st OnClientClose)))).
Proof.
  intros Hws Hsock.
  assert (Hid : id < length (sockets st)) by (eapply lookup_lt_Some; exact Hsock).
  cbn [step]. unfold on_client_close.
  rewrite (close_assemblyWs_open (set_clientWs CLOSED st) id)
    by (apply assemblyWs_open_intro; assumption).
  cbn [fst snd]. split; [reflexivity|]. split.
  - apply set_socket_lookup. exact Hid.
  - intros Hlen. cbn. destruct (sockets st) as [|r [|r' l]]; try discriminate.
    destruct id as [|id]; [|cbn in Hid; lia]. repeat constructor.
Qed.

(** *** Errors of the provider socket *)

(** C7, as amended. An error of a provider socket makes the relay send
    the client one message of type "error" that carries a string and
    nothing else ("Transcription service error"). The relay makes no
    other call: it opens no new connection and closes neither socket.
    Its variables and the client socket are as they were; the provider
    socket is closing, as the socket library has left it, and the other
    provider sockets are as they were. *)
Theorem provider_error_reported (st : Relay) (id : nat) :
  id < length (sockets st) ->
  snd (step W st (OnAssemblyError id)) =
    [ClientSend (MsgError "Transcription service error")] /\
  type_of (MsgError "Transcription service error") = "error" /\
  assemblyWs (fst (step W st (OnAssemblyError id))) = assemblyWs st /\
  sessionConfig (fst (step W st (OnAssemblyError id))) = sessionConfig st /\
  isAuthenticated (fst (step W st (OnAssemblyError id))) = isAuthenticated st /\
  assemblyApiKey (fst (step W st (OnAssemblyError id))) = assemblyApiKey st /\
  clientWs (fst (step W st (OnAssemblyError id))) = clientWs st /\
  sockets (fst (step W st (OnAssemblyError id))) !! id = Some CLOSING /\
  (forall other, other <> id ->
     sockets (fst (step W st (OnAssemblyError id))) !! other = sockets st !! other).
Proof.
  intros Hid. cbn [step]. rewrite decide_True by exact Hid. cbn [fst snd].
  repeat split.
  - apply set_socket_lookup. exact Hid.
  - intros other Hother. cbn. apply list_lookup_insert_ne. congruence.
Qed.

End WithWorld.

(** A connection whose only "auth" carried a bad token, then "start". *)
Lemma start_rejected_before_auth_witness :
  let evs := [Sample.frame (Sample.auth_frame "bad"); Sample.frame Sample.start_frame] in
  Forall (fun ev => successful_auth Sample.world ev = false) evs /\
  snd (run Sample.world initial evs) =
    [ClientSend (MsgError "Authentication failed"); ClientClose;
     ClientSend (MsgError "Not authenticated")] /\
  isAuthenticated (fst (run Sample.world initial evs)) = false.
Proof.
  intros evs.
  assert (Hall : Forall (fun ev => successful_auth Sample.world ev = false) evs)
    by (repeat constructor).
  split; [exact Hall|]. split; [reflexivity|].
  exact (proj1 (start_rejected_before_auth Sample.world evs Hall)).
Defined.

(** *** The sample connection *)

(** The state of the sample connection once it streams: authenticated,
    configured for es to en, its one provider socket open. *)
Example streaming_state :
  run Sample.world initial Sample.streaming =
  ({| assemblyWs := Some 0;
      sessionConfig :=
        Some {| cfg_sessionId := Some (JS.of_Z 7); cfg_sourceLanguage := "es";
                cfg_targetLanguage := "en"; cfg_userId := Some "u1" |};
      isAuthenticated := true; assemblyApiKey := Some "key";
      clientWs := OPEN; sockets := [OPEN] |},
   [ClientSend MsgAuthSuccess; AssemblyNew 0 assemblyUrl "key"; ClientSend MsgReady]).
Proof. vm_compute. reflexivity. Qed.

(** In the sample connection a final transcript "hola" is translated and
    forwarded with its time range. *)
Lemma final_transcript_forwarded_witness :
  exists cfg key,
    sessionConfig (fst (run Sample.world initial Sample.streaming)) = Some cfg /\
    assemblyApiKey (fst (run Sample.world initial Sample.streaming)) = Some key /\
    step Sample.world (fst (run Sample.world initial Sample.streaming))
      (OnAssemblyMessage 0 (Sample.final_frame "hola")) =
    (fst (run Sample.world initial Sample.streaming),
     [ClientSend
        (MsgTranslation "A" "hola"
           (JS.trim
              (translateWithLemur Sample.world "hola" (cfg_sourceLanguage cfg)
                 (cfg_targetLanguage cfg) key))
           (JS.or_num (res_confidence (Sample.final_result "hola")) JS.lit_0_9)
           (JS.or_num (res_audio_start (Sample.final_result "hola")) JS.zero)
           (JS.or_num (res_audio_end (Sample.final_result "hola")) JS.zero))]).
Proof.
  apply (proj1 (final_transcript_forwarded Sample.world Sample.streaming 0
                  (Sample.final_frame "hola") (Sample.final_result "hola")
                  (le_n 1) eq_refl eq_refl) "hola").
  - reflexivity.
  - discriminate.
Defined.

(** The message of the sample, computed: "hola" becomes "hello". *)
Example final_transcript_sample :
  snd (step Sample.world (fst (run Sample.world initial Sample.streaming))
         (OnAssemblyMessage 0 (Sample.final_frame "hola"))) =
  [ClientSend (MsgTranslation "A" "hola" "hello" JS.lit_0_9 (JS.of_Z 100) (JS.of_Z 900))].
Proof. vm_compute. reflexivity. Qed.

(** C1, counterexample. The provider's message is a final transcript,
    yet the relay sends the client nothing: its text is empty. *)
Lemma final_transcript_without_text_dropped :
  JSON_parse_assembly Sample.world (Sample.final_frame "") =
    Some (Sample.final_result "") /\
  res_message_type (Sample.final_result "") = Some "FinalTranscript" /\
  snd (step Sample.world (fst (run Sample.world initial Sample.streaming))
         (OnAssemblyMessage 0 (Sample.final_frame ""))) = [].
Proof. repeat split; vm_compute; reflexivity. Qed.

(** In the sample connection the audio frame that starts with byte 123
    is taken for a control message and dropped. *)
Lemma brace_frame_is_control_witness :
  Byte.to_N x7b = 123%N /\
  step Sample.world (fst (run Sample.world initial Sample.streaming))
    (OnClientMessage (BufferData Sample.audio_123)) =
  (fst (run Sample.world initial Sample.streaming), []).
Proof.
  split; [reflexivity|].
  apply (brace_frame_is_control Sample.world
           (fst (run Sample.world initial Sample.streaming)) x7b [x00; x01; x00]%byte).
  - reflexivity.
  - reflexivity.
Defined.

(** C6, counterexample. The provider socket is open and the client sends
    a binary frame of audio samples, yet nothing is forwarded: the frame
    starts with byte 123. *)
Lemma brace_audio_frame_not_forwarded :
  assemblyWs_open (fst (run Sample.world initial Sample.streaming)) = Some 0 /\
  snd (step Sample.world (fst (run Sample.world initial Sample.streaming))
         (OnClientMessage (BufferData Sample.audio_123))) = [].
Proof. split; vm_compute; reflexivity. Qed.

(** In the sample connection a frame of four bytes is forwarded as
    "AAECAw==". *)
Lemma audio_frame_forwarded_witness :
  step Sample.world (fst (run Sample.world initial Sample.streaming))
    (OnClientMessage (BufferData [x00; x01; x02; x03]%byte)) =
  (fst (run Sample.world initial Sample.streaming),
   [AssemblySend 0 (AudioData (JS.Base64.encode [x00; x01; x02; x03]%byte))]) /\
  JS.Base64.decode (JS.Base64.encode [x00; x01; x02; x03]%byte) = [x00; x01; x02; x03]%byte.
Proof.
  apply (audio_frame_forwarded Sample.world
           (fst (run Sample.world initial Sample.streaming)) 0).
  - reflexivity.
  - reflexivity.
Defined.

Example audio_frame_sample :
  JS.Base64.encode [x00; x01; x02; x03]%byte = "AAECAw==".
Proof. reflexivity. Qed.

(** In the sample connection "stop" closes the provider socket and leaves
    the client socket open. *)
Lemma teardown_closes_provider_socket_witness :
  snd (step Sample.world (fst (run Sample.world initial Sample.streaming))
         (Sample.frame Sample.stop_frame)) =
    [AssemblySend 0 TerminateSession; AssemblyClose 0; ClientSend MsgStopped] /\
  sockets (fst (step Sample.world (fst (run Sample.world initial Sample.streaming))
                  (Sample.frame Sample.stop_frame))) !! 0 = Some CLOSING /\
  clientWs (fst (step Sample.world (fst (run Sample.world initial Sample.streaming))
                   (Sample.frame Sample.stop_frame))) =
    clientWs (fst (run Sample.world initial Sample.streaming)).
Proof.
  apply (proj1 (teardown_closes_provider_socket Sample.world
                  (fst (run Sample.world initial Sample.streaming)) 0 eq_refl)).
  reflexivity.
Defined.

(** C4, counterexample. After "stop", and after the closure of the
    provider socket that follows, the client socket is still open and the
    relay never called [close] on it. *)
Lemma stop_leaves_client_socket_open :
  clientWs (fst (run Sample.world initial
                   (Sample.streaming ++ [Sample.frame Sample.stop_frame; OnAssemblyClose 0]))) = OPEN /\
  Forall (fun c => c <> ClientClose)
    (snd (run Sample.world initial
            (Sample.streaming ++ [Sample.frame Sample.stop_frame; OnAssemblyClose 0]))).
Proof. split; [reflexivity|]. vm_compute. repeat constructor; discriminate. Qed.

(** In the sample connection the client closes while the one provider
    socket is open. *)
Lemma client_close_closes_held_socket_witness :
  snd (step Sample.world (fst (run Sample.world initial Sample.streaming)) OnClientClose) =
    [AssemblySend 0 TerminateSession; AssemblyClose 0] /\
  sockets (fst (step Sample.world (fst (run Sample.world initial Sample.streaming))
                  OnClientClose)) !! 0 = Some CLOSING /\
  (length (sockets (fst (run Sample.world initial Sample.streaming))) = 1 ->
   Forall (fun r => shut r = true)
     (sockets (fst (step Sample.world (fst (run Sample.world initial Sample.streaming))
                      OnClientClose)))).
Proof.
  apply (client_close_closes_held_socket Sample.world
           (fst (run Sample.world initial Sample.streaming)) 0); reflexivity.
Defined.

(** C5, the failing run. A second "start" replaces the provider socket
    the relay holds; both sockets open; when the client closes, the relay
    terminates and closes the second socket only, and the first stays
    open with nothing left to close it. *)
Lemma second_start_leaks_first_socket :
  sockets (fst (run Sample.world initial
                  (Sample.streaming ++ [Sample.frame Sample.start_frame; OnAssemblyOpen 1]))) =
    [OPEN; OPEN] /\
  run Sample.world
    (fst (run Sample.world initial
            (Sample.streaming ++ [Sample.frame Sample.start_frame; OnAssemblyOpen 1])))
    [OnClientClose] =
  ({| assemblyWs := Some 1;
      sessionConfig :=
        Some {| cfg_sessionId := Some (JS.of_Z 7); cfg_sourceLanguage := "es";
                cfg_targetLanguage := "en"; cfg_userId := Some "u1" |};
      isAuthenticated := true; assemblyApiKey := Some "key";
      clientWs := CLOSED; sockets := [OPEN; CLOSING] |},
   [AssemblySend 1 TerminateSession; AssemblyClose 1]).
Proof. split; vm_compute; reflexivity. Qed.

(** In the sample connection the provider socket reports an error. *)
Lemma provider_error_reported_witness :
  snd (step Sample.world (fst (run Sample.world initial Sample.streaming))
         (OnAssemblyError 0)) =
    [ClientSend (MsgError "Transcription service error")] /\
  type_of (MsgError "Transcription service error") = "error" /\
  assemblyWs (fst (step Sample.world (fst (run Sample.world initial Sample.streaming))
                     (OnAssemblyError 0))) =
    assemblyWs (fst (run Sample.world initial Sample.streaming)) /\
  sessionConfig (fst (step Sample.world (fst (run Sample.world initial Sample.streaming))
                        (OnAssemblyError 0))) =
    sessionConfig (fst (run Sample.world initial Sample.streaming)) /\
  isAuthenticated (fst (step Sample.world (fst (run Sample.world initial Sample.streaming))
                          (OnAssemblyError 0))) =
    isAuthenticated (fst (run Sample.world initial Sample.streaming)) /\
  assemblyApiKey (fst (step Sample.world (fst (run Sample.world initial Sample.streaming))
                         (OnAssemblyError 0))) =
    assemblyApiKey (fst (run Sample.world initial Sample.streaming)) /\
  clientWs (fst (step Sample.world (fst (run Sample.world initial Sample.streaming))
                   (OnAssemblyError 0))) =
    clientWs (fst (run Sample.world initial Sample.streaming)) /\
  sockets (fst (step Sample.world (fst (run Sample.world initial Sample.streaming))
                  (OnAssemblyError 0))) !! 0 = Some CLOSING /\
  (forall other, other <> 0 ->
     sockets (fst (step Sample.world (fst (run Sample.world initial Sample.streaming))
                     (OnAssemblyError 0))) !! other =
     sockets (fst (run Sample.world initial Sample.streaming)) !! other).
Proof.
  apply (provider_error_reported Sample.world
           (fst (run Sample.world initial Sample.streaming)) 0).
  apply le_n.
Defined.

(** C7, counterexample. After an error of the provider socket, and
    after the closure of that socket which follows, the client socket is
    open as before and the relay has closed no socket: the relay has
    not stopped. *)
Lemma provider_error_closes_nothing :
  clientWs (fst (run Sample.world initial
                   (Sample.streaming ++ [OnAssemblyError 0; OnAssemblyClose 0]))) = OPEN /\
  sockets (fst (run Sample.world initial (Sample.streaming ++ [OnAssemblyError 0]))) =
    [CLOSING] /\
  sockets (fst (run Sample.world initial
                  (Sample.streaming ++ [OnAssemblyError 0; OnAssemblyClose 0]))) =
    [CLOSED] /\
  Forall (fun c => closes_socket c = false)
    (snd (run Sample.world initial
            (Sample.streaming ++ [OnAssemblyError 0; OnAssemblyClose 0]))).
Proof. repeat split; vm_compute; repeat constructor. Qed.

End RelayFacts.

(** ** The REST handlers *)

Module ApiFacts.

Import Storage Routes Spec.

Section WithWorld.

Context (W : World).

(** *** Login *)


(** *** Finalize *)

Lemma or_else_carried {A} (truthy : A -> bool) (x : option A) (d : A) :
  JS.or_else truthy x d = default d (carried truthy x).
Proof. destruct x as [v|]; cbn; [destruct (truthy v)|]; reflexivity. Qed.

Lemma or_opt_carried {A} (truthy : A -> bool) (x y : option A) :
  JS.or_opt truthy x y =
  match carried truthy x with
  | Some v => Some v
  | None => y
  end.
Proof. unfold JS.or_opt. destruct x as [v|]; cbn; [destruct (truthy v)|]; reflexivity. Qed.

Lemma fold_left_confidences (us : list SubmittedUtterance) (acc : JS.number) :
  fold_left (fun sum u => JS.add sum (JS.or_num (u_confidence u) JS.lit_0_9)) us acc =
  fold_left JS.add (map counted_confidence us) acc.
Proof.
  revert acc. induction us as [|u us IH]; intros acc; cbn [fold_left map]; [reflexivity|].
  rewrite <- IH. unfold counted_confidence, JS.or_num. rewrite or_else_carried. reflexivity.
Qed.

Lemma avgConfidence_mean (us : list SubmittedUtterance) :
  us <> [] -> avgConfidence (Some us) = arithmetic_mean (map counted_confidence us).
Proof.
  intros Hne. unfold avgConfidence, arithmetic_mean, sum.
  destruct us as [|u us]; [congruence|].
  rewrite fold_left_confidences, length_map. reflexivity.
Qed.

(** The row that the handler builds, as the table holds it. *)
Lemma stored_utteranceData (pg : Postgres) (sessionId : Z) (i : nat)
    (u : SubmittedUtterance) :
  stored_utterance pg (utteranceData sessionId i u) = persisted pg sessionId i u.
Proof.
  unfold stored_utterance, utteranceData, persisted, counted_confidence.
  cbn [utt_sessionId utt_speakerLabel utt_originalText utt_translatedText utt_confidence
       utt_startTime utt_endTime].
  unfold JS.or_str, JS.or_num. rewrite !or_else_carried, !or_opt_carried. reflexivity.
Qed.

Lemma stored_rows (pg : Postgres) (sessionId : Z) (us : list SubmittedUtterance) :
  map (stored_utterance pg) (imap (utteranceData sessionId) us) =
  imap (persisted pg sessionId) us.
Proof.
  apply list_eq. intros i. rewrite list_lookup_fmap, !list_lookup_imap.
  destruct (us !! i) as [u|]; [|reflexivity]. cbn. f_equal. apply stored_utteranceData.
Qed.

Lemma filter_imap_all {A} (P : InsertUtterance -> Prop) `{forall row, Decision (P row)}
    (f : nat -> A -> InsertUtterance) (l : list A) :
  (forall i x, P (f i x)) -> filter P (imap f l) = imap f l.
Proof.
  revert f. induction l as [|x l IH]; intros f Hf; [reflexivity|].
  cbn [imap]. rewrite filter_cons_True by apply Hf. f_equal.
  apply IH. intros i y. apply Hf.
Qed.

Lemma filter_imap_none {A} (P : InsertUtterance -> Prop) `{forall row, Decision (P row)}
    (f : nat -> A -> InsertUtterance) (l : list A) :
  (forall i x, ~ P (f i x)) -> filter P (imap f l) = [].
Proof.
  revert f. induction l as [|x l IH]; intros f Hf; [reflexivity|].
  cbn [imap]. rewrite filter_cons_False by apply Hf.
  apply IH. intros i y. apply Hf.
Qed.

(** C3, as amended. A finalize request on a session the bearer owns, with
    a non-empty list of utterances whose statements the database accepts,
    is answered with success. The rows of the session grow by exactly one
    row per submitted utterance, in order, and the rows of every other
    session stay as they were. The row of an utterance holds the session
    and each field as the utterance carries it: a field that is absent
    or falsy (an empty string, a zero, [NaN]) is replaced by the speaker
    "A", the text of [text], the confidence 0.9, or the times that its
    index stands for. The session's stored confidence becomes the
    arithmetic mean of the confidences the utterances count with, 0.9
    for one that carries none. The row's confidence and the session's
    are held as a [real] column returns them. *)
Theorem finalize_persists_utterances (db : DatabaseStorage) (userId : string)
    (sessionId : Z) (duration : option JS.number) (us : list SubmittedUtterance)
    (session : TranscriptionSession) :
  getSessionById db sessionId = Some session ->
  session_userId session = userId ->
  us <> [] ->
  accepts_insert (postgres W) (imap (utteranceData sessionId) us) = true ->
  accepts_update (postgres W) sessionId (sessionUpdate duration (Some us)) = true ->
  snd (finalize W db userId sessionId duration (Some us)) =
    {| status := 200; body := BodyFinalized sessionId |} /\
  utterances_of (fst (finalize W db userId sessionId duration (Some us))) sessionId =
    utterances_of db sessionId ++ imap (persisted (postgres W) sessionId) us /\
  (forall other, other <> sessionId ->
     utterances_of (fst (finalize W db userId sessionId duration (Some us))) other =
     utterances_of db other) /\
  session_avgConfidence <$>
    transcriptionSessions (fst (finalize W db userId sessionId duration (Some us))) !! sessionId =
  Some (Some (real (postgres W) (arithmetic_mean (map counted_confidence us)))).
Proof.
  intros Hsession Howner Hne Hinsert Hupdate.
  unfold finalize. rewrite Hsession, Howner, String.eqb_refl. cbn [negb].
  assert (Hcreate :
    match us with
    | [] => Some db
    | _ :: _ => createUtterances (postgres W) db (imap (utteranceData sessionId) us)
    end =
    Some {| users := users db;
            transcriptionSessions := transcriptionSessions db;
            utterances := utterances db ++ imap (persisted (postgres W) sessionId) us |}).
  { unfold createUtterances. rewrite Hinsert, stored_rows.
    destruct us; [congruence | reflexivity]. }
  rewrite Hcreate. unfold updateSession. rewrite Hupdate.
  cbn [fst snd utterances transcriptionSessions]. unfold utterances_of.
  cbn [utterances]. rewrite !filter_app.
  split; [reflexivity|]. split; [|split].
  - f_equal. apply filter_imap_all. reflexivity.
  - intros other Hother. rewrite filter_app, filter_imap_none; [apply app_nil_r|].
    intros i v. cbn. congruence.
  - rewrite lookup_alter_eq. unfold getSessionById in Hsession.
    rewrite Hsession. unfold sessionUpdate.
    cbn [fmap option_fmap option_map apply_update session_avgConfidence upd_avgConfidence].
    rewrite <- (avgConfidence_mean us) by assumption. reflexivity.
Qed.

End WithWorld.



(** Two utterances that carry every field are stored as submitted, and
    the session's confidence becomes their mean. *)
Lemma finalize_persists_utterances_witness :
  snd (finalize Sample.world Sample.db "u1" 7 (Some (JS.of_Z 12)) (Some Sample.complete_pair)) =
    {| status := 200; body := BodyFinalized 7 |} /\
  utterances_of (fst (finalize Sample.world Sample.db "u1" 7 (Some (JS.of_Z 12))
                        (Some Sample.complete_pair))) 7 =
    utterances_of Sample.db 7 ++
    imap (persisted (postgres Sample.world) 7) Sample.complete_pair /\
  (forall other, other <> 7%Z ->
     utterances_of (fst (finalize Sample.world Sample.db "u1" 7 (Some (JS.of_Z 12))
                           (Some Sample.complete_pair))) other =
     utterances_of Sample.db other) /\
  session_avgConfidence <$>
    transcriptionSessions (fst (finalize Sample.world Sample.db "u1" 7 (Some (JS.of_Z 12))
                                  (Some Sample.complete_pair))) !! 7%Z =
  Some (Some (real (postgres Sample.world)
                (arithmetic_mean (map counted_confidence Sample.complete_pair)))).
Proof.
  apply (finalize_persists_utterances Sample.world Sample.db "u1" 7 (Some (JS.of_Z 12))
           Sample.complete_pair Sample.session_7).
  - reflexivity.
  - reflexivity.
  - discriminate.
  - reflexivity.
  - reflexivity.
Defined.

(** The run of the sample, computed: the rows are those submitted, and
    the mean of 0.9 and 0.5 is 0.7. *)
Example finalize_sample :
  utterances (fst (finalize Sample.world Sample.db "u1" 7 (Some (JS.of_Z 12))
                     (Some Sample.complete_pair))) =
  [{| utt_sessionId := 7; utt_speakerLabel := "A"; utt_originalText := Some "hola";
      utt_translatedText := Some "hola"; utt_confidence := JS.lit_0_9;
      utt_startTime := JS.of_Z 1000; utt_endTime := JS.of_Z 2000 |};
   {| utt_sessionId := 7; utt_speakerLabel := "A"; utt_originalText := Some "adios amigo";
      utt_translatedText := Some "adios amigo"; utt_confidence := JS.lit_0_5;
      utt_startTime := JS.of_Z 3000; utt_endTime := JS.of_Z 4000 |}] /\
  session_avgConfidence <$>
    transcriptionSessions (fst (finalize Sample.world Sample.db "u1" 7 (Some (JS.of_Z 12))
                                  (Some Sample.complete_pair))) !! 7%Z =
  Some (Some JS.lit_0_7) /\
  arithmetic_mean [JS.lit_0_9; JS.lit_0_5] = JS.lit_0_7.
Proof. repeat split; vm_compute; reflexivity. Qed.

(** C3, counterexample. Two utterances are submitted with the
    confidences 0 and 0.5, of which the mean is 0.25: the session is
    stored with 0.7, and the first utterance is persisted with a
    confidence of 0.9 that was not submitted. *)
Lemma finalize_replaces_zero_confidence :
  submitted_confidences Sample.zero_pair = [JS.zero; JS.lit_0_5] /\
  arithmetic_mean (submitted_confidences Sample.zero_pair) =
    S754_finite false 4503599627370496 (-54) /\
  session_avgConfidence <$>
    transcriptionSessions (fst (finalize Sample.world Sample.db "u1" 7 (Some (JS.of_Z 12))
                                  (Some Sample.zero_pair))) !! 7%Z =
  Some (Some JS.lit_0_7) /\
  u_confidence <$> Sample.zero_pair !! 0 = Some (Some JS.zero) /\
  utt_confidence <$>
    utterances (fst (finalize Sample.world Sample.db "u1" 7 (Some (JS.of_Z 12))
                       (Some Sample.zero_pair))) !! 0 =
  Some JS.lit_0_9.
Proof. repeat split; vm_compute; reflexivity. Qed.

(** The same with an utterance that carries no confidence at all. *)
Example finalize_counts_missing_confidence :
  submitted_confidences Sample.partial_pair = [JS.lit_0_5] /\
  session_avgConfidence <$>
    transcriptionSessions (fst (finalize Sample.world Sample.db "u1" 7 (Some (JS.of_Z 12))
                                  (Some Sample.partial_pair))) !! 7%Z =
  Some (Some JS.lit_0_7) /\
  utt_confidence <$>
    utterances (fst (finalize Sample.world Sample.db "u1" 7 (Some (JS.of_Z 12))
                       (Some Sample.partial_pair))) !! 0 =
  Some JS.lit_0_9.
Proof. repeat split; vm_compute; reflexivity. Qed.

End ApiFacts.

(** ** [trim] *)

Module TrimFacts.

Import JS Terms.

Lemma append_nil (t : string) : (EmptyString ++ t)%string = t.
Proof. reflexivity. Qed.

Lemma append_cons (c : ascii) (s t : string) :
  (String c s ++ t)%string = String c (s ++ t)%string.
Proof. reflexivity. Qed.

(** Induction on the length of a string: [trim_start] goes on with what
    follows a character of one, two or three bytes. *)
Lemma string_length_ind (P : string -> Prop) :
  (forall s, (forall t, String.length t < String.length s -> P t) -> P s) ->
  forall s, P s.
Proof.
  intros Hstep s. remember (String.length s) as n eqn:Hn. revert s Hn.
  induction n as [n IH] using lt_wf_ind. intros s ->.
  apply Hstep. intros t Ht. apply (IH (String.length t) Ht t eq_refl).
Qed.

(** What [trim_start] returns is empty or starts with a character that
    is not white space, and such a string is left as it is. *)
Lemma trim_start_black (s : string) : starts_black (trim_start s).
Proof.
  induction s as [s IH] using string_length_ind.
  destruct s as [|c s1]; [exact I|]. cbn [trim_start].
  destruct (is_white_space c) eqn:H1; [apply IH; cbn; lia|].
  destruct s1 as [|d s2]; [cbn; auto|].
  destruct (is_white_space2 c d) eqn:H2; [apply IH; cbn; lia|].
  destruct s2 as [|e s3]; [cbn; auto|].
  destruct (is_white_space3 c d e) eqn:H3; [apply IH; cbn; lia|].
  cbn. auto.
Qed.

Lemma trim_start_fixed (s : string) : starts_black s -> trim_start s = s.
Proof.
  destruct s as [|c [|d [|e s3]]]; cbn [starts_black trim_start].
  - reflexivity.
  - intros [-> _]. reflexivity.
  - intros [-> [-> _]]. reflexivity.
  - intros [-> [-> ->]]. reflexivity.
Qed.

(** [trim_end] keeps the first bytes of what it does not drop. *)
Lemma trim_end_cons (c : ascii) (s : string) :
  trim_end (String c s) = EmptyString \/ trim_end (String c s) = String c (trim_end s).
Proof. cbn [trim_end]. destruct (trim_start (String c s)); auto. Qed.

Lemma trim_end_black (s : string) : starts_black s -> starts_black (trim_end s).
Proof.
  intros Hs. destruct s as [|c s1]; [exact I|].
  destruct (trim_end_cons c s1) as [-> | ->]; [exact I|].
  destruct Hs as [H1 Hs]. split; [exact H1|].
  destruct s1 as [|d s2]; [exact I|].
  destruct (trim_end_cons d s2) as [-> | ->]; [exact I|].
  destruct Hs as [H2 Hs]. split; [exact H2|].
  destruct s2 as [|e s3]; [exact I|].
  destruct (trim_end_cons e s3) as [-> | ->]; [exact I | exact Hs].
Qed.

(** White space followed by white space is white space. *)
Lemma trim_start_app (a w : string) :
  trim_start a = EmptyString -> trim_start w = EmptyString ->
  trim_start (a ++ w) = EmptyString.
Proof.
  intros Ha Hw. induction a as [a IH] using string_length_ind.
  destruct a as [|c s1]; [exact Hw|].
  rewrite append_cons. cbn [trim_start] in Ha |- *.
  destruct (is_white_space c); [apply IH; [cbn; lia | exact Ha]|].
  destruct s1 as [|d s2]; [discriminate Ha|].
  rewrite append_cons. destruct (is_white_space2 c d); [apply IH; [cbn; lia | exact Ha]|].
  destruct s2 as [|e s3]; [discriminate Ha|].
  rewrite append_cons. destruct (is_white_space3 c d e); [apply IH; [cbn; lia | exact Ha]|].
  discriminate Ha.
Qed.

(** What [trim_end] drops is white space. *)
Lemma trim_end_split (s : string) :
  exists w, s = (trim_end s ++ w)%string /\ trim_start w = EmptyString.
Proof.
  induction s as [|c s IH]; [exists EmptyString; auto|].
  cbn [trim_end]. destruct (trim_start (String c s)) as [|x y] eqn:Hs.
  - exists (String c s). auto.
  - destruct IH as (w & Hw & Hblank). exists w. split; [|exact Hblank].
    rewrite append_cons. f_equal. exact Hw.
Qed.

Lemma trim_end_idem (s : string) : trim_end (trim_end s) = trim_end s.
Proof.
  induction s as [|c s IH]; [reflexivity|].
  cbn [trim_end]. destruct (trim_start (String c s)) as [|x y] eqn:Hs; [reflexivity|].
  cbn [trim_end]. destruct (trim_start (String c (trim_end s))) as [|x' y'] eqn:Hs'.
  - exfalso. destruct (trim_end_split s) as (w & Hw & Hblank).
    pose proof (trim_start_app (String c (trim_end s)) w Hs' Hblank) as Happ.
    rewrite append_cons, <- Hw, Hs in Happ. discriminate Happ.
  - f_equal. exact IH.
Qed.

Lemma trim_idem (s : string) : trim (trim s) = trim s.
Proof.
  unfold trim. rewrite (trim_start_fixed (trim_end (trim_start s))).
  - apply trim_end_idem.
  - apply trim_end_black, trim_start_black.
Qed.

Lemma length_zero (s : string) : (String.length s =? 0)%nat = true <-> s = "".
Proof. destruct s; cbn; split; (reflexivity || discriminate). Qed.

(** White space of more than one byte at both ends: a no-break space
    before and a line separator after. *)
Example trim_unicode :
  trim (string_of_list_byte [xc2; xa0; x68; x69; x20; xe2; x80; xa8]%byte) = "hi" /\
  trim (string_of_list_byte [xc3; xa0; xe2; x80; xa0]%byte) =
    string_of_list_byte [xc3; xa0; xe2; x80; xa0]%byte.
Proof. split; vm_compute; reflexivity. Qed.

End TrimFacts.

(** ** [slice] and code units *)

Module SliceFacts.

Import JS.

Lemma code_point4_bound (c : ascii) (s : string) : (code_point4 c s < 2097152)%N.
Proof.
  assert (Hp : forall k t, (payload k t < 64)%N).
  { intros k t. revert k. induction t as [|d t IH]; intros k; cbn [payload]; [lia|].
    destruct (utf8 d); try lia. destruct k; [apply N.mod_lt; lia | apply IH]. }
  unfold code_point4. pose proof (Hp 0 s). pose proof (Hp 1 s). pose proof (Hp 2 s).
  assert (N_of_ascii c mod 8 < 8)%N by (apply N.mod_lt; lia). lia.
Qed.

Lemma high_surrogate_bound (u : N) :
  (u < 2097152)%N -> (high_surrogate u / 4096 = 13)%N.
Proof.
  intros Hu. unfold high_surrogate.
  assert (Hq : ((u - 65536) / 1024 < 1984)%N).
  { apply N.Div0.div_lt_upper_bound. lia. }
  symmetry. apply N.div_unique with (r := (2048 + (u - 65536) / 1024)%N); lia.
Qed.

(** A surrogate that stands alone is read back from its three bytes. *)
Lemma units_surrogate_bytes (h : N) :
  (h / 4096 = 13)%N -> units (JSLib.surrogate_bytes h) = [h].
Proof.
  intros Hh. unfold JSLib.surrogate_bytes. rewrite Hh.
  assert (H1 : (h / 64 mod 64 < 64)%N) by (apply N.mod_lt; lia).
  assert (H2 : (h mod 64 < 64)%N) by (apply N.mod_lt; lia).
  assert (Hc : forall x, (x < 64)%N ->
            utf8 (ascii_of_N (128 + x)) = Continuation /\
            (N_of_ascii (ascii_of_N (128 + x)) mod 64 = x)%N).
  { intros x Hx. unfold utf8. rewrite N_ascii_embedding by lia.
    destruct (N.ltb_spec (128 + x) 128); [lia|].
    destruct (N.ltb_spec (128 + x) 192); [|lia]. split; [reflexivity|].
    rewrite N.add_comm. replace 128%N with (2 * 64)%N by reflexivity.
    rewrite N.Div0.mod_add. apply N.mod_small. exact Hx. }
  destruct (Hc _ H1) as [Hk1 Hv1]. destruct (Hc _ H2) as [Hk2 Hv2].
  cbn [units payload]. change (utf8 (ascii_of_N (224 + 13))) with Lead3.
  rewrite ?Hk1, ?Hk2. cbn [units payload]. rewrite ?Hk1, ?Hk2.
  cbn [units payload]. rewrite ?Hk1, ?Hk2, Hv1, Hv2.
  f_equal. change (N_of_ascii (ascii_of_N (224 + 13)) mod 16)%N with 13%N.
  rewrite (N.div_mod h 4096) at 3 by lia. rewrite Hh.
  assert (Hm : (h mod 4096 = h / 64 mod 64 * 64 + h mod 64)%N).
  { replace 4096%N with (64 * 64)%N by reflexivity. rewrite N.Div0.mod_mul_r. lia. }
  lia.
Qed.

(** The bytes that continue a character are kept by [slice]. *)
Lemma payload_slice_to (k n : nat) (s : string) :
  payload k (JSLib.slice_to n s) = payload k s.
Proof.
  revert k n. induction s as [|c s IH]; intros k n; [reflexivity|].
  cbn [JSLib.slice_to payload]. destruct (utf8 c) eqn:Hc.
  - destruct n; cbn [payload]; [|rewrite Hc]; reflexivity.
  - cbn [payload]. rewrite Hc. destruct k; [reflexivity | apply IH].
  - destruct n; cbn [payload]; [|rewrite Hc]; reflexivity.
  - destruct n; cbn [payload]; [|rewrite Hc]; reflexivity.
  - destruct n as [|[|n]]; cbn [payload]; [reflexivity| |rewrite Hc; reflexivity].
    unfold JSLib.surrogate_bytes. cbn [payload].
    rewrite (high_surrogate_bound _ (code_point4_bound c s)).
    change (utf8 (ascii_of_N (224 + 13))) with Lead3. reflexivity.
Qed.

(** [s.slice(0, n)] holds the first [n] code units of [s]. *)
Lemma units_slice_to (n : nat) (s : string) :
  units (JSLib.slice_to n s) = take n (units s).
Proof.
  revert n. induction s as [|c s IH]; intros n; [destruct n; reflexivity|].
  cbn [JSLib.slice_to units]. destruct (utf8 c) eqn:Hc.
  - destruct n; [reflexivity|]. cbn [units take]. rewrite Hc, IH. reflexivity.
  - cbn [units]. rewrite Hc. apply IH.
  - destruct n; [reflexivity|]. cbn [units take]. rewrite Hc, IH, payload_slice_to.
    reflexivity.
  - destruct n; [reflexivity|]. cbn [units take]. rewrite Hc, IH, !payload_slice_to.
    reflexivity.
  - destruct n as [|[|n]]; [reflexivity| |].
    + rewrite units_surrogate_bytes
        by exact (high_surrogate_bound _ (code_point4_bound c s)).
      reflexivity.
    + cbn [units take]. rewrite Hc, IH. unfold code_point4.
      rewrite !payload_slice_to. reflexivity.
Qed.

Lemma string_length_slice_to (n : nat) (s : string) :
  string_length (JSLib.slice_to n s) <= n.
Proof. unfold string_length. rewrite units_slice_to, length_take. lia. Qed.

(** A character outside the basic plane counts twice, and is cut in
    two where the count ends within it: of two grinning faces three
    code units are the first face and the high surrogate of the second. *)
Example slice_to_surrogates :
  let faces := string_of_list_byte [xf0; x9f; x98; x80; xf0; x9f; x98; x80]%byte in
  string_length faces = 4 /\
  JSLib.slice_to 2 faces = string_of_list_byte [xf0; x9f; x98; x80]%byte /\
  JSLib.slice_to 3 faces = string_of_list_byte [xf0; x9f; x98; x80; xed; xa0; xbd]%byte /\
  units (JSLib.slice_to 3 faces) = [55357; 56832; 55357]%N.
Proof. repeat split; vm_compute; reflexivity. Qed.

End SliceFacts.

(** ** The relay: what every run keeps *)

Module RelayInvariants.

Import Storage Routes Spec Terms.

Section WithWorld.

Context (W : World).

(** A property of the state that the steps on the events of a run keep,
    and a property of the calls of those steps. *)
Lemma run_invariant (P : Relay -> Prop) (R : Event -> Prop) (Q : Call -> Prop) :
  (forall st ev, P st -> R ev ->
     P (step W st ev).1 /\ forall c, c ∈ (step W st ev).2 -> Q c) ->
  forall evs st, P st -> Forall R evs ->
    P (run W st evs).1 /\ forall c, c ∈ (run W st evs).2 -> Q c.
Proof.
  intros Hstep evs. induction evs as [|ev evs IH]; intros st HP Hevs; cbn [run].
  - split; [exact HP|]. intros c Hc. inversion Hc.
  - apply Forall_cons in Hevs as [Hev Hevs].
    destruct (Hstep st ev HP Hev) as [HP1 HQ1].
    destruct (step W st ev) as [st1 calls1]. cbn [fst snd] in *.
    destruct (IH st1 HP1 Hevs) as [HP2 HQ2].
    destruct (run W st1 evs) as [st2 calls2]. cbn [fst snd] in *.
    split; [exact HP2|]. intros c Hc. apply elem_of_app in Hc as [Hc | Hc]; auto.
Qed.

(** The calls of a step and of the rest of a run, put together. *)
Lemma run_cons (st : Relay) (ev : Event) (evs : list Event) :
  run W st (ev :: evs) =
  ((run W (step W st ev).1 evs).1, (step W st ev).2 ++ (run W (step W st ev).1 evs).2).
Proof.
  cbn [run]. destruct (step W st ev) as [st1 calls1]. cbn [fst snd].
  destruct (run W st1 evs) as [st2 calls2]. reflexivity.
Qed.

Lemma Forall_any {A} (xs : list A) : Forall (fun _ => True) xs.
Proof. apply Forall_forall. auto. Qed.

(** *** The calls on a provider socket *)

(** Every call the relay makes on a provider socket, a send or a close,
    is made on the socket it holds, and while that socket is open. *)
Theorem provider_calls_on_open_held_socket (st : Relay) (ev : Event) (c : Call)
    (id : nat) :
  c ∈ (step W st ev).2 -> provider_target c = Some id ->
  assemblyWs st = Some id /\ sockets st !! id = Some OPEN.
Proof.
  relay_cases W st ev;
    try (apply RelayFacts.assemblyWs_open_inv in Hheld; cbn in Hheld);
    try (unfold on_assembly_message;
         destruct (JSON_parse_assembly W data) as [result|];
         [destruct (res_message_type result), (res_text result);
          [destruct (_ && _)| | |]|]);
    each_call ltac:(fun H => subst c; intros Ht; try discriminate Ht;
                             injection Ht as <-; exact Hheld).
Qed.

(** While no provider socket has opened, none is open, and no call is
    made on one. *)
Lemma none_open_before_open (st : Relay) (evs : list Event) :
  Forall (fun r => r <> OPEN) (sockets st) ->
  Forall (fun ev => forall id, ev <> OnAssemblyOpen id) evs ->
  Forall (fun r => r <> OPEN) (sockets (run W st evs).1) /\
  forall c, c ∈ (run W st evs).2 -> provider_target c = None.
Proof.
  intros Hst Hevs.
  apply (run_invariant (fun st => Forall (fun r => r <> OPEN) (sockets st))
           (fun ev => forall id, ev <> OnAssemblyOpen id)
           (fun c => provider_target c = None)); [|exact Hst|exact Hevs].
  clear st evs Hst Hevs. intros st ev Hst Hev.
  assert (Hnone : forall id, assemblyWs_open st <> Some id).
  { intros id Hopen. apply RelayFacts.assemblyWs_open_inv in Hopen as [_ Hopen].
    rewrite Forall_lookup in Hst. exact (Hst id OPEN Hopen eq_refl). }
  assert (Hins : forall id r, r <> OPEN -> Forall (fun r => r <> OPEN) (<[id := r]> (sockets st))).
  { intros id r Hr. apply Forall_insert; assumption. }
  relay_cases W st ev;
    try (exfalso; exact (Hnone _ eq_refl));
    try (exfalso; exact (Hnone _ Hheld));
    try (exfalso; exact (Hev _ eq_refl));
    try (unfold on_assembly_message;
         destruct (JSON_parse_assembly W data) as [result|];
         [destruct (res_message_type result), (res_text result);
          [destruct (_ && _)| | |]|]);
    (split;
     [ cbn; try assumption; try (apply Hins; discriminate);
       try (apply Forall_app; split; [assumption | repeat constructor; discriminate])
     | intros c; each_call ltac:(fun H => subst c; reflexivity) ]).
Qed.

(** The run of two sequences of events, one after the other. *)
Lemma run_app (st : Relay) (evs1 evs2 : list Event) :
  run W st (evs1 ++ evs2) =
  ((run W (run W st evs1).1 evs2).1,
   (run W st evs1).2 ++ (run W (run W st evs1).1 evs2).2).
Proof.
  revert st. induction evs1 as [|ev evs1 IH]; intros st.
  - cbn [app run fst snd]. destruct (run W st evs2). reflexivity.
  - change ((ev :: evs1) ++ evs2) with (ev :: (evs1 ++ evs2)).
    rewrite !run_cons, IH. cbn [fst snd]. rewrite app_assoc. reflexivity.
Qed.

(** Audio that arrives before a provider socket has opened is dropped,
    not kept for later: up to there no call is made on a provider
    socket, and the run goes on as if the frame had never arrived,
    whatever follows, the provider's [open] included. *)
Theorem nothing_sent_before_provider_opens (st : Relay) (evs1 evs2 : list Event)
    (data : RawData) :
  Forall (fun r => r <> OPEN) (sockets st) ->
  Forall (fun ev => forall id, ev <> OnAssemblyOpen id) evs1 ->
  is_control data = false ->
  (forall c, c ∈ (run W st (evs1 ++ [OnClientMessage data])).2 ->
     provider_target c = None) /\
  run W st (evs1 ++ OnClientMessage data :: evs2) = run W st (evs1 ++ evs2).
Proof.
  intros Hst Hevs Hdata.
  destruct (none_open_before_open st evs1 Hst Hevs) as [Hclosed Hcalls].
  assert (Hstep : step W (run W st evs1).1 (OnClientMessage data) =
                  ((run W st evs1).1, [])).
  { cbn [step]. unfold on_client_message, on_audio. rewrite Hdata.
    destruct (assemblyWs_open (run W st evs1).1) as [id|] eqn:Hopen; [|reflexivity].
    apply RelayFacts.assemblyWs_open_inv in Hopen as [_ Hopen].
    rewrite Forall_lookup in Hclosed. destruct (Hclosed id OPEN Hopen eq_refl). }
  split.
  - intros c. rewrite run_app, run_cons, Hstep. cbn [run fst snd app].
    rewrite app_nil_r. apply Hcalls.
  - rewrite (run_app st evs1 (_ :: _)), run_cons, Hstep. cbn [fst snd app].
    rewrite <- run_app. reflexivity.
Qed.

(** *** The provider's credentials *)

Lemma or_opt_none_some (x : option string) (key : string) :
  JS.or_opt JS.truthy_str x None = Some key -> x = Some key /\ key <> "".
Proof.
  unfold JS.or_opt. destruct x as [[|a s]|]; cbn; try discriminate.
  intros [= <-]. split; [reflexivity | discriminate].
Qed.

(** Whatever the events, a connection to the provider is opened at the
    real-time endpoint and with the key of the environment, which is
    not empty. *)
Theorem upstream_opened_with_configured_key (st : Relay) (evs : list Event) (id : nat)
    (url authorization : string) :
  AssemblyNew id url authorization ∈ (run W st evs).2 ->
  url = assemblyUrl /\ ASSEMBLYAI_API_KEY W = Some authorization /\ authorization <> "".
Proof.
  intros Hc.
  apply (proj2 (run_invariant (fun _ => True) (fun _ => True)
                  (fun c => forall id url authorization, c = AssemblyNew id url authorization ->
                     url = assemblyUrl /\ ASSEMBLYAI_API_KEY W = Some authorization /\
                     authorization <> "")
                  ltac:(clear; intros st ev _ _; split; [exact I|];
                        relay_cases W st ev;
                        try (unfold on_assembly_message;
                             destruct (JSON_parse_assembly W data) as [result|];
                             [destruct (res_message_type result), (res_text result);
                              [destruct (_ && _)| | |]|]);
                        intros c;
                        each_call ltac:(fun H => subst c; intros ? ? ? [=]; subst;
                                                 apply or_opt_none_some in Hkey as [? ?];
                                                 auto))
                  evs st I (Forall_any evs)) _ Hc id url authorization eq_refl).
Qed.


(** *** The socket the relay holds *)

Lemma latest_app (sockets : list ReadyState) (r : ReadyState) :
  latest (sockets ++ [r]) = Some (length sockets).
Proof.
  unfold latest. rewrite length_app. cbn [length].
  replace (length sockets + 1) with (S (length sockets)) by lia. reflexivity.
Qed.

Lemma latest_insert (sockets : list ReadyState) (id : nat) (r : ReadyState) :
  latest (<[id := r]> sockets) = latest sockets.
Proof. unfold latest. rewrite length_insert. reflexivity. Qed.

(** The socket the relay holds is the one created last, and one socket
    exists for each connection opened: a socket created earlier is never
    held again, so by the theorem on provider calls it is never sent to
    or closed by the relay afterwards. *)
Theorem held_socket_is_latest (evs : list Event) :
  assemblyWs (run W initial evs).1 = latest (sockets (run W initial evs).1) /\
  length (sockets (run W initial evs).1) = opened (run W initial evs).2.
Proof.
  assert (Hgen : forall evs st,
            assemblyWs st = latest (sockets st) ->
            assemblyWs (run W st evs).1 = latest (sockets (run W st evs).1) /\
            length (sockets (run W st evs).1) =
              length (sockets st) + opened (run W st evs).2).
  { clear evs. intros evs. induction evs as [|ev evs IH]; intros st Hst.
    - cbn. split; [exact Hst | lia].
    - rewrite run_cons. cbn [fst snd].
      assert (Hstep : assemblyWs (step W st ev).1 = latest (sockets (step W st ev).1) /\
                      length (sockets (step W st ev).1) =
                        length (sockets st) + opened (step W st ev).2).
      { clear IH.
        relay_cases W st ev;
          try (unfold on_assembly_message;
               destruct (JSON_parse_assembly W data) as [result|];
               [destruct (res_message_type result), (res_text result);
                [destruct (_ && _)| | |]|]);
          cbn [assemblyWs sockets set_socket set_clientWs set_isAuthenticated
                 new_assemblyWs set_assemblyApiKey set_sessionConfig opened List.filter
                 opens_upstream length on_assembly_open on_assembly_error];
          rewrite ?latest_insert, ?latest_app, ?length_insert, ?length_app; cbn [length];
          (split; [congruence | lia]). }
      destruct Hstep as [Hheld Hlen]. destruct (IH _ Hheld) as [IH1 IH2].
      split; [exact IH1|]. rewrite IH2, Hlen. unfold opened.
      rewrite List.filter_app, length_app. lia. }
  destruct (Hgen evs initial eq_refl) as [H1 H2]. split; [exact H1 | exact H2].
Qed.

(** *** Authentication *)

(** Once a connection has authenticated it stays authenticated: no event
    takes the flag down again, and no later "start" is answered with
    "Not authenticated", also after a later "auth" with a bad token. *)
Theorem authentication_never_revoked (st : Relay) (evs : list Event) :
  isAuthenticated st = true ->
  isAuthenticated (run W st evs).1 = true /\
  ClientSend (MsgError "Not authenticated") ∉ (run W st evs).2.
Proof.
  intros Hst.
  destruct (run_invariant (fun st => isAuthenticated st = true) (fun _ => True)
              (fun c => c <> ClientSend (MsgError "Not authenticated"))
              ltac:(clear; intros st ev Hst _;
                    relay_cases W st ev;
                    try congruence;
                    try (unfold on_assembly_message;
                         destruct (JSON_parse_assembly W data) as [result|];
                         [destruct (res_message_type result), (res_text result);
                          [destruct (_ && _)| | |]|]);
                    (split; [cbn in *; congruence
                            | intros c; each_call ltac:(fun H => subst c; discriminate)]))
              evs st Hst (Forall_any evs)) as [H1 H2].
  split; [exact H1|]. intros Hc. exact (H2 _ Hc eq_refl).
Qed.

End WithWorld.

(** *** Examples *)

(** The "stop" of a streaming connection closes socket 0, which is held
    and open. *)
Lemma provider_calls_on_open_held_socket_witness :
  assemblyWs Cases.streaming_relay = Some 0 /\
  sockets Cases.streaming_relay !! 0 = Some OPEN.
Proof.
  apply (provider_calls_on_open_held_socket Sample.world Cases.streaming_relay
           (Sample.frame Sample.stop_frame) (AssemblyClose 0) 0).
  - vm_compute. repeat constructor.
  - reflexivity.
Defined.

(** A frame of two samples follows "start" before the provider's socket
    has opened, and one more follows the [open]: the first is sent
    nowhere and the second is forwarded, as when the first had not
    arrived. *)
Lemma nothing_sent_before_provider_opens_witness :
  (forall c,
     c ∈ (run Sample.world initial
            ([Sample.frame (Sample.auth_frame "good"); Sample.frame Sample.start_frame] ++
             [OnClientMessage (BufferData [x01; x00; x02; x00]%byte)])).2 ->
     provider_target c = None) /\
  run Sample.world initial
    ([Sample.frame (Sample.auth_frame "good"); Sample.frame Sample.start_frame] ++
     OnClientMessage (BufferData [x01; x00; x02; x00]%byte) ::
     [OnAssemblyOpen 0; OnClientMessage (BufferData [x03; x00; x04; x00]%byte)]) =
  run Sample.world initial
    ([Sample.frame (Sample.auth_frame "good"); Sample.frame Sample.start_frame] ++
     [OnAssemblyOpen 0; OnClientMessage (BufferData [x03; x00; x04; x00]%byte)]).
Proof.
  apply (nothing_sent_before_provider_opens Sample.world initial
           [Sample.frame (Sample.auth_frame "good"); Sample.frame Sample.start_frame]
           [OnAssemblyOpen 0; OnClientMessage (BufferData [x03; x00; x04; x00]%byte)]
           (BufferData [x01; x00; x02; x00]%byte)).
  - constructor.
  - repeat constructor; discriminate.
  - reflexivity.
Defined.

(** The calls of that run: the socket is created with "start", and the
    one audio message the provider is sent is that of the second frame. *)
Example early_audio_dropped :
  (run Sample.world initial
     [Sample.frame (Sample.auth_frame "good"); Sample.frame Sample.start_frame;
      OnClientMessage (BufferData [x01; x00; x02; x00]%byte);
      OnAssemblyOpen 0; OnClientMessage (BufferData [x03; x00; x04; x00]%byte)]).2 =
  [ClientSend MsgAuthSuccess; AssemblyNew 0 assemblyUrl "key"; ClientSend MsgReady;
   AssemblySend 0 (AudioData (JS.Base64.encode [x03; x00; x04; x00]%byte))].
Proof. vm_compute. reflexivity. Qed.

Lemma upstream_opened_with_configured_key_witness :
  assemblyUrl = assemblyUrl /\ ASSEMBLYAI_API_KEY Sample.world = Some "key" /\ "key" <> "".
Proof.
  apply (upstream_opened_with_configured_key Sample.world initial Sample.streaming 0).
  vm_compute. repeat constructor.
Defined.


(** An "auth" with a bad token after one with a good token: the
    "start" that follows is accepted. *)
Lemma authentication_never_revoked_witness :
  isAuthenticated
    (run Sample.world Cases.authenticated_relay
       [Sample.frame (Sample.auth_frame "bad"); Sample.frame Sample.start_frame]).1 = true /\
  ClientSend (MsgError "Not authenticated") ∉
    (run Sample.world Cases.authenticated_relay
       [Sample.frame (Sample.auth_frame "bad"); Sample.frame Sample.start_frame]).2.
Proof.
  apply (authentication_never_revoked Sample.world Cases.authenticated_relay). reflexivity.
Defined.

End RelayInvariants.

(** ** The relay: translations *)

Module TranslationFacts.

Import Storage Routes Spec Terms.

Section WithWorld.

Context (W : World).

(** [translateWithLemur] answers with the reply of the model, trimmed,
    when the languages differ, the text is not blank and the model
    replied with something that is not blank, and with the text it was
    given in every other case; a text that is not empty is never turned
    into an empty one. *)
Theorem translateWithLemur_falls_back (text sourceLanguage targetLanguage apiKey : string) :
  (forall response,
     blank text = false -> sourceLanguage <> targetLanguage ->
     lemur_task W sourceLanguage targetLanguage text apiKey = LemurOk (Some response) ->
     blank response = false ->
     translateWithLemur W text sourceLanguage targetLanguage apiKey = JS.trim response) /\
  (blank text = true \/ sourceLanguage = targetLanguage \/
   (forall response,
      lemur_task W sourceLanguage targetLanguage text apiKey = LemurOk (Some response) ->
      blank response = true) ->
   translateWithLemur W text sourceLanguage targetLanguage apiKey = text) /\
  (text <> "" -> translateWithLemur W text sourceLanguage targetLanguage apiKey <> "").
Proof.
  assert (Hcut : (negb (JS.truthy_str text) || (String.length (JS.trim text) =? 0)%nat)
                 = blank text).
  { unfold blank. destruct text as [|c text]; [reflexivity|]. cbn [JS.truthy_str negb orb].
    destruct (JS.trim (String c text)); reflexivity. }
  assert (Hreply : forall response,
            JS.or_str (Some (JS.trim response)) text =
            if blank response then text else JS.trim response).
  { intros response. unfold blank, JS.or_str, JS.or_else.
    destruct (JS.trim response); reflexivity. }
  unfold translateWithLemur. rewrite Hcut. repeat split.
  - intros response -> Hne Htask Hresponse.
    destruct (String.eqb_spec sourceLanguage targetLanguage) as [Heq | _];
      [contradiction|].
    rewrite Htask. cbn [option_map]. rewrite Hreply, Hresponse. reflexivity.
  - intros Hcase. destruct (blank text); [reflexivity|].
    destruct (String.eqb_spec sourceLanguage targetLanguage) as [_ | Hne];
      [reflexivity|].
    destruct Hcase as [Hblank | [Heq | Hcase]]; [discriminate | contradiction |].
    destruct (lemur_task W sourceLanguage targetLanguage text apiKey)
      as [| |[response|]]; try reflexivity.
    cbn [option_map]. rewrite Hreply, (Hcase response eq_refl). reflexivity.
  - intros Htext. destruct (blank text); [exact Htext|].
    destruct (String.eqb sourceLanguage targetLanguage); [exact Htext|].
    destruct (lemur_task W sourceLanguage targetLanguage text apiKey)
      as [| |[response|]]; try exact Htext.
    cbn [option_map]. rewrite Hreply. unfold blank.
    destruct (JS.trim response); [exact Htext | discriminate].
Qed.

(** What comes back is blank exactly when the text was. *)
Lemma translateWithLemur_blank (text sourceLanguage targetLanguage apiKey : string) :
  blank (translateWithLemur W text sourceLanguage targetLanguage apiKey) = blank text.
Proof.
  unfold translateWithLemur.
  destruct (negb (JS.truthy_str text) || (String.length (JS.trim text) =? 0)%nat) eqn:Hblank;
    [reflexivity|].
  apply orb_false_iff in Hblank as [_ Hblank].
  destruct (String.eqb sourceLanguage targetLanguage); [reflexivity|].
  destruct (lemur_task W sourceLanguage targetLanguage text apiKey) as [| |[response|]];
    try reflexivity.
  cbn [option_map JS.or_str JS.or_else].
  destruct (JS.truthy_str (JS.trim response)) eqn:Hresponse; [|reflexivity].
  unfold blank. rewrite TrimFacts.trim_idem.
  destruct (JS.trim response); [discriminate Hresponse|].
  destruct (JS.trim text); [discriminate Hblank | reflexivity].
Qed.

Lemma or_num_truthy (x : option JS.number) (d : JS.number) :
  JS.truthy_num d = true -> JS.truthy_num (JS.or_num x d) = true.
Proof.
  intros Hd. unfold JS.or_num, JS.or_else. destruct x as [v|]; [|exact Hd].
  destruct (JS.truthy_num v) eqn:Hv; [exact Hv | exact Hd].
Qed.

(** The message the provider's handler sends, when it sends one. *)
Lemma on_assembly_message_sends (st : Relay) (data : string) (c : Call) :
  c ∈ on_assembly_message W st data ->
  exists result text translated,
    JSON_parse_assembly W data = Some result /\
    res_message_type result = Some "FinalTranscript" /\
    res_text result = Some text /\ text <> "" /\
    blank translated = blank text /\
    c = ClientSend
          (MsgTranslation "A" text (JS.trim translated)
             (JS.or_num (res_confidence result) JS.lit_0_9)
             (JS.or_num (res_audio_start result) JS.zero)
             (JS.or_num (res_audio_end result) JS.zero)).
Proof.
  unfold on_assembly_message.
  destruct (JSON_parse_assembly W data) as [result|]; [|intros Hc; inversion Hc].
  destruct (res_message_type result) as [message_type|] eqn:Hty; [|intros Hc; inversion Hc].
  destruct (res_text result) as [text|] eqn:Htext; [|intros Hc; inversion Hc].
  destruct (String.eqb_spec message_type "FinalTranscript") as [-> | Hne]; cbn [andb];
    [|intros Hc; inversion Hc].
  destruct text as [|a text]; cbn [JS.truthy_str]; [intros Hc; inversion Hc|].
  intros Hc. apply elem_of_cons in Hc as [-> | Hc]; [|inversion Hc].
  match goal with
  | |- context [JS.trim ?t] => exists result, (String a text), t
  end.
  repeat split; try discriminate; try assumption.
  destruct (sessionConfig st) as [cfg|]; [|reflexivity].
  destruct (assemblyApiKey st) as [key|]; [|reflexivity].
  destruct (_ && _); [|reflexivity]. apply translateWithLemur_blank.
Qed.

(** The translation sent by a step, traced to the event it answers. *)
Lemma translation_sent (st : Relay) (ev : Event) (m : ServerMessage) :
  ClientSend m ∈ (step W st ev).2 -> type_of m = "translation" ->
  exists id data, ev = OnAssemblyMessage id data /\ id < length (sockets st) /\
                  ClientSend m ∈ on_assembly_message W st data.
Proof.
  relay_cases W st ev; try (intros Hc _; eexists _, _; repeat split; eassumption);
    each_call ltac:(fun H => try discriminate H; injection H as ->; discriminate).
Qed.

(** The relay sends a translation to the client only in answer to a
    final transcript of the provider that carries text, on a socket that
    exists; the message carries that text as its original. *)
Theorem translations_answer_final_transcripts (st : Relay) (ev : Event)
    (speaker originalText translatedText : string)
    (confidence startTime endTime : JS.number) :
  ClientSend (MsgTranslation speaker originalText translatedText confidence startTime endTime)
    ∈ (step W st ev).2 ->
  exists id data result,
    ev = OnAssemblyMessage id data /\ id < length (sockets st) /\
    JSON_parse_assembly W data = Some result /\
    res_message_type result = Some "FinalTranscript" /\
    res_text result = Some originalText /\ originalText <> "".
Proof.
  intros Hc. apply translation_sent in Hc as (id & data & -> & Hid & Hc); [|reflexivity].
  apply on_assembly_message_sends in Hc
    as (result & text & translated & Hparse & Hty & Htext & Hne & _ & [= -> -> _ _ _ _]).
  exists id, data, result. auto 10.
Qed.

(** Every translation the relay sends is well formed: the speaker is
    "A", the original text is not empty, the confidence is neither zero
    nor [NaN], and the translated text is trimmed; it is empty exactly
    when the original text is blank. *)
Theorem translation_messages_well_formed (st : Relay) (ev : Event)
    (speaker originalText translatedText : string)
    (confidence startTime endTime : JS.number) :
  ClientSend (MsgTranslation speaker originalText translatedText confidence startTime endTime)
    ∈ (step W st ev).2 ->
  speaker = "A" /\ originalText <> "" /\ JS.truthy_num confidence = true /\
  JS.trim translatedText = translatedText /\
  (translatedText = "" <-> blank originalText = true).
Proof.
  intros Hc. apply translation_sent in Hc as (id & data & -> & Hid & Hc); [|reflexivity].
  apply on_assembly_message_sends in Hc
    as (result & text & translated & Hparse & Hty & Htext & Hne & Hblank &
        [= -> -> -> -> _ _]).
  repeat split.
  - exact Hne.
  - apply or_num_truthy. reflexivity.
  - apply TrimFacts.trim_idem.
  - intros Hempty. rewrite <- Hblank. unfold blank. rewrite Hempty. reflexivity.
  - rewrite <- Hblank. unfold blank. destruct (JS.trim translated); [reflexivity | discriminate].
Qed.

End WithWorld.

(** *** Examples *)

(** The model is asked to put "hola" into English and replies
    " hello ". *)
Lemma translateWithLemur_falls_back_witness :
  translateWithLemur Sample.world "hola" "es" "en" "key" = JS.trim " hello " /\
  JS.trim " hello " = "hello".
Proof.
  split; [|reflexivity].
  apply (proj1 (translateWithLemur_falls_back Sample.world "hola" "es" "en" "key")
           " hello ").
  - reflexivity.
  - discriminate.
  - reflexivity.
  - reflexivity.
Defined.

Lemma translations_answer_final_transcripts_witness :
  exists id data result,
    OnAssemblyMessage 0 (Sample.final_frame "hola") = OnAssemblyMessage id data /\
    id < length (sockets Cases.streaming_relay) /\
    JSON_parse_assembly Sample.world data = Some result /\
    res_message_type result = Some "FinalTranscript" /\
    res_text result = Some "hola" /\ "hola" <> "".
Proof.
  apply (translations_answer_final_transcripts Sample.world Cases.streaming_relay
           (OnAssemblyMessage 0 (Sample.final_frame "hola")) "A" "hola" "hello"
           JS.lit_0_9 (JS.of_Z 100) (JS.of_Z 900)).
  vm_compute. repeat constructor.
Defined.

Lemma translation_messages_well_formed_witness :
  "A" = "A" /\ "hola" <> "" /\ JS.truthy_num JS.lit_0_9 = true /\
  JS.trim "hello" = "hello" /\ ("hello" = "" <-> blank "hola" = true).
Proof.
  apply (translation_messages_well_formed Sample.world Cases.streaming_relay
           (OnAssemblyMessage 0 (Sample.final_frame "hola")) "A" "hola" "hello"
           JS.lit_0_9 (JS.of_Z 100) (JS.of_Z 900)).
  vm_compute. repeat constructor.
Defined.

End TranslationFacts.

(** ** From the relay to the database, through RecordScreen *)

Module PipelineFacts.

Import Storage Routes Spec Terms Screens.

(** A number survives a second passage through JSON unchanged. *)
Lemma JSON_field_number (x : JS.number) :
  JSLib.JSON_field (JSLib.JSON_number x) = JSLib.JSON_number x.
Proof. destruct x; reflexivity. Qed.

(** The default of a time is applied by the client; the server, which
    applies the same default to what arrives, changes nothing. *)
Lemma or_num_JSON_twice (x d : JS.number) :
  JS.or_num (JSLib.JSON_number (JS.or_num (JSLib.JSON_number x) d)) d =
  JS.or_num (JSLib.JSON_number x) d.
Proof.
  assert (Hd : JS.or_num (JSLib.JSON_number d) d = d) by (destruct d; reflexivity).
  destruct x; cbn; try exact Hd. reflexivity.
Qed.

Section WithWorld.

Context (W : World).

(** The row that finalize builds for a translation the relay sent, from
    what RecordScreen keeps of it and submits at index [i]: the speaker
    and the original text as relayed, the translated text unless the
    transcript was blank, the confidence unless it is infinite, and each
    time unless it is zero or infinite, where the time the index stands
    for is stored. *)
Theorem relayed_translation_row (st : Relay) (ev : Event)
    (speaker originalText translatedText : string)
    (confidence startTime endTime : JS.number)
    (message : TranslationMessage) (sessionId : Z) (i : nat) :
  ClientSend (MsgTranslation speaker originalText translatedText confidence startTime endTime)
    ∈ (step W st ev).2 ->
  received (MsgTranslation speaker originalText translatedText confidence startTime endTime)
    = Some message ->
  utteranceData sessionId i (submitted i (newChunk message)) =
  {| utt_sessionId := sessionId;
     utt_speakerLabel := "A";
     utt_originalText := Some originalText;
     utt_translatedText := if blank originalText then None else Some translatedText;
     utt_confidence := JS.or_num (JSLib.JSON_number confidence) JS.lit_0_9;
     utt_startTime :=
       JS.or_num (JSLib.JSON_number startTime) (JS.mul (JS.of_nat i) JS.lit_5000);
     utt_endTime :=
       JS.or_num (JSLib.JSON_number endTime)
         (JS.mul (JS.add (JS.of_nat i) JS.one) JS.lit_5000) |}.
Proof.
  intros Hc [= <-].
  apply TranslationFacts.translation_sent in Hc as (id & data & -> & Hid & Hc);
    [|reflexivity].
  apply TranslationFacts.on_assembly_message_sends in Hc
    as (result & text & translated & Hparse & Hty & Htext & Hne & Hblank &
        [= -> -> -> -> -> ->]).
  unfold utteranceData, submitted, newChunk.
  cbn [u_speaker u_text u_originalText u_translatedText u_confidence u_startTime u_endTime
       chunk_speaker chunk_text chunk_originalText chunk_confidence chunk_startTime
       chunk_endTime tm_speaker tm_originalText tm_translatedText tm_confidence
       tm_startTime tm_endTime].
  rewrite JSON_field_number, !or_num_JSON_twice.
  f_equal.
  - destruct text as [|a text]; [contradiction|]. reflexivity.
  - rewrite <- Hblank. unfold blank. destruct text as [|a text]; [contradiction|].
    destruct (JS.trim translated); reflexivity.
Qed.

(** A chunk of which the translated text is empty makes the request to
    finalize fail as a whole, where the database enforces NOT NULL on
    [translated_text]: the row built for it has none, the insert of all
    rows is rejected, and neither utterances nor metrics are stored. *)
Theorem empty_translation_fails_finalize (db : DatabaseStorage) (userId : string)
    (sessionId : Z) (duration : option JS.number) (translations : list TranslationChunk)
    (session : TranscriptionSession) (i : nat) (t : TranslationChunk) :
  (forall rows row, row ∈ rows -> utt_translatedText row = None ->
     accepts_insert (postgres W) rows = false) ->
  getSessionById db sessionId = Some session -> session_userId session = userId ->
  translations !! i = Some t -> JS.truthy_opt JS.truthy_str (chunk_text t) = false ->
  finalize W db userId sessionId duration (Some (finalize_utterances translations)) =
  (db, server_error).
Proof.
  intros Hnotnull Hsession Howner Hi Hempty. unfold finalize.
  rewrite Hsession, Howner, String.eqb_refl. cbn [negb].
  assert (Hrej : accepts_insert (postgres W)
                   (imap (utteranceData sessionId) (finalize_utterances translations)) = false).
  { apply (Hnotnull _ (utteranceData sessionId i (submitted i t))).
    - apply list_elem_of_lookup. exists i. unfold finalize_utterances.
      rewrite !list_lookup_imap, Hi. reflexivity.
    - cbn. unfold JS.or_opt. rewrite Hempty. reflexivity. }
  unfold finalize_utterances in *.
  destruct translations as [|t0 ts]; [discriminate Hi|].
  cbn [imap] in *. unfold createUtterances. rewrite Hrej. reflexivity.
Qed.

End WithWorld.

(** *** The metrics of a recorded session *)

Lemma set_size_constant {A} `{EqDecision A} (xs : list A) (x : A) :
  xs <> [] -> Forall (fun y => y = x) xs -> JS.set_size xs = 1.
Proof.
  unfold JS.set_size. induction xs as [|y xs IH]; [contradiction|].
  intros _ Hall. apply Forall_cons in Hall as [-> Hall]. cbn [remove_dups].
  destruct xs as [|z xs].
  - case_decide as Hin; [inversion Hin | reflexivity].
  - case_decide as Hin.
    + apply IH; [discriminate | exact Hall].
    + exfalso. apply Hin. apply Forall_cons in Hall as [-> _]. constructor.
Qed.

Lemma split_space_length_positive (s : string) : 1 <= JS.split_space_length s.
Proof.
  induction s as [|c s IH]; cbn; [lia|]. destruct (N_of_ascii c =? 32)%N; lia.
Qed.

Lemma fold_left_counts {A} (f : A -> nat) (xs : list A) (a : nat) :
  (forall x, 1 <= f x) -> a + length xs <= fold_left (fun sum x => sum + f x) xs a.
Proof.
  intros Hf. revert a. induction xs as [|x xs IH]; intros a; cbn [fold_left length]; [lia|].
  specialize (IH (a + f x)). specialize (Hf x). lia.
Qed.

(** The metrics stored for what RecordScreen submits: when every chunk
    has the same speaker, as every chunk of the relay has, the speaker
    count is 1; and the word count is at least the number of chunks,
    since a chunk without a word counts as one. *)
Theorem recorded_session_metrics (translations : list TranslationChunk) (speaker : string) :
  translations <> [] ->
  Forall (fun t => chunk_speaker t = speaker) translations ->
  speakerCount (Some (finalize_utterances translations)) = 1 /\
  length translations <= totalWordCount (Some (finalize_utterances translations)).
Proof.
  intros Hne Hall. unfold speakerCount, totalWordCount, finalize_utterances. split.
  - apply (set_size_constant _ (Some speaker)).
    + destruct translations; [contradiction | discriminate].
    + apply Forall_forall. intros y Hy. apply list_elem_of_fmap in Hy as (u & -> & Hu).
      apply list_elem_of_lookup in Hu as [i Hi]. rewrite list_lookup_imap in Hi.
      destruct (translations !! i) as [t|] eqn:Ht; [|discriminate]. injection Hi as <-.
      cbn. f_equal. rewrite Forall_forall in Hall. apply Hall.
      apply list_elem_of_lookup. eauto.
  - rewrite <- (length_imap submitted translations) at 1.
    apply (fold_left_counts _ _ 0). intros u. apply split_space_length_positive.
Qed.

(** *** Examples *)

(** The database of [Sample.world] enforces NOT NULL on both texts. *)
Lemma sample_enforces_not_null (rows : list InsertUtterance) (row : InsertUtterance) :
  row ∈ rows -> utt_translatedText row = None ->
  accepts_insert (postgres Sample.world) rows = false.
Proof.
  intros Hrow Hnull. cbn. apply not_true_iff_false. intros Hall.
  rewrite forallb_forall in Hall. apply list_elem_of_In in Hrow.
  specialize (Hall row Hrow). rewrite Hnull in Hall.
  apply andb_true_iff in Hall as [_ Hall]. apply bool_decide_eq_true in Hall.
  destruct Hall as [x Hx]. discriminate.
Qed.

Lemma relayed_translation_row_witness :
  utteranceData 7 0
    (submitted 0
       (newChunk
          {| tm_speaker := Some "A"; tm_originalText := Some "hola";
             tm_translatedText := Some "hello"; tm_confidence := Some JS.lit_0_9;
             tm_startTime := Some (JS.of_Z 100); tm_endTime := Some (JS.of_Z 900) |})) =
  {| utt_sessionId := 7;
     utt_speakerLabel := "A";
     utt_originalText := Some "hola";
     utt_translatedText := if blank "hola" then None else Some "hello";
     utt_confidence := JS.or_num (JSLib.JSON_number JS.lit_0_9) JS.lit_0_9;
     utt_startTime :=
       JS.or_num (JSLib.JSON_number (JS.of_Z 100)) (JS.mul (JS.of_nat 0) JS.lit_5000);
     utt_endTime :=
       JS.or_num (JSLib.JSON_number (JS.of_Z 900))
         (JS.mul (JS.add (JS.of_nat 0) JS.one) JS.lit_5000) |}.
Proof.
  apply (relayed_translation_row Sample.world Cases.streaming_relay
           (OnAssemblyMessage 0 (Sample.final_frame "hola")) "A" "hola" "hello"
           JS.lit_0_9 (JS.of_Z 100) (JS.of_Z 900)).
  - vm_compute. repeat constructor.
  - reflexivity.
Defined.

(** One chunk with an empty translation after one with a translation:
    neither is stored. *)
Lemma empty_translation_fails_finalize_witness :
  finalize Sample.world Sample.db "u1" 7 (Some (JS.of_Z 12))
    (Some (finalize_utterances [Cases.hola_chunk; Cases.empty_chunk])) =
  (Sample.db, server_error).
Proof.
  apply (empty_translation_fails_finalize Sample.world Sample.db "u1" 7 (Some (JS.of_Z 12))
           [Cases.hola_chunk; Cases.empty_chunk] Sample.session_7 1 Cases.empty_chunk).
  - apply sample_enforces_not_null.
  - reflexivity.
  - reflexivity.
  - reflexivity.
  - reflexivity.
Defined.

(** A chunk with a translation and one with an empty translation: one
    speaker, and two words. *)
Lemma recorded_session_metrics_witness :
  speakerCount (Some (finalize_utterances [Cases.hola_chunk; Cases.empty_chunk])) = 1 /\
  length [Cases.hola_chunk; Cases.empty_chunk] <=
    totalWordCount (Some (finalize_utterances [Cases.hola_chunk; Cases.empty_chunk])).
Proof.
  apply (recorded_session_metrics [Cases.hola_chunk; Cases.empty_chunk] "A").
  - discriminate.
  - repeat constructor.
Defined.

End PipelineFacts.

(** ** The routes behind [authMiddleware], signup and the storage *)

Module ServerFacts.

Import Storage Routes Spec Terms Server.

(** *** Strings *)

Lemma prefix_slice_from (p s : string) :
  String.prefix p s = true -> s = (p ++ JSLib.slice_from (String.length p) s)%string.
Proof.
  revert s. induction p as [|a p IH]; intros s; [reflexivity|].
  destruct s as [|b s]; cbn; [discriminate|].
  destruct (Ascii.ascii_dec a b) as [<- | _]; [|discriminate].
  intros Hp.
  change (String a s = String a (p ++ JSLib.slice_from (String.length p) s)%string).
  f_equal. apply IH. exact Hp.
Qed.

Lemma prefix_append (p s : string) : String.prefix p (p ++ s)%string = true.
Proof.
  induction p as [|a p IH]; [destruct s; reflexivity|].
  change (String.prefix (String a p) (String a (p ++ s)%string) = true). cbn.
  destruct (Ascii.ascii_dec a a) as [_ | Hne]; [exact IH | contradiction].
Qed.

Lemma slice_from_append (p s : string) :
  JSLib.slice_from (String.length p) (p ++ s)%string = s.
Proof. induction p as [|a p IH]; [destruct s; reflexivity | exact IH]. Qed.

Section WithWorld.

Context (W : World) (E : Engine).

(** *** [authMiddleware] *)

Lemma authMiddleware_authorized (authorization : option string) (userId : string) :
  authMiddleware W authorization = Authorized userId ->
  exists token, authorization = Some (bearer token) /\
                jwt_verify W (Some token) (JWT_SECRET W) = Some userId.
Proof.
  unfold authMiddleware. destruct authorization as [authHeader|]; [|discriminate].
  destruct (JSLib.startsWith "Bearer " authHeader) eqn:Hp; [|discriminate].
  destruct (jwt_verify W _ _) as [u|] eqn:Hv; [|discriminate].
  intros [= <-]. exists (JSLib.slice_from 7 authHeader). split; [|exact Hv].
  f_equal. exact (prefix_slice_from "Bearer " authHeader Hp).
Qed.

(** A request passes [authMiddleware] as a user exactly when its
    Authorization header is "Bearer " followed by a token that verifies
    as that user's. *)
Theorem authorized_iff_valid_bearer (authorization : option string) (userId : string) :
  authMiddleware W authorization = Authorized userId <->
  exists token, authorization = Some (bearer token) /\
                jwt_verify W (Some token) (JWT_SECRET W) = Some userId.
Proof.
  split; [apply authMiddleware_authorized|].
  intros (token & -> & Hv).
  unfold authMiddleware, JSLib.startsWith, bearer. rewrite prefix_append.
  change 7 with (String.length "Bearer "). rewrite slice_from_append, Hv. reflexivity.
Qed.

(** *** POST /api/sessions/:id/finalize *)

(** A finalize request changes the database only when it carries a
    valid bearer token and the session of its path belongs to the
    token's user. *)
Theorem only_owner_changes_session (db : DatabaseStorage) (authorization : option string)
    (sessionId : Z) (duration : option JS.number)
    (utterances : option (list SubmittedUtterance)) :
  (post_finalize W db authorization sessionId duration utterances).1 <> db ->
  exists token userId session,
    authorization = Some (bearer token) /\
    jwt_verify W (Some token) (JWT_SECRET W) = Some userId /\
    getSessionById db sessionId = Some session /\ session_userId session = userId.
Proof.
  unfold post_finalize.
  destruct (authMiddleware W authorization) as [error|userId] eqn:Hauth;
    [intros Hne; contradiction|].
  apply authMiddleware_authorized in Hauth as (token & -> & Hv).
  unfold finalize. destruct (getSessionById db sessionId) as [session|];
    [|intros Hne; contradiction].
  destruct (String.eqb_spec (session_userId session) userId) as [Heq | _];
    [|intros Hne; contradiction].
  intros _. exists token, userId, session. auto.
Qed.

Lemma utteranceData_sessionId (pg : Postgres) (sessionId : Z)
    (us : list SubmittedUtterance) :
  Forall (fun row => utt_sessionId row = sessionId)
    (map (stored_utterance pg) (imap (utteranceData sessionId) us)).
Proof.
  apply Forall_forall. intros row Hrow.
  apply list_elem_of_lookup in Hrow as [i Hi].
  rewrite list_lookup_fmap, list_lookup_imap in Hi.
  destruct (us !! i); [|discriminate]. injection Hi as <-. reflexivity.
Qed.

(** What [finalize] leaves behind, whatever it answers: the database it
    was given, or that database with the rows of the request, or that
    one with the session updated. *)
Lemma filter_all {A} (P : A -> Prop) `{forall x, Decision (P x)} (l : list A) :
  Forall P l -> filter P l = l.
Proof.
  induction 1 as [|x l Hx _ IH]; [reflexivity|].
  rewrite filter_cons_True by exact Hx. f_equal. exact IH.
Qed.

Lemma finalize_outcomes (db : DatabaseStorage) (userId : string) (sessionId : Z)
    (duration : option JS.number) (utterances : option (list SubmittedUtterance)) :
  exists rows f,
    (rows = [] \/ rows = submitted_rows (postgres W) sessionId utterances) /\
    (f = id \/
     f = alter (apply_update (postgres W) (sessionUpdate duration utterances)) sessionId) /\
    (finalize W db userId sessionId duration utterances).1 =
      {| users := users db;
         transcriptionSessions := f (transcriptionSessions db);
         utterances := Storage.utterances db ++ rows |}.
Proof.
  assert (Hid : db = {| users := users db;
                        transcriptionSessions := id (transcriptionSessions db);
                        utterances := Storage.utterances db ++ [] |}).
  { destruct db. cbn. rewrite app_nil_r. reflexivity. }
  unfold finalize. destruct (getSessionById db sessionId) as [session|];
    [|exists [], id; auto].
  destruct (negb _); [exists [], id; auto|].
  destruct utterances as [[|u us]|].
  - unfold updateSession. destruct (accepts_update _ _ _); [|exists [], id; auto].
    exists [], (alter (apply_update (postgres W) (sessionUpdate duration (Some []))) sessionId).
    cbn. rewrite app_nil_r. auto.
  - unfold createUtterances. cbn [imap].
    destruct (accepts_insert _ _); [|exists [], id; auto].
    unfold updateSession. destruct (accepts_update _ _ _).
    + eexists _, _. split; [right; reflexivity|]. split; [right; reflexivity|]. reflexivity.
    + eexists _, id. split; [right; reflexivity|]. split; [left; reflexivity|]. reflexivity.
  - unfold updateSession. destruct (accepts_update _ _ _); [|exists [], id; auto].
    exists [], (alter (apply_update (postgres W) (sessionUpdate duration None)) sessionId).
    cbn. rewrite app_nil_r. auto.
Qed.

(** A finalize request touches the session of its path and nothing
    else: the accounts and every other session are as before, the
    session keeps its owner, no utterance is removed or changed, and the
    utterances added belong to that session. *)
Theorem finalize_touches_one_session (db : DatabaseStorage)
    (authorization : option string) (sessionId : Z) (duration : option JS.number)
    (utterances : option (list SubmittedUtterance)) :
  users (post_finalize W db authorization sessionId duration utterances).1 = users db /\
  (forall id, id <> sessionId ->
     getSessionById (post_finalize W db authorization sessionId duration utterances).1 id =
     getSessionById db id) /\
  session_userId <$>
    getSessionById (post_finalize W db authorization sessionId duration utterances).1
      sessionId =
  session_userId <$> getSessionById db sessionId /\
  exists rows,
    Storage.utterances (post_finalize W db authorization sessionId duration utterances).1 =
      Storage.utterances db ++ rows /\
    Forall (fun row => utt_sessionId row = sessionId) rows.
Proof.
  unfold post_finalize. destruct (authMiddleware W authorization) as [error|userId].
  { cbn [fst]. repeat split. exists []. rewrite app_nil_r. auto. }
  destruct (finalize_outcomes db userId sessionId duration utterances)
    as (rows & f & Hrows & Hf & ->).
  unfold getSessionById. cbn [users transcriptionSessions Storage.utterances].
  repeat split.
  - intros id Hne. destruct Hf as [-> | ->]; [reflexivity|].
    apply lookup_alter_ne. congruence.
  - destruct Hf as [-> | ->]; [reflexivity|]. rewrite lookup_alter_eq.
    destruct (transcriptionSessions db !! sessionId); reflexivity.
  - exists rows. split; [reflexivity|]. destruct Hrows as [-> | ->]; [constructor|].
    destruct utterances as [us|]; [apply utteranceData_sessionId | constructor].
Qed.

(** Finalizing is not atomic: when the database accepts the rows and
    then rejects the update of the session, the reply is the 500 of a
    failed request and the rows stay, so that a retry adds them again. *)
Theorem finalize_not_atomic (db : DatabaseStorage) (userId : string) (sessionId : Z)
    (duration : option JS.number) (us : list SubmittedUtterance)
    (session : TranscriptionSession) :
  getSessionById db sessionId = Some session -> session_userId session = userId ->
  us <> [] ->
  accepts_insert (postgres W) (imap (utteranceData sessionId) us) = true ->
  accepts_update (postgres W) sessionId (sessionUpdate duration (Some us)) = false ->
  (finalize W db userId sessionId duration (Some us)).2 = server_error /\
  getSessionById (finalize W db userId sessionId duration (Some us)).1 sessionId =
    Some session /\
  Storage.utterances (finalize W db userId sessionId duration (Some us)).1 =
    Storage.utterances db ++
    map (stored_utterance (postgres W)) (imap (utteranceData sessionId) us).
Proof.
  intros Hsession Howner Hus Hinsert Hupdate. unfold finalize.
  rewrite Hsession, Howner, String.eqb_refl. cbn [negb].
  destruct us as [|u us]; [contradiction|].
  unfold createUtterances. cbn [imap] in *. rewrite Hinsert.
  unfold updateSession. rewrite Hupdate. cbn. auto.
Qed.

(** After a finalize request that succeeded, reading the session back
    gives the session with the metrics of the request, the mean
    confidence as the [real] column returns it, and, in the engine's
    order, the utterances the session had and those of the request as
    the table holds them. *)
Theorem finalized_session_read_back (db db' : DatabaseStorage)
    (authorization : option string) (sessionId : Z) (duration : option JS.number)
    (utterances : option (list SubmittedUtterance)) :
  post_finalize W db authorization sessionId duration utterances =
    (db', {| status := 200; body := BodyFinalized sessionId |}) ->
  exists session,
    getSessionById db sessionId = Some session /\
    get_session W E db' authorization sessionId =
      ReplyDetail sessionId
        {| session_userId := session_userId session;
           session_sourceLanguage := session_sourceLanguage session;
           session_targetLanguage := session_targetLanguage session;
           session_duration := Some (JS.or_num duration JS.zero);
           session_speakerCount := Some (speakerCount utterances);
           session_avgConfidence := Some (real (postgres W) (avgConfidence utterances));
           session_totalWordCount := Some (totalWordCount utterances) |}
        (order_by_startTime E
           (utterances_of db sessionId ++
            submitted_rows (postgres W) sessionId utterances)).
Proof.
  unfold post_finalize, get_session.
  destruct (authMiddleware W authorization) as [error|userId]; [discriminate|].
  unfold finalize. destruct (getSessionById db sessionId) as [session|] eqn:Hsession;
    [|discriminate].
  destruct (String.eqb_spec (session_userId session) userId) as [Howner | _];
    [|discriminate].
  cbn [negb]. intros Hfin. exists session. split; [reflexivity|].
  assert (Hdb' : db' = {| users := users db;
                          transcriptionSessions :=
                            alter (apply_update (postgres W)
                                     (sessionUpdate duration utterances)) sessionId
                              (transcriptionSessions db);
                          utterances :=
                            Storage.utterances db ++
                            submitted_rows (postgres W) sessionId utterances |}).
  { unfold createUtterances, updateSession in Hfin.
    destruct utterances as [[|u us]|]; cbn [imap map submitted_rows] in *.
    - destruct (accepts_update _ _ _); [|discriminate]. injection Hfin as <-.
      rewrite app_nil_r. reflexivity.
    - destruct (accepts_insert _ _); [|discriminate].
      destruct (accepts_update _ _ _); [|discriminate]. injection Hfin as <-. reflexivity.
    - destruct (accepts_update _ _ _); [|discriminate]. injection Hfin as <-.
      rewrite app_nil_r. reflexivity. }
  subst db'. unfold getSessionById in *. cbn [transcriptionSessions].
  rewrite lookup_alter_eq, Hsession.
  cbn [fmap option_fmap option_map apply_update session_userId].
  rewrite Howner, String.eqb_refl. cbn [negb]. f_equal.
  { rewrite <- Howner. reflexivity. }
  unfold getUtterancesBySessionId, utterances_of. cbn [Storage.utterances].
  rewrite filter_app. f_equal. f_equal.
  destruct utterances as [us|]; [|reflexivity]. cbn [submitted_rows].
  apply filter_all, utteranceData_sessionId.
Qed.

(** *** GET /api/sessions/:id *)

(** The reply to a request for one session depends on nothing but what
    the caller may see: two databases that agree on the caller's view of
    the session, and on its utterances when it is the caller's, get the
    same reply; a session of someone else is answered like one that does
    not exist. *)
Theorem get_session_shows_own_data_only (db1 db2 : DatabaseStorage)
    (authorization : option string) (sessionId : Z) :
  (forall userId, authMiddleware W authorization = Authorized userId ->
     visible userId (getSessionById db1 sessionId) =
       visible userId (getSessionById db2 sessionId) /\
     (is_Some (visible userId (getSessionById db1 sessionId)) ->
      utterances_of db1 sessionId = utterances_of db2 sessionId)) ->
  get_session W E db1 authorization sessionId = get_session W E db2 authorization sessionId.
Proof.
  unfold get_session. destruct (authMiddleware W authorization) as [error|userId];
    [reflexivity|].
  intros Hview. destruct (Hview userId eq_refl) as [Hsession Hrows]. clear Hview.
  unfold visible in *.
  destruct (getSessionById db1 sessionId) as [s1|], (getSessionById db2 sessionId) as [s2|];
    try destruct (String.eqb (session_userId s1) userId);
    try destruct (String.eqb (session_userId s2) userId);
    cbn [negb]; try discriminate; try reflexivity.
  injection Hsession as <-. unfold getUtterancesBySessionId. rewrite Hrows by eauto.
  reflexivity.
Qed.

(** *** POST /api/sessions *)

(** A session that was created belongs to the caller, has an id that
    was not in use, and can be read back by the caller at once. *)
Theorem created_session_read_back (db db' : DatabaseStorage)
    (authorization sourceLanguage targetLanguage : option string) (id : Z)
    (session : TranscriptionSession) :
  post_sessions W E db authorization sourceLanguage targetLanguage =
    (db', ReplySession id session) ->
  authMiddleware W authorization = Authorized (session_userId session) /\
  getSessionById db id = None /\
  get_session W E db' authorization id =
    ReplyDetail id session (getUtterancesBySessionId E db id).
Proof.
  unfold post_sessions, get_session.
  destruct (authMiddleware W authorization) as [error|userId]; [discriminate|].
  unfold createSession. destruct (negb (user_exists db _)); [discriminate|].
  destruct (transcriptionSessions db !! nextval E db) eqn:Hfresh; [discriminate|].
  intros [= <- <- <-]. cbn [session_userId]. repeat split; [exact Hfresh|].
  unfold getSessionById. cbn [transcriptionSessions]. rewrite lookup_insert_eq.
  cbn [session_userId]. rewrite String.eqb_refl. reflexivity.
Qed.

(** *** GET /api/sessions *)

(** The list of sessions holds the caller's sessions, all of them and
    no others, where [ORDER BY] only reorders. *)
Theorem listed_sessions_are_the_callers (db : DatabaseStorage)
    (authorization : option string) (userId : string)
    (sessions : list (Z * TranscriptionSession * string)) :
  (forall rows, order_by_createdAt E rows ≡ₚ rows) ->
  authMiddleware W authorization = Authorized userId ->
  get_sessions W E db authorization = ReplySessions sessions ->
  forall id session,
    (exists preview, (id, session, preview) ∈ sessions) <->
    getSessionById db id = Some session /\ session_userId session = userId.
Proof.
  intros Horder Hauth. unfold get_sessions. rewrite Hauth. intros [= <-] id session.
  unfold getSessionsByUserId, getSessionById. split.
  - intros (p & Hin). apply list_elem_of_fmap in Hin as ([id' session'] & [= -> -> _] & Hin).
    rewrite Horder in Hin. apply list_elem_of_filter in Hin as [Howner Hin].
    apply elem_of_map_to_list in Hin. auto.
  - intros [Hsession Howner]. eexists. apply list_elem_of_fmap.
    exists (id, session). split; [reflexivity|].
    rewrite Horder. apply list_elem_of_filter. split; [exact Howner|].
    apply elem_of_map_to_list. exact Hsession.
Qed.

(** The preview of a session is the beginning of the translated text
    of its first utterance, at most 100 UTF-16 code units of it: its
    code units are the first 100 of that text, a character outside the
    basic plane counting twice. *)
Theorem preview_is_a_short_prefix (utterances : list InsertUtterance) :
  JS.string_length (preview utterances) <= 100 /\
  JS.units (preview utterances) =
    take 100 (JS.units (default "" (head utterances ≫= utt_translatedText))).
Proof.
  assert (Hcut : forall t,
            JS.or_str (Some (JSLib.slice_to 100 t)) "" = JSLib.slice_to 100 t).
  { intros t. unfold JS.or_str, JS.or_else.
    destruct (JSLib.slice_to 100 t); reflexivity. }
  destruct utterances as [|u us]; [split; [cbn; lia | reflexivity]|].
  cbn [preview head mbind option_bind].
  destruct (utt_translatedText u) as [t|]; [|split; [cbn; lia | reflexivity]].
  cbn [option_map default]. rewrite Hcut.
  split; [apply SliceFacts.string_length_slice_to | apply SliceFacts.units_slice_to].
Qed.

(** *** POST /api/auth/signup *)

(** Signup never changes what is there: every account keeps its row,
    and sessions and utterances are untouched. *)
Theorem signup_keeps_accounts (db : DatabaseStorage) (name email password : option string)
    (other : string) (user : User) :
  getUserByEmail db other = Some user ->
  getUserByEmail (signup W E db name email password).1 other = Some user /\
  transcriptionSessions (signup W E db name email password).1 = transcriptionSessions db /\
  utterances (signup W E db name email password).1 = utterances db.
Proof.
  intros Hother. unfold signup.
  destruct name as [name|], email as [email|], password as [password|]; auto.
  destruct (_ || _); auto.
  destruct (getUserByEmail db email) eqn:Hemail; auto.
  destruct (bcrypt_hash E password); auto.
  unfold createUser. unfold getUserByEmail in *. rewrite Hemail.
  cbn [user_id]. destruct (user_exists db _); auto.
  assert (Hne : email <> other) by congruence.
  destruct (jwt_sign W _ _); cbn [fst users transcriptionSessions utterances];
    rewrite lookup_insert_ne by exact Hne; auto.
Qed.

(** An account that signup created can log in with the same email and
    password, and is answered with the same identity, where bcrypt
    accepts a password against its own hash. *)
Theorem signup_then_login (db db' : DatabaseStorage) (name email password : string)
    (token id email' name' : string) :
  (forall hash, bcrypt_hash E password = Some hash ->
     bcrypt_compare W password hash = Some true) ->
  signup W E db (Some name) (Some email) (Some password) =
    (db', {| status := 200; body := BodyAuth token id email' name' |}) ->
  email' = email /\ name' = name /\
  exists token',
    login W db' (Some email) (Some (JString password)) =
      {| status := 200; body := BodyAuth token' id email name |}.
Proof.
  intros Hbcrypt. unfold signup.
  destruct (_ || _) eqn:Hrequired; [discriminate|].
  destruct (getUserByEmail db email) eqn:Hemail; [discriminate|].
  destruct (bcrypt_hash E password) as [hash|] eqn:Hhash; [|discriminate].
  unfold createUser. unfold getUserByEmail in Hemail. rewrite Hemail.
  cbn [user_id user_email user_name]. destruct (user_exists db _); [discriminate|].
  cbn [user_id user_email user_name].
  destruct (jwt_sign W _ _) as [t|] eqn:Hsign; [|discriminate].
  intros [= <- <- <- <- <-]. repeat split. exists t.
  unfold login. apply orb_false_iff in Hrequired as [Hrequired Hpassword].
  apply orb_false_iff in Hrequired as [_ Hmail].
  cbn [truthy_json]. rewrite Hmail, Hpassword. cbn [orb].
  unfold getUserByEmail. cbn [users]. rewrite lookup_insert_eq.
  cbn [compare user_password user_id user_email user_name].
  rewrite (Hbcrypt hash eq_refl), Hsign. reflexivity.
Qed.

End WithWorld.

(** *** Examples *)

Lemma only_owner_changes_session_witness :
  exists token userId session,
    Some (bearer "good") = Some (bearer token) /\
    jwt_verify Sample.world (Some token) (JWT_SECRET Sample.world) = Some userId /\
    getSessionById Sample.db 7 = Some session /\ session_userId session = userId.
Proof.
  apply (only_owner_changes_session Sample.world Sample.db (Some (bearer "good")) 7
           (Some (JS.of_Z 12)) (Some Sample.complete_pair)).
  intros Hsame. apply (f_equal utterances) in Hsame. vm_compute in Hsame.
  discriminate Hsame.
Defined.

(** The rows of a request are inserted, the update is rejected: the
    rows are there, the session is as it was, the reply is a 500. *)
Lemma finalize_not_atomic_witness :
  (finalize Cases.rejecting_updates Sample.db "u1" 7 (Some (JS.of_Z 12))
     (Some Sample.complete_pair)).2 = server_error /\
  getSessionById
    (finalize Cases.rejecting_updates Sample.db "u1" 7 (Some (JS.of_Z 12))
       (Some Sample.complete_pair)).1 7 = Some Sample.session_7 /\
  utterances
    (finalize Cases.rejecting_updates Sample.db "u1" 7 (Some (JS.of_Z 12))
       (Some Sample.complete_pair)).1 =
    utterances Sample.db ++
    map (stored_utterance (postgres Cases.rejecting_updates))
      (imap (utteranceData 7) Sample.complete_pair).
Proof.
  apply (finalize_not_atomic Cases.rejecting_updates Sample.db "u1" 7 (Some (JS.of_Z 12))
           Sample.complete_pair Sample.session_7).
  - reflexivity.
  - reflexivity.
  - discriminate.
  - reflexivity.
  - reflexivity.
Defined.

Lemma finalized_session_read_back_witness :
  exists session,
    getSessionById Sample.db 7 = Some session /\
    get_session Sample.world Cases.engine
      (post_finalize Sample.world Sample.db (Some (bearer "good")) 7 (Some (JS.of_Z 12))
         (Some Sample.complete_pair)).1
      (Some (bearer "good")) 7 =
      ReplyDetail 7
        {| session_userId := session_userId session;
           session_sourceLanguage := session_sourceLanguage session;
           session_targetLanguage := session_targetLanguage session;
           session_duration := Some (JS.or_num (Some (JS.of_Z 12)) JS.zero);
           session_speakerCount := Some (speakerCount (Some Sample.complete_pair));
           session_avgConfidence :=
             Some (real (postgres Sample.world)
                     (avgConfidence (Some Sample.complete_pair)));
           session_totalWordCount := Some (totalWordCount (Some Sample.complete_pair)) |}
        (order_by_startTime Cases.engine
           (utterances_of Sample.db 7 ++
            submitted_rows (postgres Sample.world) 7 (Some Sample.complete_pair))).
Proof.
  apply (finalized_session_read_back Sample.world Cases.engine Sample.db).
  reflexivity.
Defined.

(** A session of another user, with an utterance, is added to the
    database: what "u1" is answered about session 9 does not change. *)
Lemma get_session_shows_own_data_only_witness :
  get_session Sample.world Cases.engine Sample.db (Some (bearer "good")) 9 =
  get_session Sample.world Cases.engine Cases.db_of_two (Some (bearer "good")) 9.
Proof.
  apply (get_session_shows_own_data_only Sample.world Cases.engine Sample.db Cases.db_of_two
           (Some (bearer "good")) 9).
  intros userId Hauth. vm_compute in Hauth. injection Hauth as <-.
  split; [reflexivity|]. intros [session Hsession]. discriminate Hsession.
Defined.

Lemma created_session_read_back_witness :
  authMiddleware Sample.world (Some (bearer "good")) =
    Authorized
      (session_userId
         {| session_userId := "u1"; session_sourceLanguage := "fr";
            session_targetLanguage := "en"; session_duration := Some JS.zero;
            session_speakerCount := Some 1; session_avgConfidence := None;
            session_totalWordCount := Some 0 |}) /\
  getSessionById Sample.db 8 = None /\
  get_session Sample.world Cases.engine
    (post_sessions Sample.world Cases.engine Sample.db (Some (bearer "good"))
       (Some "fr") None).1
    (Some (bearer "good")) 8 =
    ReplyDetail 8
      {| session_userId := "u1"; session_sourceLanguage := "fr";
         session_targetLanguage := "en"; session_duration := Some JS.zero;
         session_speakerCount := Some 1; session_avgConfidence := None;
         session_totalWordCount := Some 0 |}
      (getUtterancesBySessionId Cases.engine Sample.db 8).
Proof.
  apply (created_session_read_back Sample.world Cases.engine Sample.db
           (post_sessions Sample.world Cases.engine Sample.db (Some (bearer "good"))
              (Some "fr") None).1
           (Some (bearer "good")) (Some "fr") None).
  reflexivity.
Defined.

(** In a database with a session of "u1" and one of "u2", session 9 of
    "u2" is not in the list of "u1". *)
Lemma listed_sessions_are_the_callers_witness :
  (exists preview, (9%Z, Cases.session_9, preview) ∈ [(7%Z, Sample.session_7, "")]) <->
  getSessionById Cases.db_of_two 9 = Some Cases.session_9 /\
  session_userId Cases.session_9 = "u1".
Proof.
  apply (listed_sessions_are_the_callers Sample.world Cases.engine Cases.db_of_two
           (Some (bearer "good")) "u1" [(7%Z, Sample.session_7, "")]).
  - reflexivity.
  - reflexivity.
  - vm_compute. reflexivity.
Defined.

Lemma signup_keeps_accounts_witness :
  getUserByEmail
    (signup Sample.world Cases.engine Sample.db (Some "Bob") (Some "bob@example.org")
       (Some "secret1")).1 "alice@example.org" = Some Sample.alice /\
  transcriptionSessions
    (signup Sample.world Cases.engine Sample.db (Some "Bob") (Some "bob@example.org")
       (Some "secret1")).1 = transcriptionSessions Sample.db /\
  utterances
    (signup Sample.world Cases.engine Sample.db (Some "Bob") (Some "bob@example.org")
       (Some "secret1")).1 = utterances Sample.db.
Proof.
  apply (signup_keeps_accounts Sample.world Cases.engine Sample.db (Some "Bob")
           (Some "bob@example.org") (Some "secret1") "alice@example.org" Sample.alice).
  reflexivity.
Defined.

Lemma signup_then_login_witness :
  "bob@example.org" = "bob@example.org" /\ "Bob" = "Bob" /\
  exists token',
    login Sample.world
      (signup Sample.world Cases.engine Sample.db (Some "Bob") (Some "bob@example.org")
         (Some "secret1")).1
      (Some "bob@example.org") (Some (JString "secret1")) =
    {| status := 200; body := BodyAuth token' "u2" "bob@example.org" "Bob" |}.
Proof.
  apply (signup_then_login Sample.world Cases.engine Sample.db
           (signup Sample.world Cases.engine Sample.db (Some "Bob") (Some "bob@example.org")
              (Some "secret1")).1
           "Bob" "bob@example.org" "secret1" "jwt:u2" "u2" "bob@example.org" "Bob").
  - intros hash [= <-]. reflexivity.
  - reflexivity.
Defined.

End ServerFacts.

(** ** The screens *)

Module ScreenFacts.

Import Storage Routes Spec Terms Screens.

(** *** [getSpeakerColor] *)

Lemma SpeakerColors_lookup (i : Z) :
  (0 <= i < 5)%Z -> is_Some (Theme.SpeakerColors !! Z.to_nat i).
Proof.
  intros Hi. apply lookup_lt_is_Some. cbn. lia.
Qed.

(** A speaker has no colour exactly when the label is empty or starts
    with a character before "A" at a distance from it that is no
    multiple of five. Of the digits, "2" and "7" are at such a multiple
    and get the first colour of the palette, as "A" does; the eight
    others get none. *)
Theorem speaker_colour_undefined :
  (forall speaker,
     getSpeakerColor speaker = None <->
     match JSLib.charCodeAt0 speaker with
     | None => True
     | Some code => (code < 65 /\ (65 - code) mod 5 <> 0)%Z
     end) /\
  map getSpeakerColor ["0"; "1"; "2"; "3"; "4"; "5"; "6"; "7"; "8"; "9"] =
    [None; None; getSpeakerColor "A"; None; None;
     None; None; getSpeakerColor "A"; None; None] /\
  getSpeakerColor "A" = head Theme.SpeakerColors /\
  is_Some (getSpeakerColor "A").
Proof.
  split; [|repeat split; vm_compute; eauto].
  intros speaker.
  unfold getSpeakerColor. destruct (JSLib.charCodeAt0 speaker) as [code|]; [|tauto].
  cbv zeta. change (Z.of_nat (length Theme.SpeakerColors)) with 5%Z.
  unfold JSLib.remainder.
  destruct (Z.lt_ge_cases code 65%Z) as [Hlt | Hge].
  - replace (code - 65)%Z with (- (65 - code))%Z by lia.
    rewrite Z.rem_opp_l by lia. rewrite Z.rem_mod_nonneg by lia.
    pose proof (Z.mod_pos_bound (65 - code)%Z 5%Z ltac:(lia)) as Hbound.
    destruct (Z.eq_dec ((65 - code) mod 5)%Z 0%Z) as [Hzero | Hnonzero].
    + rewrite Hzero. cbn. split; [discriminate | intros [_ Hne]; contradiction].
    + destruct (Z.ltb_spec (- ((65 - code) mod 5))%Z 0%Z) as [_ | Hpos]; [tauto | lia].
  - rewrite Z.rem_mod_nonneg by lia.
    pose proof (Z.mod_pos_bound (code - 65)%Z 5%Z ltac:(lia)) as Hbound.
    destruct (Z.ltb_spec ((code - 65) mod 5)%Z 0%Z) as [Hneg | _]; [lia|].
    destruct (SpeakerColors_lookup _ Hbound) as [colour ->].
    split; [discriminate | lia].
Qed.


(** *** [formatDuration] *)

Lemma to_int_not_nil (n : Z) :
  Z.to_int n <> Decimal.Pos Decimal.Nil /\ Z.to_int n <> Decimal.Neg Decimal.Nil.
Proof.
  split; intros Hnil; pose proof (DecimalZ.of_to n) as Hn; rewrite Hnil in Hn;
    cbn in Hn; subst n; discriminate Hnil.
Qed.

(** The decimal digits of an integer determine it. *)
Lemma toString_inj (a b : Z) : JSLib.toString a = JSLib.toString b -> a = b.
Proof.
  unfold JSLib.toString. intros Heq.
  destruct (to_int_not_nil a) as [Ha1 Ha2], (to_int_not_nil b) as [Hb1 Hb2].
  pose proof (NilZero.isi _ Ha1 Ha2) as Ha. pose proof (NilZero.isi _ Hb1 Hb2) as Hb.
  rewrite Heq in Ha. rewrite Ha in Hb. injection Hb as Hb.
  rewrite <- (DecimalZ.of_to a), <- (DecimalZ.of_to b), Hb. reflexivity.
Qed.

Lemma uint_no_colon (d : Decimal.uint) :
  occurs ":" (NilEmpty.string_of_uint d) = false.
Proof. induction d; cbn; auto. Qed.

Lemma toString_no_colon (n : Z) : occurs ":" (JSLib.toString n) = false.
Proof.
  unfold JSLib.toString.
  destruct (Z.to_int n) as [d|d]; cbn [NilZero.string_of_int occurs Ascii.eqb Bool.eqb orb];
    destruct d; try reflexivity; apply (uint_no_colon (_ d)).
Qed.

(** A string is cut at its first colon in one way. *)
Lemma cut_at_colon (a a' b b' : string) :
  occurs ":" a = false -> occurs ":" a' = false ->
  (a ++ ":" ++ b)%string = (a' ++ ":" ++ b')%string -> a = a' /\ b = b'.
Proof.
  revert a'. induction a as [|c a IH]; intros [|c' a'] Ha Ha' Heq.
  - injection Heq as Heq. auto.
  - injection Heq as Hc _. subst c'. cbn in Ha'. discriminate.
  - injection Heq as Hc _. subst c. cbn in Ha. discriminate.
  - injection Heq as -> Heq. cbn [occurs] in Ha, Ha'.
    apply orb_false_iff in Ha as [_ Ha]. apply orb_false_iff in Ha' as [_ Ha'].
    destruct (IH a' Ha Ha' Heq) as [-> ->]. auto.
Qed.

(** The seconds are shown differently for each number of seconds there
    is in a minute. *)
Lemma seconds_shown_table :
  forallb (fun i => forallb (fun j =>
      implb (String.eqb (seconds_shown (Z.of_nat i)) (seconds_shown (Z.of_nat j)))
            (Nat.eqb i j)) (seq 0 60)) (seq 0 60) = true.
Proof. vm_compute. reflexivity. Qed.

Lemma seconds_shown_inj (a b : Z) :
  (0 <= a < 60)%Z -> (0 <= b < 60)%Z -> seconds_shown a = seconds_shown b -> a = b.
Proof.
  intros Ha Hb Heq. pose proof seconds_shown_table as Htable.
  rewrite forallb_forall in Htable. specialize (Htable (Z.to_nat a)).
  rewrite forallb_forall in Htable.
  specialize (Htable ltac:(apply in_seq; lia) (Z.to_nat b) ltac:(apply in_seq; lia)).
  rewrite !Z2Nat.id in Htable by lia. rewrite Heq, String.eqb_refl in Htable.
  cbn in Htable. apply Nat.eqb_eq in Htable. lia.
Qed.

(** Two durations that differ are shown differently. *)
Theorem formatDuration_distinguishes (a b : Z) :
  (0 <= a)%Z -> (0 <= b)%Z -> a <> b -> formatDuration a <> formatDuration b.
Proof.
  intros Ha Hb Hne Heq. apply Hne. unfold formatDuration in Heq. cbv zeta in Heq.
  fold (seconds_shown (JSLib.remainder a 60)) (seconds_shown (JSLib.remainder b 60)) in Heq.
  apply cut_at_colon in Heq as [Hmins Hsecs]; try apply toString_no_colon.
  apply toString_inj in Hmins. unfold JSLib.remainder in Hsecs.
  rewrite !Z.rem_mod_nonneg in Hsecs by lia.
  apply (seconds_shown_inj (a mod 60)%Z (b mod 60)%Z) in Hsecs;
    try (apply Z.mod_pos_bound; lia).
  rewrite (Z.div_mod a 60%Z), (Z.div_mod b 60%Z) by lia. rewrite Hmins, Hsecs. reflexivity.
Qed.

(** *** [getWebSocketUrl] *)

(** The socket's address keeps the host of the API's address and is
    secure exactly when that one is. *)
Theorem getWebSocketUrl_keeps_host (host : string) :
  getWebSocketUrl ("https://" ++ host) = ("wss://" ++ host ++ "/ws/transcribe")%string /\
  getWebSocketUrl ("http://" ++ host) = ("ws://" ++ host ++ "/ws/transcribe")%string.
Proof.
  unfold getWebSocketUrl, JSLib.startsWith. split.
  - rewrite (ServerFacts.prefix_append "https://" host).
    change ("https://" ++ host)%string with ("https" ++ ("://" ++ host))%string at 1.
    rewrite (ServerFacts.prefix_append "https" _).
    change 8 with (String.length "https://").
    rewrite ServerFacts.slice_from_append. reflexivity.
  - rewrite (ServerFacts.prefix_append "http://" host).
    change 7 with (String.length "http://").
    rewrite ServerFacts.slice_from_append. reflexivity.
Qed.

(** *** LanguageSelectorScreen *)

Lemma gesture_distinct (st : Selector) (g : Gesture) :
  selectedSource st <> selectedTarget st ->
  selectedSource (gesture st g) <> selectedTarget (gesture st g).
Proof.
  intros Hne. destruct g as [code|tab]; [|exact Hne].
  cbn [gesture]. unfold handleLanguageSelect.
  destruct (activeTab st); cbn [selectedSource selectedTarget].
  - destruct (String.eqb_spec code (selectedTarget st)) as [-> | Hcode]; congruence.
  - destruct (String.eqb_spec code (selectedSource st)) as [-> | Hcode]; congruence.
Qed.

(** Source and target stay different languages: when they differ as the
    screen opens, they differ in what Done hands back, whatever was
    tapped in between. *)
Theorem selector_keeps_languages_distinct (st : Selector) (gs : list Gesture) :
  selectedSource st <> selectedTarget st ->
  (handleDone st gs).1 <> (handleDone st gs).2.
Proof.
  unfold handleDone. cbn [fst snd]. revert st.
  induction gs as [|g gs IH]; intros st Hne; [exact Hne|].
  cbn [fold_left]. apply IH, gesture_distinct, Hne.
Qed.

(** *** LoginScreen and SignupScreen *)

Section WithWorld.

Context (W : World) (E : Server.Engine).

(** What the signup form submits passes the server's check of the
    required fields: name and email are trimmed and not empty and the
    password has six UTF-16 code units or more, so the server does not
    answer "All fields are required". *)
Theorem signup_form_submits_all_fields (db : DatabaseStorage)
    (name email password name' email' password' : string) :
  handleSignup name email password = Submit name' email' password' ->
  name' = JS.trim name /\ email' = JS.trim email /\ password' = password /\
  6 <= JS.string_length password' /\
  body (Server.signup W E db (Some name') (Some email') (Some password')).2 <>
    BodyError "All fields are required".
Proof.
  unfold handleSignup. destruct (_ || _) eqn:Hblank; [discriminate|].
  destruct (Nat.ltb_spec (JS.string_length password) 6) as [_ | Hlen]; [discriminate|].
  intros [= <- <- <-]. repeat split; [exact Hlen|].
  apply orb_false_iff in Hblank as [Hblank Hpassword].
  apply orb_false_iff in Hblank as [Hname Hemail].
  unfold Server.signup. rewrite Hname, Hemail. cbn [orb].
  destruct password as [|c password]; [cbn in Hlen; lia|]. cbn [JS.truthy_str negb].
  destruct (getUserByEmail db _); [discriminate|].
  destruct (Server.bcrypt_hash E _); [|discriminate].
  destruct (Server.createUser E db _ _ _) as [[db1 user]|]; [|discriminate].
  destruct (jwt_sign W _ _); discriminate.
Qed.

End WithWorld.

(** *** Examples *)


(** 59 seconds and one minute. *)
Lemma formatDuration_distinguishes_witness : formatDuration 59 <> formatDuration 60.
Proof. apply (formatDuration_distinguishes 59 60); lia. Defined.

(** The target is tapped as the source, and then as the target again. *)
Lemma selector_keeps_languages_distinct_witness :
  (handleDone {| activeTab := source; selectedSource := "es"; selectedTarget := "en" |}
     [Select "en"; SwitchTab target; Select "en"]).1 <>
  (handleDone {| activeTab := source; selectedSource := "es"; selectedTarget := "en" |}
     [Select "en"; SwitchTab target; Select "en"]).2.
Proof.
  apply (selector_keeps_languages_distinct
           {| activeTab := source; selectedSource := "es"; selectedTarget := "en" |}).
  discriminate.
Defined.

Lemma signup_form_submits_all_fields_witness :
  "Bob" = JS.trim " Bob " /\ "bob@example.org" = JS.trim "bob@example.org " /\
  "secret1" = "secret1" /\ 6 <= JS.string_length "secret1" /\
  body (Server.signup Sample.world Cases.engine Sample.db (Some "Bob")
          (Some "bob@example.org") (Some "secret1")).2 <>
    BodyError "All fields are required".
Proof.
  apply (signup_form_submits_all_fields Sample.world Cases.engine Sample.db
           " Bob " "bob@example.org " "secret1").
  reflexivity.
Defined.

End ScreenFacts.
